(** * POS back office: order items, order totals and article creation

    A shallow embedding of [pos_project/core/models.py] and
    [pos_project/api/serializers.py].

    - A database table is a finite map from primary key to row.
    - A [DecimalField(decimal_places=2)] amount is an integer number of
      hundredths: [1000] stands for [10.00]. The amounts an instance or
      a request holds are numbers with two decimal places, as the column
      and the serializer fields declare them; a number with more places,
      which Python code can put into an instance and which the column
      would round, is outside this model. The digit limit [max_digits]
      is checked where Django checks it: by the serializer field, and
      when a stored amount is read back.
    - A [UUIDField] value is the 128-bit number of the UUID.
    - A Python [str] is the string of its UTF-8 bytes; [len] counts its
      characters, not its bytes.
    - Code that reads or writes the database runs in a state-and-exception
      monad [M]; a raised exception keeps the writes made before it, as a
      database in autocommit mode does.
    - The framework pieces the source relies on are modelled by what the
      field declarations ask of them: primary-key insert and update,
      [NOT NULL] columns, the range of a [PositiveIntegerField], the
      clock of [auto_now_add], foreign keys and their [on_delete] rule,
      reverse accessors named by [related_name]. Of the models outside
      these two files, the users that [creado_por] refers to are a set
      of keys; customers and sellers are not modelled, the references
      to them are plain identifiers. *)

From Stdlib Require Import Ascii.
From stdpp Require Import base numbers strings list gmap fin_maps pretty.

Local Open Scope Z_scope.

Abbreviation UUID := N (only parsing).
Abbreviation Decimal := Z (only parsing).

(** ** Models (core/models.py) *)

Module GrupoArticulo.
Record t := mk {
    grupo_id : UUID;
    codigo_grupo : string;
    nombre_grupo : string;
    estado : Z }.
End GrupoArticulo.

Module LineaArticulo.
Record t := mk {
    linea_id : UUID;
    codigo_linea : string;
    grupo : UUID;            (* ForeignKey(GrupoArticulo, RESTRICT) *)
    nombre_linea : string;
    estado : Z }.
End LineaArticulo.

Module Articulo.
Record t := mk {
    articulo_id : UUID;
    codigo_articulo : string;
    codigo_barras : string;
    descripcion : string;
    presentacion : string;
    grupo : UUID;            (* ForeignKey(GrupoArticulo, RESTRICT) *)
    linea : UUID;            (* ForeignKey(LineaArticulo, RESTRICT) *)
    estado : Z;
    stock : Decimal;
    imagen : string }.
End Articulo.

Module ListaPrecios.
(** A stored row: every price column is [NOT NULL]. *)
Record t := mk {
    articulo : UUID;         (* OneToOneField(Articulo, CASCADE), primary key *)
    precio_1 : Decimal;
    precio_2 : Decimal;
    precio_3 : Decimal;
    precio_4 : Decimal;
    precio_compra : Decimal;
    precio_costo : Decimal }.

(** The keyword arguments of [ListaPrecios(...)]: a column that is not
      passed has no declared default, so the instance holds [None] there. *)
Record kwargs := mk_kwargs {
    kw_articulo : UUID;
    kw_precio_1 : option Decimal;
    kw_precio_2 : option Decimal;
    kw_precio_3 : option Decimal;
    kw_precio_4 : option Decimal;
    kw_precio_compra : option Decimal;
    kw_precio_costo : option Decimal }.
End ListaPrecios.

Module ItemPedido.
Record t := mk {
    item_id : UUID;
    pedido : UUID;           (* ForeignKey(Pedido, CASCADE) *)
    nro_item : Z;
    articulo : UUID;         (* ForeignKey(Articulo, RESTRICT) *)
    cantidad : Z;
    precio_unitario : Decimal;
    total_item : Decimal;
    estado : Z }.
End ItemPedido.

Module OrdenCompraCliente.
Record t := mk {
    pedido_id : UUID;
    nro_pedido : Z;          (* BigAutoField, primary key *)
    fecha_pedido : Z;
    cliente : UUID;
    vendedor : UUID;
    importe : Decimal;
    estado : Z;
    notas : option string;
    creado_por : Z;
    fecha_creacion : Z }.

Definition set_importe (total : Decimal) (self : t) : t :=
    mk (pedido_id self) (nro_pedido self) (fecha_pedido self) (cliente self)
       (vendedor self) total (estado self) (notas self) (creado_por self)
       (fecha_creacion self).
End OrdenCompraCliente.

Module ItemOrdenCompraCliente.
Record t := mk {
    item_id : UUID;
    pedido : Z;              (* ForeignKey(OrdenCompraCliente, CASCADE) *)
    nro_item : Z;            (* PositiveIntegerField *)
    articulo : UUID;         (* ForeignKey(Articulo, RESTRICT) *)
    cantidad : Z;            (* PositiveIntegerField *)
    precio_unitario : Decimal;
    total_item : Decimal;
    estado : Z;
    creado_por : Z;
    fecha_creacion : Z }.

Definition set_total_item (v : Decimal) (self : t) : t :=
    mk (item_id self) (pedido self) (nro_item self) (articulo self)
       (cantidad self) (precio_unitario self) v (estado self)
       (creado_por self) (fecha_creacion self).

Definition set_precio_unitario (v : Decimal) (self : t) : t :=
    mk (item_id self) (pedido self) (nro_item self) (articulo self)
       (cantidad self) v (total_item self) (estado self)
       (creado_por self) (fecha_creacion self).

Definition set_fecha_creacion (v : Z) (self : t) : t :=
    mk (item_id self) (pedido self) (nro_item self) (articulo self)
       (cantidad self) (precio_unitario self) (total_item self) (estado self)
       (creado_por self) v.
End ItemOrdenCompraCliente.

(** ** The database: one table per [db_table]

    Beside the tables of [core/models.py], the state holds what the code
    reads from outside the two files: the primary keys of the users
    ([accounts.models.Usuario], the target of [creado_por]), the clock
    that [auto_now_add] reads, and the largest number the database in
    use takes in an [IntegerField] or a [PositiveIntegerField]
    ([2^63 - 1] under SQLite, [2^31 - 1] under PostgreSQL). No operation
    below changes these three. *)

Record DB := mkDB {
  grupos_articulos : gmap N GrupoArticulo.t;
  lineas_articulos : gmap N LineaArticulo.t;
  articulos : gmap N Articulo.t;
  lista_precios : gmap N ListaPrecios.t;
  items_pedido : gmap N ItemPedido.t;
  ordenes_compra_cliente : gmap Z OrdenCompraCliente.t;
  items_ordenes_compra_cliente : gmap N ItemOrdenCompraCliente.t;
  usuarios : gset Z;
  clock : Z;
  integer_max : N }.

Definition empty_db : DB := mkDB ∅ ∅ ∅ ∅ ∅ ∅ ∅ ∅ 0 (2 ^ 63 - 1)%N.

Definition with_articulos (f : gmap N Articulo.t → gmap N Articulo.t) (db : DB) : DB :=
  mkDB (grupos_articulos db) (lineas_articulos db) (f (articulos db))
       (lista_precios db) (items_pedido db) (ordenes_compra_cliente db)
       (items_ordenes_compra_cliente db)
       (usuarios db) (clock db) (integer_max db).

Definition with_lista_precios (f : gmap N ListaPrecios.t → gmap N ListaPrecios.t) (db : DB) : DB :=
  mkDB (grupos_articulos db) (lineas_articulos db) (articulos db)
       (f (lista_precios db)) (items_pedido db) (ordenes_compra_cliente db)
       (items_ordenes_compra_cliente db)
       (usuarios db) (clock db) (integer_max db).

Definition with_grupos (f : gmap N GrupoArticulo.t → gmap N GrupoArticulo.t) (db : DB) : DB :=
  mkDB (f (grupos_articulos db)) (lineas_articulos db) (articulos db)
       (lista_precios db) (items_pedido db) (ordenes_compra_cliente db)
       (items_ordenes_compra_cliente db)
       (usuarios db) (clock db) (integer_max db).

Definition with_lineas (f : gmap N LineaArticulo.t → gmap N LineaArticulo.t) (db : DB) : DB :=
  mkDB (grupos_articulos db) (f (lineas_articulos db)) (articulos db)
       (lista_precios db) (items_pedido db) (ordenes_compra_cliente db)
       (items_ordenes_compra_cliente db)
       (usuarios db) (clock db) (integer_max db).

Definition with_ordenes (f : gmap Z OrdenCompraCliente.t → gmap Z OrdenCompraCliente.t) (db : DB) : DB :=
  mkDB (grupos_articulos db) (lineas_articulos db) (articulos db)
       (lista_precios db) (items_pedido db) (f (ordenes_compra_cliente db))
       (items_ordenes_compra_cliente db)
       (usuarios db) (clock db) (integer_max db).

Definition with_items_orden
    (f : gmap N ItemOrdenCompraCliente.t → gmap N ItemOrdenCompraCliente.t) (db : DB) : DB :=
  mkDB (grupos_articulos db) (lineas_articulos db) (articulos db)
       (lista_precios db) (items_pedido db) (ordenes_compra_cliente db)
       (f (items_ordenes_compra_cliente db))
       (usuarios db) (clock db) (integer_max db).

(** ** Exceptions and the monad of database code *)

(** The detail of a [ValidationError] is a list of messages, or a
    dictionary from field name to the messages of the field. *)
Inductive detail :=
| Msgs (messages : list string)
| Fields (errors : gmap string (list string)).

(** [ValidationError("...")] *)
Abbreviation Msg s := (Msgs [s]).

(** [InvalidOperation] is the exception of Python's [decimal] module,
    [OutOfRange] the error of the database in use for a number outside
    the range of its column ([OverflowError] under SQLite, [DataError]
    under PostgreSQL). *)
Inductive exn :=
| AttributeError (name : string)
| DoesNotExist (model : string)
| IntegrityError (column : string)
| RestrictedError (model : string)
| InvalidOperation
| OutOfRange (column : string)
| ValidationError (d : detail).

Inductive outcome (A : Type) :=
| Return (a : A)
| Raise (e : exn).
Arguments Return {A} a.
Arguments Raise {A} e.

Definition M (A : Type) : Type := DB → outcome A * DB.

Definition ret {A} (a : A) : M A := λ db, (Return a, db).

Definition raise {A} (e : exn) : M A := λ db, (Raise e, db).

Definition bind {A B} (m : M A) (k : A → M B) : M B :=
  λ db, match m db with
        | (Return a, db') => k a db'
        | (Raise e, db') => (Raise e, db')
        end.

(** [try: m except: h], with a bare [except] that catches everything. *)
Definition try_except {A} (m : M A) (h : M A) : M A :=
  λ db, match m db with
        | (Return a, db') => (Return a, db')
        | (Raise _, db') => h db'
        end.

(** A query: reads the database and may raise, never writes. *)
Definition query {A} (q : DB → outcome A) : M A := λ db, (q db, db).

Definition write (f : DB → DB) : M unit := λ db, (Return tt, f db).

Notation "'let*' x ':=' m 'in' k" := (bind m (λ x, k))
  (at level 10, x binder, m at level 100, k at level 200).

(** [Model.objects.get(pk=k)] *)
Definition objects_get {K} `{Countable K} {A} (model : string) (tbl : DB → gmap K A) (k : K)
    (db : DB) : outcome A :=
  match tbl db !! k with
  | Some row => Return row
  | None => Raise (DoesNotExist model)
  end.

(** [try: r except <handled>: h] on a query. *)
Definition catch {A} (r : outcome A) (handled : exn → bool) (h : outcome A) : outcome A :=
  match r with
  | Return a => Return a
  | Raise e => if handled e then h else Raise e
  end.

Definition is_DoesNotExist (model : string) (e : exn) : bool :=
  match e with
  | DoesNotExist m => bool_decide (m = model)
  | _ => false
  end.

(** The constants and draws the code takes from outside these two files:
    [EstadoEntidades.ACTIVO] of [pos_project/choices.py] and the value that
    [uuid.uuid4()] returns. *)
Record Env := mkEnv {
  ACTIVO : Z;
  uuid4 : UUID }.

(** ** Persistence of each model ([Model.save], [objects.create], [delete]) *)

(** *** Amount columns

    A [DecimalField(max_digits=m, decimal_places=2)] holds numbers of at
    most [m] digits, two of them decimals: in hundredths, numbers below
    [10^m] in absolute value. The modelled database is Django's default
    one, SQLite: it stores the number it is given, and the digits are
    checked when the row is read back into an instance, where the
    number is quantized in a [decimal] context of [m] digits and
    [InvalidOperation] is raised if it does not fit. (A database that
    checks the column on the write refuses such a number there; the
    properties below that speak of returning calls assume amounts
    within the digits where the difference matters.) *)
Definition fits (max_digits : Z) (value : Decimal) : Prop :=
  Z.abs value < 10 ^ max_digits.

#[global] Instance fits_dec max_digits value : Decision (fits max_digits value).
Proof. unfold fits. apply _. Defined.

Definition OrdenCompraCliente_from_db (row : OrdenCompraCliente.t)
    : outcome OrdenCompraCliente.t :=
  if decide (fits 10 (OrdenCompraCliente.importe row)) then Return row
  else Raise InvalidOperation.

Definition ItemOrdenCompraCliente_fits (row : ItemOrdenCompraCliente.t) : Prop :=
  fits 12 (ItemOrdenCompraCliente.precio_unitario row)
  ∧ fits 12 (ItemOrdenCompraCliente.total_item row).

#[global] Instance ItemOrdenCompraCliente_fits_dec row :
  Decision (ItemOrdenCompraCliente_fits row).
Proof. unfold ItemOrdenCompraCliente_fits. apply _. Defined.

(** [OrdenCompraCliente.objects.get(pk=k)] *)
Definition OrdenCompraCliente_objects_get (k : Z) (db : DB) : outcome OrdenCompraCliente.t :=
  match objects_get "OrdenCompraCliente" ordenes_compra_cliente k db with
  | Return row => OrdenCompraCliente_from_db row
  | Raise e => Raise e
  end.

(** [OrdenCompraCliente.save()] of an order that has a row: the row under
    its primary key is replaced. *)
Definition OrdenCompraCliente_save (self : OrdenCompraCliente.t) : M unit :=
  write (with_ordenes <[OrdenCompraCliente.nro_pedido self := self]>).

(** [super().save(...)] of an order item. [force_insert] stands for an
    instance that is being added ([objects.create], or a new instance
    whose [item_id] is the [uuid4] default): its row is inserted and the
    key must be fresh. Otherwise the row under the key is updated, or
    inserted when there is none. An insert sets [fecha_creacion] to the
    clock ([auto_now_add]), on the instance and in the row. *)
Definition ItemOrdenCompraCliente_adding (force_insert : bool)
    (self : ItemOrdenCompraCliente.t) (db : DB) : bool :=
  force_insert
  || bool_decide (items_ordenes_compra_cliente db
                    !! ItemOrdenCompraCliente.item_id self = None).

Definition ItemOrdenCompraCliente_pre_save (force_insert : bool)
    (self : ItemOrdenCompraCliente.t) (db : DB) : ItemOrdenCompraCliente.t :=
  if ItemOrdenCompraCliente_adding force_insert self db
  then ItemOrdenCompraCliente.set_fecha_creacion (clock db) self
  else self.

(** The row is written when the columns accept it: the two
    [PositiveIntegerField]s carry a [>= 0] check, the three integers
    have the range of the database, the three foreign keys must
    resolve. *)
Definition ItemOrdenCompraCliente_super_save (force_insert : bool)
    (self : ItemOrdenCompraCliente.t) : M ItemOrdenCompraCliente.t :=
  λ db,
    if decide (ItemOrdenCompraCliente.nro_item self < 0) then
      (Raise (IntegrityError "nro_item"), db)
    else if decide (ItemOrdenCompraCliente.cantidad self < 0) then
      (Raise (IntegrityError "cantidad"), db)
    else if decide (Z.of_N (integer_max db)
                    < ItemOrdenCompraCliente.nro_item self) then
      (Raise (OutOfRange "nro_item"), db)
    else if decide (Z.of_N (integer_max db)
                    < ItemOrdenCompraCliente.cantidad self) then
      (Raise (OutOfRange "cantidad"), db)
    else if decide (¬ - Z.of_N (integer_max db) - 1
                      ≤ ItemOrdenCompraCliente.estado self
                      ≤ Z.of_N (integer_max db)) then
      (Raise (OutOfRange "estado"), db)
    else if decide (ordenes_compra_cliente db !! ItemOrdenCompraCliente.pedido self = None) then
      (Raise (IntegrityError "pedido_id"), db)
    else if decide (articulos db !! ItemOrdenCompraCliente.articulo self = None) then
      (Raise (IntegrityError "articulo_id"), db)
    else if decide (ItemOrdenCompraCliente.creado_por self ∉ usuarios db) then
      (Raise (IntegrityError "creado_por_id"), db)
    else if force_insert
            && bool_decide (items_ordenes_compra_cliente db
                              !! ItemOrdenCompraCliente.item_id self ≠ None) then
      (Raise (IntegrityError "item_id"), db)
    else
      let self := ItemOrdenCompraCliente_pre_save force_insert self db in
      (Return self,
       with_items_orden <[ItemOrdenCompraCliente.item_id self := self]> db).

(** [instance.save()] of an article. *)
Definition Articulo_save (self : Articulo.t) : M unit :=
  λ db,
    if decide (grupos_articulos db !! Articulo.grupo self = None) then
      (Raise (IntegrityError "grupo_id"), db)
    else if decide (lineas_articulos db !! Articulo.linea self = None) then
      (Raise (IntegrityError "linea_id"), db)
    else (Return tt, with_articulos <[Articulo.articulo_id self := self]> db).

(** [Articulo.objects.create(...)]: a forced insert, the primary key must
    be fresh. *)
Definition Articulo_objects_create (self : Articulo.t) : M Articulo.t :=
  λ db,
    if decide (articulos db !! Articulo.articulo_id self = None) then
      match Articulo_save self db with
      | (Return _, db') => (Return self, db')
      | (Raise e, db') => (Raise e, db')
      end
    else (Raise (IntegrityError "articulo_id"), db).

(** [ListaPrecios.objects.create(...)]: a column left at [None] violates
    its [NOT NULL] constraint. *)
Definition ListaPrecios_objects_create (kw : ListaPrecios.kwargs) : M ListaPrecios.t :=
  λ db,
    match ListaPrecios.kw_precio_1 kw, ListaPrecios.kw_precio_2 kw,
          ListaPrecios.kw_precio_3 kw, ListaPrecios.kw_precio_4 kw,
          ListaPrecios.kw_precio_compra kw, ListaPrecios.kw_precio_costo kw with
    | None, _, _, _, _, _ => (Raise (IntegrityError "precio_1"), db)
    | _, None, _, _, _, _ => (Raise (IntegrityError "precio_2"), db)
    | _, _, None, _, _, _ => (Raise (IntegrityError "precio_3"), db)
    | _, _, _, None, _, _ => (Raise (IntegrityError "precio_4"), db)
    | _, _, _, _, None, _ => (Raise (IntegrityError "precio_compra"), db)
    | _, _, _, _, _, None => (Raise (IntegrityError "precio_costo"), db)
    | Some p1, Some p2, Some p3, Some p4, Some pc, Some pk =>
        let a := ListaPrecios.kw_articulo kw in
        if decide (articulos db !! a = None) then
          (Raise (IntegrityError "articulo_id"), db)
        else if decide (lista_precios db !! a = None) then
          let row := ListaPrecios.mk a p1 p2 p3 p4 pc pk in
          (Return row, with_lista_precios <[a := row]> db)
        else (Raise (IntegrityError "articulo_id"), db)
    end.

(** [item.delete()]: the model overrides nothing, no other model refers to
    an order item, so the row is removed and nothing else happens. *)
Definition ItemOrdenCompraCliente_delete (self : ItemOrdenCompraCliente.t) : M unit :=
  write (with_items_orden (delete (ItemOrdenCompraCliente.item_id self))).

(** [articulo.delete()]: [RESTRICT] from both item models, [CASCADE] to the
    price list. *)
Definition Articulo_delete (self : Articulo.t) : M unit :=
  λ db,
    let pk := Articulo.articulo_id self in
    if decide (filter (λ kv, ItemPedido.articulo kv.2 = pk) (items_pedido db) = ∅) then
      if decide (filter (λ kv, ItemOrdenCompraCliente.articulo kv.2 = pk)
                        (items_ordenes_compra_cliente db) = ∅) then
        (Return tt,
         with_articulos (delete pk)
           (with_lista_precios (filter (λ kv, ListaPrecios.articulo kv.2 ≠ pk)) db))
      else (Raise (RestrictedError "ItemOrdenCompraCliente"), db)
    else (Raise (RestrictedError "ItemPedido"), db).

(** [grupo.delete()]: [RESTRICT] from lines and from articles. *)
Definition GrupoArticulo_delete (self : GrupoArticulo.t) : M unit :=
  λ db,
    let pk := GrupoArticulo.grupo_id self in
    if decide (filter (λ kv, LineaArticulo.grupo kv.2 = pk) (lineas_articulos db) = ∅) then
      if decide (filter (λ kv, Articulo.grupo kv.2 = pk) (articulos db) = ∅) then
        (Return tt, with_grupos (delete pk) db)
      else (Raise (RestrictedError "Articulo"), db)
    else (Raise (RestrictedError "LineaArticulo"), db).

(** [linea.delete()]: [RESTRICT] from articles. *)
Definition LineaArticulo_delete (self : LineaArticulo.t) : M unit :=
  λ db,
    let pk := LineaArticulo.linea_id self in
    if decide (filter (λ kv, Articulo.linea kv.2 = pk) (articulos db) = ∅) then
      (Return tt, with_lineas (delete pk) db)
    else (Raise (RestrictedError "Articulo"), db).

(** ** Attribute access on an article

    [articulo.<name>] for the names under which a price list can be
    reached. [ListaPrecios.articulo] is declared with
    [related_name='articulo_lista'], so that is the only such name; any
    other one, [listaprecio] among them, is not an attribute of [Articulo]. *)
Definition Articulo_getattr_lista (self : Articulo.t) (name : string) : M ListaPrecios.t :=
  if decide (name = "articulo_lista") then
    query (objects_get "ListaPrecios" lista_precios (Articulo.articulo_id self))
  else raise (AttributeError name).

(** ** OrdenCompraCliente.actualizar_total *)

(** [self.items_orden_compra.all()] *)
Definition items_orden_compra (self : OrdenCompraCliente.t) (db : DB)
    : gmap N ItemOrdenCompraCliente.t :=
  filter (λ kv, ItemOrdenCompraCliente.pedido kv.2 = OrdenCompraCliente.nro_pedido self)
         (items_ordenes_compra_cliente db).

(** Iterating over the items reads each of their rows back. *)
Definition iter (items : gmap N ItemOrdenCompraCliente.t)
    : outcome (gmap N ItemOrdenCompraCliente.t) :=
  if decide (map_Forall (λ _ item, ItemOrdenCompraCliente_fits item) items)
  then Return items
  else Raise InvalidOperation.

(** [sum(item.total_item for item in items)] *)
Definition sum_total_item (items : gmap N ItemOrdenCompraCliente.t) : Decimal :=
  map_fold (λ _ item acc, acc + ItemOrdenCompraCliente.total_item item) 0 items.

Definition actualizar_total (self : OrdenCompraCliente.t) : M OrdenCompraCliente.t :=
  let* items := query (λ db, iter (items_orden_compra self db)) in
  let total := sum_total_item items in
  let self := OrdenCompraCliente.set_importe total self in
  let* _ := OrdenCompraCliente_save self in
  ret self.

(** ** ItemOrdenCompraCliente.save

    Returns [self] as the call leaves it. [self.articulo] and
    [self.pedido] are read from their tables by the stored key; whatever
    goes wrong while the article and its price list are read is caught
    by the bare [except]. *)
Definition ItemOrdenCompraCliente_save (force_insert : bool)
    (self : ItemOrdenCompraCliente.t) : M ItemOrdenCompraCliente.t :=
  let self :=
    ItemOrdenCompraCliente.set_total_item
      (ItemOrdenCompraCliente.cantidad self * ItemOrdenCompraCliente.precio_unitario self)
      self in
  let* self :=
    if decide (ItemOrdenCompraCliente.precio_unitario self = 0) then
      try_except
        (let* articulo :=
           query (objects_get "Articulo" articulos (ItemOrdenCompraCliente.articulo self)) in
         let* lista_precio := Articulo_getattr_lista articulo "listaprecio" in
         let self :=
           ItemOrdenCompraCliente.set_precio_unitario
             (ListaPrecios.precio_1 lista_precio) self in
         let self :=
           ItemOrdenCompraCliente.set_total_item
             (ItemOrdenCompraCliente.cantidad self
              * ItemOrdenCompraCliente.precio_unitario self) self in
         ret self)
        (ret self)
    else ret self in
  let* self := ItemOrdenCompraCliente_super_save force_insert self in
  let* pedido :=
    query (OrdenCompraCliente_objects_get (ItemOrdenCompraCliente.pedido self)) in
  let* _ := actualizar_total pedido in
  ret self.

(** ** Serializers (api/serializers.py)

    The input of a serializer is the record of values its fields read
    from the request. A string is the text that was sent with the white
    space around it removed, which is the first thing a [CharField]
    does to it ([trim_whitespace]); a decimal is a number written with
    two decimal places; a UUID is a well-formed one. The checks below
    are the declared validators and the [validate_*] hooks, in the order
    the serializer runs them, with the messages of the framework. *)

(** [len(value)]: the characters of a string. In UTF-8 every character
    has one byte that is not a continuation byte ([0x80] to [0xBF]). *)
Definition is_continuation (c : ascii) : bool :=
  let n := nat_of_ascii c in (128 <=? n)%nat && (n <? 192)%nat.

Fixpoint len (value : string) : nat :=
  match value with
  | EmptyString => 0%nat
  | String c rest => if is_continuation c then len rest else S (len rest)
  end.

(** The characters that [str.strip()] removes, each by its UTF-8 bytes:
    U+0009 to U+000D, U+001C to U+0020, U+0085, U+00A0, U+1680, U+2000 to
    U+200A, U+2028, U+2029, U+202F, U+205F and U+3000. *)
Definition utf8 (bytes : list nat) : string :=
  String.string_of_list_ascii (ascii_of_nat <$> bytes).

Definition whitespace : list string :=
  utf8 <$> [ [9]; [10]; [11]; [12]; [13]; [28]; [29]; [30]; [31]; [32];
             [194; 133]; [194; 160]; [225; 154; 128];
             [226; 128; 128]; [226; 128; 129]; [226; 128; 130]; [226; 128; 131];
             [226; 128; 132]; [226; 128; 133]; [226; 128; 134]; [226; 128; 135];
             [226; 128; 136]; [226; 128; 137]; [226; 128; 138];
             [226; 128; 168]; [226; 128; 169]; [226; 128; 175]; [226; 129; 159];
             [227; 128; 128] ]%nat.

(** A string that [strip()] leaves as it is: it neither starts nor ends
    with one of these characters. The strings of a request are such. *)
Definition stripped (value : string) : bool :=
  forallb (λ w, negb (String.prefix w value)
                && negb (String.prefix (String.rev w) (String.rev value)))
          whitespace.

(** A validator answers with its message when the value fails it. *)
Definition max_length (limit : nat) (value : string) : option string :=
  if decide (limit < len value)%nat then
    Some ("Ensure this field has no more than " +:+ pretty limit +:+ " characters.")
  else None.

Definition null_characters (value : string) : option string :=
  if decide (zero ∈ String.list_ascii_of_string value) then
    Some "Null characters are not allowed."
  else None.

Definition min_value (limit : Z) (value : Z) : option string :=
  if decide (value < limit) then
    Some ("Ensure this value is greater than or equal to " +:+ pretty limit +:+ ".")
  else None.

Definition max_value (limit : Z) (value : Z) : option string :=
  if decide (limit < value) then
    Some ("Ensure this value is less than or equal to " +:+ pretty limit +:+ ".")
  else None.

(** [run_validators]: every validator runs, and the messages of those
    that fail are raised together. *)
Definition run_validators {A} (validators : list (A → option string)) (value : A)
    : outcome A :=
  match omap (λ validator, validator value) validators with
  | [] => Return value
  | messages => Raise (ValidationError (Msgs messages))
  end.

(** [CharField(max_length=limit, allow_blank=...)] *)
Definition CharField (allow_blank : bool) (limit : nat) (data : string) : outcome string :=
  if decide (data = "") then
    if allow_blank then Return ""
    else Raise (ValidationError (Msg "This field may not be blank."))
  else run_validators [max_length limit; null_characters] data.

(** A text that a [CharField(max_length=limit)] takes when it may not
    be blank: it is not empty, has at most [limit] characters and no
    null character. *)
Definition text_ok (limit : nat) (data : string) : Prop :=
  data ≠ "" ∧ (len data ≤ limit)%nat ∧ zero ∉ String.list_ascii_of_string data.

(** [DecimalField(max_digits=12, decimal_places=2, ...)]: the digits are
    checked first, then the validators of [min_value] and the like. *)
Definition DecimalField (validators : list (Decimal → option string)) (data : Decimal)
    : outcome Decimal :=
  if decide (fits 12 data) then run_validators validators data
  else Raise (ValidationError (Msg "Ensure that there are no more than 12 digits in total.")).

(** The [IntegerField] that a [ModelSerializer] builds for a
    [PositiveIntegerField]: the range of the column becomes [min_value]
    and [max_value]. *)
Definition PositiveIntegerField (data : Z) (db : DB) : outcome Z :=
  run_validators [max_value (Z.of_N (integer_max db)); min_value 0] data.

Definition and_then {A} (r : outcome A) (k : A → outcome A) : outcome A :=
  match r with
  | Return a => k a
  | Raise e => Raise e
  end.

(** The serializer files the messages of a field's [ValidationError]
    under the field's name. *)
Definition field_error {A} (name : string) (r : outcome A)
    (errors : gmap string (list string)) : gmap string (list string) :=
  match r with
  | Raise (ValidationError (Msgs messages)) => <[name := messages]> errors
  | _ => errors
  end.

Module ArticuloCreateSerializer.

Record data := mk {
  codigo_articulo : string;
  codigo_barras : string;
  descripcion : string;
  presentacion : string;
  grupo_id : UUID;
  linea_id : UUID;
  stock : Decimal;
  precio_1 : Decimal }.

(** The strings of a request as its fields read them. *)
Definition stripped_data (d : data) : Prop :=
  stripped (codigo_articulo d) ∧ stripped (codigo_barras d)
  ∧ stripped (descripcion d) ∧ stripped (presentacion d).

Definition validate_codigo_articulo (value : string) (db : DB) : outcome string :=
  if decide (filter (λ kv, Articulo.codigo_articulo kv.2 = value) (articulos db) ≠ ∅) then
    Raise (ValidationError (Msg "Este código de artículo ya existe."))
  else if decide (len value < 4)%nat then
    Raise (ValidationError (Msg "El código debe tener al menos 4 caracteres."))
  else Return value.

Definition validate_descripcion (value : string) : outcome string :=
  if decide (len value < 5)%nat then
    Raise (ValidationError (Msg "La descripción es demasiado corta."))
  else if decide (150 < len value)%nat then
    Raise (ValidationError (Msg "La descripción no debe exceder los 150 caracteres."))
  else Return value.

Definition validate_stock (value : Decimal) : outcome Decimal :=
  if decide (value < 0) then
    Raise (ValidationError (Msg "El stock no puede ser negativo."))
  else Return value.

Definition validate (d : data) (db : DB) : outcome data :=
  let grupo_id := grupo_id d in
  let linea_id := linea_id d in
  match catch (objects_get "GrupoArticulo" grupos_articulos grupo_id db)
              (is_DoesNotExist "GrupoArticulo")
              (Raise (ValidationError
                 (Fields {["grupo_id" := ["El grupo seleccionado no existe."]]}))) with
  | Raise e => Raise e
  | Return grupo =>
      catch
        (match objects_get "LineaArticulo" lineas_articulos linea_id db with
         | Raise e => Raise e
         | Return linea =>
             (* linea.grupo *)
             match objects_get "GrupoArticulo" grupos_articulos
                     (LineaArticulo.grupo linea) db with
             | Raise e => Raise e
             | Return linea_grupo =>
                 if decide (GrupoArticulo.grupo_id linea_grupo ≠ grupo_id) then
                   Raise (ValidationError
                     (Fields {["linea_id" := ["La línea seleccionada no pertenece al grupo."]]}))
                 else Return d
             end
         end)
        (is_DoesNotExist "LineaArticulo")
        (Raise (ValidationError
           (Fields {["linea_id" := ["La línea seleccionada no existe."]]})))
  end.

(** The field-level pass: every field is checked, by the field the
    [ModelSerializer] builds from the model column (none of the four
    [CharField]s of [Articulo] allows a blank) or by the declared one,
    then by its [validate_*] hook, and the errors of all of them are
    collected. *)
Definition field_errors (d : data) (db : DB) : gmap string (list string) :=
  field_error "codigo_articulo"
    (and_then (CharField false 25 (codigo_articulo d)) (λ v, validate_codigo_articulo v db))
  (field_error "codigo_barras" (CharField false 25 (codigo_barras d))
  (field_error "descripcion"
    (and_then (CharField false 150 (descripcion d)) validate_descripcion)
  (field_error "presentacion" (CharField false 100 (presentacion d))
  (field_error "stock" (and_then (DecimalField [] (stock d)) validate_stock)
  (field_error "precio_1" (DecimalField [min_value 0] (precio_1 d))
     ∅))))).

(** [run_validation]: the object-level [validate] runs only when no field
    has an error. *)
Definition run_validation (d : data) (db : DB) : outcome data :=
  let errors := field_errors d db in
  if decide (errors = ∅) then validate d db
  else Raise (ValidationError (Fields errors)).

Definition create (env : Env) (validated_data : data) : M Articulo.t :=
  let precio_1 := precio_1 validated_data in
  let grupo_id := grupo_id validated_data in
  let linea_id := linea_id validated_data in
  let* grupo := query (objects_get "GrupoArticulo" grupos_articulos grupo_id) in
  let* linea := query (objects_get "LineaArticulo" lineas_articulos linea_id) in
  let articulo_id := uuid4 env in
  let* articulo :=
    Articulo_objects_create
      (Articulo.mk articulo_id
         (codigo_articulo validated_data) (codigo_barras validated_data)
         (descripcion validated_data) (presentacion validated_data)
         (GrupoArticulo.grupo_id grupo) (LineaArticulo.linea_id linea)
         (ACTIVO env) (stock validated_data) "") in
  let* _ :=
    ListaPrecios_objects_create
      (ListaPrecios.mk_kwargs (Articulo.articulo_id articulo)
         (Some precio_1) None None None None None) in
  ret articulo.

(** [is_valid(raise_exception=True)] followed by [save()]. *)
Definition save (env : Env) (d : data) : M Articulo.t :=
  let* validated_data := query (run_validation d) in
  create env validated_data.

End ArticuloCreateSerializer.

(** How a field treats a key that the request did not send: an optional
    field is skipped; a required field is an error unless the update is
    partial; a field declared with [default=] takes the default unless
    the update is partial. *)
Definition optional_field {A} (check : A → outcome A) (v : option A) : outcome (option A) :=
  match v with
  | None => Return None
  | Some a => match check a with Return a' => Return (Some a') | Raise e => Raise e end
  end.

Definition required_field {A} (partial : bool) (check : A → outcome A) (v : option A)
    : outcome (option A) :=
  match v with
  | None =>
      if partial then Return None
      else Raise (ValidationError (Msg "This field is required."))
  | Some _ => optional_field check v
  end.

Definition default_field {A} (partial : bool) (dflt : A) (check : A → outcome A)
    (v : option A) : outcome (option A) :=
  match v with
  | None => if partial then Return None else Return (Some dflt)
  | Some _ => optional_field check v
  end.

Module ArticuloSerializer.

(** The plain [Serializer] that opens the file. [data] is the request,
    and also the shape of [validated_data]: a key is absent when the
    field was not sent and has no default to take. *)
Record data := mk {
  codigo_articulo : option string;
  codigo_barras : option string;
  descripcion : option string;
  presentacion : option string;
  stock : option Decimal }.

(** The fields as declared: [codigo_barras] and [presentacion] are not
    required and may be blank, the other two strings are required and
    may not; the class has no [validate_*] hook. *)
Definition run_validation (partial : bool) (d : data) : outcome data :=
  match required_field partial (CharField false 25) (codigo_articulo d),
        optional_field (CharField true 25) (codigo_barras d),
        required_field partial (CharField false 150) (descripcion d),
        optional_field (CharField true 100) (presentacion d),
        default_field partial 0 (DecimalField []) (stock d) with
  | Return c, Return b, Return de, Return p, Return st => Return (mk c b de p st)
  | rc, rb, rd, rp, rs =>
      Raise (ValidationError (Fields
        (field_error "codigo_articulo" rc
        (field_error "codigo_barras" rb
        (field_error "descripcion" rd
        (field_error "presentacion" rp
        (field_error "stock" rs ∅)))))))
  end.

Definition update (instance : Articulo.t) (validated_data : data) : M Articulo.t :=
  let instance :=
    Articulo.mk (Articulo.articulo_id instance)
      (default (Articulo.codigo_articulo instance) (codigo_articulo validated_data))
      (default (Articulo.codigo_barras instance) (codigo_barras validated_data))
      (default (Articulo.descripcion instance) (descripcion validated_data))
      (default (Articulo.presentacion instance) (presentacion validated_data))
      (Articulo.grupo instance) (Articulo.linea instance) (Articulo.estado instance)
      (default (Articulo.stock instance) (stock validated_data))
      (Articulo.imagen instance) in
  let* _ := Articulo_save instance in
  ret instance.

(** [is_valid(raise_exception=True)] followed by [save()] on a serializer
    built with an instance. *)
Definition save (partial : bool) (instance : Articulo.t) (d : data) : M Articulo.t :=
  let* validated_data := query (λ _, run_validation partial d) in
  update instance validated_data.

End ArticuloSerializer.

(** [str(uuid)]: 32 hexadecimal digits in groups of 8, 4, 4, 4 and 12. *)
Fixpoint hex (digits : nat) (n : N) : string :=
  match digits with
  | O => ""
  | S digits' =>
      hex digits' (n `div` 16)%N
      +:+ String (default zero (String.list_ascii_of_string "0123456789abcdef"
                                  !! N.to_nat (n `mod` 16)%N)) ""
  end.

Definition uuid_str (u : UUID) : string :=
  let h := hex 32 u in
  String.substring 0 8 h +:+ "-" +:+ String.substring 8 4 h +:+ "-"
  +:+ String.substring 12 4 h +:+ "-" +:+ String.substring 16 4 h +:+ "-"
  +:+ String.substring 20 12 h.

Definition quoted (value : string) : string :=
  String (ascii_of_nat 34) value +:+ String (ascii_of_nat 34) "".

Module ItemOrdenSerializer.

(** The writable fields of [Meta.fields]: [item_id] is not editable and
    [articulo_descripcion] is read-only. A field the model gives a default
    is optional; [articulo] is required, and is present here. *)
Record data := mk {
  nro_item : option Z;
  articulo : UUID;
  cantidad : option Z;
  precio_unitario : option Decimal;
  total_item : option Decimal }.

(** [articulo] is a primary-key related field: the article must exist.
    The message quotes the key as the request wrote it, here in the
    usual form of a UUID. *)
Definition articulo_exists (pk : UUID) (db : DB) : outcome UUID :=
  match articulos db !! pk with
  | Some _ => Return pk
  | None =>
      Raise (ValidationError
        (Msg ("Invalid pk " +:+ quoted (uuid_str pk) +:+ " - object does not exist.")))
  end.

(** A [ModelSerializer] takes its validators from the model fields: the
    range of the two [PositiveIntegerField]s and the digits of the two
    decimals. The class adds none of its own. *)
Definition field_errors (d : data) (db : DB) : gmap string (list string) :=
  field_error "nro_item" (optional_field (λ v, PositiveIntegerField v db) (nro_item d))
  (field_error "articulo" (articulo_exists (articulo d) db)
  (field_error "cantidad" (optional_field (λ v, PositiveIntegerField v db) (cantidad d))
  (field_error "precio_unitario" (optional_field (DecimalField []) (precio_unitario d))
  (field_error "total_item" (optional_field (DecimalField []) (total_item d))
     ∅)))).

Definition run_validation (d : data) (db : DB) : outcome data :=
  let errors := field_errors d db in
  if decide (errors = ∅) then Return d
  else Raise (ValidationError (Fields errors)).

(** [ModelSerializer.create]: [objects.create] on the validated data, with the
    order and the user passed by the caller of [save(pedido=...,
    creado_por=...)] and the model defaults for what is absent. The new
    instance has no [fecha_creacion] until the insert sets it; it holds 0
    till then. *)
Definition create (env : Env) (pedido : Z) (creado_por : Z) (validated_data : data)
    : M ItemOrdenCompraCliente.t :=
  ItemOrdenCompraCliente_save true
    (ItemOrdenCompraCliente.mk (uuid4 env) pedido
       (default 1 (nro_item validated_data)) (articulo validated_data)
       (default 1 (cantidad validated_data))
       (default 0 (precio_unitario validated_data))
       (default 0 (total_item validated_data))
       (ACTIVO env) creado_por 0).

(** [ModelSerializer.update]: every validated attribute is set on the
    instance, then [instance.save()]. *)
Definition update (instance : ItemOrdenCompraCliente.t) (validated_data : data)
    : M ItemOrdenCompraCliente.t :=
  ItemOrdenCompraCliente_save false
    (ItemOrdenCompraCliente.mk (ItemOrdenCompraCliente.item_id instance)
       (ItemOrdenCompraCliente.pedido instance)
       (default (ItemOrdenCompraCliente.nro_item instance) (nro_item validated_data))
       (articulo validated_data)
       (default (ItemOrdenCompraCliente.cantidad instance) (cantidad validated_data))
       (default (ItemOrdenCompraCliente.precio_unitario instance)
                (precio_unitario validated_data))
       (default (ItemOrdenCompraCliente.total_item instance) (total_item validated_data))
       (ItemOrdenCompraCliente.estado instance)
       (ItemOrdenCompraCliente.creado_por instance)
       (ItemOrdenCompraCliente.fecha_creacion instance)).

Definition save_new (env : Env) (pedido : Z) (creado_por : Z) (d : data)
    : M ItemOrdenCompraCliente.t :=
  let* validated_data := query (run_validation d) in
  create env pedido creado_por validated_data.

Definition save_instance (instance : ItemOrdenCompraCliente.t) (d : data)
    : M ItemOrdenCompraCliente.t :=
  let* validated_data := query (run_validation d) in
  update instance validated_data.

End ItemOrdenSerializer.

(** ** A small shop, used to run the code on concrete inputs *)

Definition ejemplo_env : Env := mkEnv 1 900%N.

Definition grupo_bebidas : GrupoArticulo.t := GrupoArticulo.mk 1%N "G01" "Bebidas" 1.
Definition grupo_snacks : GrupoArticulo.t := GrupoArticulo.mk 2%N "G02" "Snacks" 1.

Definition linea_gaseosas : LineaArticulo.t :=
  LineaArticulo.mk 11%N "L01" 1%N "Gaseosas" 1.
Definition linea_papas : LineaArticulo.t :=
  LineaArticulo.mk 12%N "L02" 2%N "Papas" 1.

(** An article with stock 5.00 and a price list whose price_1 is 10.00. *)
Definition articulo_cola : Articulo.t :=
  Articulo.mk 21%N "COLA-500" "7750001" "Gaseosa cola 500 ml" "Botella" 1%N 11%N 1 500 "".
Definition lista_cola : ListaPrecios.t := ListaPrecios.mk 21%N 1000 0 0 0 0 0.

(** An article without a price list. *)
Definition articulo_papas : Articulo.t :=
  Articulo.mk 22%N "PAPA-100" "7750002" "Papas fritas 100 g" "Bolsa" 2%N 12%N 1 300 "".

Definition orden_1 : OrdenCompraCliente.t :=
  OrdenCompraCliente.mk 31%N 1 0 41%N 51%N 0 1 None 1 0.

(** The shop has one user, with key 1; its clock shows 0 and its
    database is SQLite. *)
Definition ejemplo_db : DB :=
  mkDB {[1%N := grupo_bebidas; 2%N := grupo_snacks]}
       {[11%N := linea_gaseosas; 12%N := linea_papas]}
       {[21%N := articulo_cola; 22%N := articulo_papas]}
       {[21%N := lista_cola]}
       ∅
       {[1 := orden_1]}
       ∅
       {[1]} 0 (2 ^ 63 - 1)%N.

(** A new item of order 1: [cantidad] units of an article at a unit price. *)
Definition nuevo_item (item_id : UUID) (articulo : UUID) (cantidad : Z)
    (precio_unitario : Decimal) (estado : Z) : ItemOrdenCompraCliente.t :=
  ItemOrdenCompraCliente.mk item_id 1 1 articulo cantidad precio_unitario 0 estado 1 0.

(** The database a computation leaves, and the [importe] stored for an
    order. *)
Definition exec {A} (m : M A) (db : DB) : DB := (m db).2.

Definition importe_of (nro_pedido : Z) (db : DB) : option Decimal :=
  OrdenCompraCliente.importe <$> ordenes_compra_cliente db !! nro_pedido.

(** Items with totals 5.00, 7.50 and 2.50; the estado of the second one
    is not [ACTIVO]. *)
Definition item_a : ItemOrdenCompraCliente.t := nuevo_item 101%N 21%N 1 500 1.
Definition item_b : ItemOrdenCompraCliente.t := nuevo_item 102%N 21%N 3 250 0.
Definition item_c : ItemOrdenCompraCliente.t := nuevo_item 103%N 22%N 1 250 1.

Definition db_tras_a : DB := exec (ItemOrdenCompraCliente_save true item_a) ejemplo_db.
Definition db_tras_b : DB := exec (ItemOrdenCompraCliente_save true item_b) db_tras_a.
Definition db_tras_c : DB := exec (ItemOrdenCompraCliente_save true item_c) db_tras_b.

(** The rows as stored, and the state after [item_b] is deleted. *)
Definition stored_a : ItemOrdenCompraCliente.t :=
  ItemOrdenCompraCliente.set_total_item 500 item_a.
Definition stored_b : ItemOrdenCompraCliente.t :=
  ItemOrdenCompraCliente.set_total_item 750 item_b.
Definition stored_c : ItemOrdenCompraCliente.t :=
  ItemOrdenCompraCliente.set_total_item 250 item_c.
Definition db_sin_b : DB := exec (ItemOrdenCompraCliente_delete stored_b) db_tras_b.

(** What [save] first does to [self]: the total is recomputed. *)
Definition recalculado (self : ItemOrdenCompraCliente.t) : ItemOrdenCompraCliente.t :=
  ItemOrdenCompraCliente.set_total_item
    (ItemOrdenCompraCliente.cantidad self * ItemOrdenCompraCliente.precio_unitario self)
    self.

(** The sum of [total_item] over every item row of an order, whatever the
    [estado] of the item. *)
Definition suma_items (nro_pedido : Z) (db : DB) : Decimal :=
  sum_total_item
    (filter (λ kv, ItemOrdenCompraCliente.pedido kv.2 = nro_pedido)
            (items_ordenes_compra_cliente db)).

(** Table invariants: a row is stored under its primary key, and a stored
    order item satisfies the check of its [PositiveIntegerField]s. *)
Definition ordenes_por_pk (db : DB) : Prop :=
  map_Forall (λ k o, OrdenCompraCliente.nro_pedido o = k) (ordenes_compra_cliente db).

Definition cantidades_no_negativas (db : DB) : Prop :=
  map_Forall (λ _ item, 0 ≤ ItemOrdenCompraCliente.cantidad item)
             (items_ordenes_compra_cliente db).

(** A valid creation input: a new code, group 1 and its line 11, stock
    12.00 and a seed price of 1.50. *)
Definition ejemplo_agua : ArticuloCreateSerializer.data :=
  ArticuloCreateSerializer.mk "AGUA-600" "7750003" "Agua mineral 600 ml" "Botella"
    1%N 11%N 1200 150.

(** An update of article 21 that keeps code and description and sets
    the stock to -1.00. *)
Definition stock_negativo : ArticuloSerializer.data :=
  ArticuloSerializer.mk (Some "COLA-500") None (Some "Gaseosa cola 500 ml") None
    (Some (-100)).

(** An order line of zero units at 5.00. *)
Definition cero_unidades : ItemOrdenSerializer.data :=
  ItemOrdenSerializer.mk None 21%N (Some 0) (Some 500) None.

(** A stored item row whose total is not the product of its quantity
    and unit price, as the column leaves one when it rounds the amounts
    of an instance that held 0.005 a unit: 3 units, 0.00 and 0.02. *)
Definition item_redondeado : ItemOrdenCompraCliente.t :=
  ItemOrdenCompraCliente.mk 101%N 1 1 21%N 3 0 2 1 1 0.

Definition db_redondeado : DB :=
  with_ordenes <[1 := OrdenCompraCliente.set_importe 2 orden_1]>
    (with_items_orden <[101%N := item_redondeado]> ejemplo_db).

(** ** The rest of the two files

    [OrdenCompraCliente.delete()]: [ItemOrdenCompraCliente.pedido] is
    declared with [on_delete=CASCADE], so the items of the order go with
    it; no model restricts the delete of an order. *)
Definition OrdenCompraCliente_delete (self : OrdenCompraCliente.t) : M unit :=
  write (λ db,
    let pk := OrdenCompraCliente.nro_pedido self in
    with_ordenes (delete pk)
      (with_items_orden (filter (λ kv, ItemOrdenCompraCliente.pedido kv.2 ≠ pk)) db)).

Module ArticuloInit.

(** The keyword arguments of [Articulo(...)]. A column that is not passed
    takes its default: the empty string for a [CharField], [ACTIVO] for
    [estado], and [None] for the key, the two foreign keys and the
    stock, which declare none. *)
Record kwargs := mk {
  articulo_id : option UUID;
  codigo_articulo : option string;
  codigo_barras : option string;
  descripcion : option string;
  presentacion : option string;
  grupo : option UUID;
  linea : option UUID;
  stock : option Decimal }.

End ArticuloInit.

(** [Articulo.objects.create] on keyword arguments: a [None] in a [NOT NULL] column
    is refused; a complete row is inserted as by [Articulo_objects_create]. *)
Definition Articulo_objects_create_kwargs (env : Env) (kw : ArticuloInit.kwargs)
    : M Articulo.t :=
  match ArticuloInit.articulo_id kw, ArticuloInit.grupo kw, ArticuloInit.linea kw,
        ArticuloInit.stock kw with
  | None, _, _, _ => raise (IntegrityError "articulo_id")
  | _, None, _, _ => raise (IntegrityError "grupo_id")
  | _, _, None, _ => raise (IntegrityError "linea_id")
  | _, _, _, None => raise (IntegrityError "stock")
  | Some pk, Some g, Some l, Some st =>
      Articulo_objects_create
        (Articulo.mk pk
           (default "" (ArticuloInit.codigo_articulo kw))
           (default "" (ArticuloInit.codigo_barras kw))
           (default "" (ArticuloInit.descripcion kw))
           (default "" (ArticuloInit.presentacion kw))
           g l (ACTIVO env) st "")
  end.

(** [ArticuloSerializer.create] of the plain serializer (lines 15-16):
    the validated data goes to [objects.create] as it is. *)
Definition ArticuloSerializer_create (env : Env) (validated_data : ArticuloSerializer.data)
    : M Articulo.t :=
  Articulo_objects_create_kwargs env
    (ArticuloInit.mk None
       (ArticuloSerializer.codigo_articulo validated_data)
       (ArticuloSerializer.codigo_barras validated_data)
       (ArticuloSerializer.descripcion validated_data)
       (ArticuloSerializer.presentacion validated_data)
       None None
       (ArticuloSerializer.stock validated_data)).

Module ArticuloSerializer'.

(** The [ModelSerializer] that takes the name [ArticuloSerializer] over
    (lines 62-87). [validated_data] holds [grupo_id] and [linea_id] and
    the writable model fields; [articulo_id] is [None] when the data
    does not carry it. *)
Record data := mk {
  articulo_id : option UUID;
  codigo_articulo : string;
  codigo_barras : string;
  descripcion : string;
  presentacion : string;
  stock : Decimal;
  grupo_id : UUID;
  linea_id : UUID }.

Definition create (env : Env) (validated_data : data) : M Articulo.t :=
  let grupo_id := grupo_id validated_data in
  let linea_id := linea_id validated_data in
  let* grupo := query (objects_get "GrupoArticulo" grupos_articulos grupo_id) in
  let* linea := query (objects_get "LineaArticulo" lineas_articulos linea_id) in
  let* articulo :=
    Articulo_objects_create_kwargs env
      (ArticuloInit.mk (articulo_id validated_data)
         (Some (codigo_articulo validated_data))
         (Some (codigo_barras validated_data))
         (Some (descripcion validated_data))
         (Some (presentacion validated_data))
         (Some (GrupoArticulo.grupo_id grupo))
         (Some (LineaArticulo.linea_id linea))
         (Some (stock validated_data))) in
  ret articulo.

End ArticuloSerializer'.

Module DynamicFieldsModelSerializer.

(** [self.fields] is an ordered dictionary from field name to field; the
    serializer's output follows its order. [pop] of a name that is not a
    key raises KeyError: [None] here. *)
Definition pop {F} (field_name : string) (fields : list (string * F))
    : option (list (string * F)) :=
  if decide (field_name ∈ fields.*1)
  then Some (filter (λ kv, kv.1 ≠ field_name) fields)
  else None.

(** [for field_name in names: self.fields.pop(field_name)] *)
Fixpoint pop_each {F} (names : list string) (fields : list (string * F))
    : option (list (string * F)) :=
  match names with
  | [] => Some fields
  | field_name :: rest =>
      match pop field_name fields with
      | Some fields' => pop_each rest fields'
      | None => None
      end
  end.

(** [existing - allowed] *)
Definition to_remove {F} (allowed : list string) (fields : list (string * F)) : gset string :=
  list_to_set (fields.*1) ∖ list_to_set allowed.

(** [__init__], after [super().__init__] has built [self.fields]. The loop
    visits the set [existing - allowed] in the order [visit] lists it. *)
Definition init_visiting {F} (visit : list string) (fields_kw : option (list string))
    (fields : list (string * F)) : option (list (string * F)) :=
  match fields_kw with
  | None => Some fields
  | Some _ => pop_each visit fields
  end.

Definition init {F} (fields_kw : option (list string)) (fields : list (string * F))
    : option (list (string * F)) :=
  init_visiting
    (match fields_kw with
     | None => []
     | Some allowed => elements (to_remove allowed fields)
     end)
    fields_kw fields.

End DynamicFieldsModelSerializer.

(** [ArticuloDynamicSerializer.Meta.fields] *)
Definition ArticuloDynamicSerializer_fields : list string :=
  ["articulo_id"; "codigo_articulo"; "codigo_barras"; "descripcion"; "presentacion";
   "grupo"; "linea"; "stock"].

(** Invariants of the whole database. Every order stores the sum of its
    items; every reference of the catalogue and of the order items
    resolves; no two articles share a code. *)
Definition importes_consistentes (db : DB) : Prop :=
  map_Forall (λ k o, OrdenCompraCliente.importe o = suma_items k db)
             (ordenes_compra_cliente db).

Definition catalogo_integro (db : DB) : Prop :=
  map_Forall (λ _ a, is_Some (grupos_articulos db !! Articulo.grupo a)
                     ∧ is_Some (lineas_articulos db !! Articulo.linea a))
             (articulos db)
  ∧ map_Forall (λ _ l, is_Some (grupos_articulos db !! LineaArticulo.grupo l))
               (lineas_articulos db).

Definition items_integros (db : DB) : Prop :=
  map_Forall (λ _ item,
                is_Some (ordenes_compra_cliente db !! ItemOrdenCompraCliente.pedido item)
                ∧ is_Some (articulos db !! ItemOrdenCompraCliente.articulo item))
             (items_ordenes_compra_cliente db).

Definition codigos_unicos (db : DB) : Prop :=
  ∀ k1 k2 a1 a2,
    articulos db !! k1 = Some a1 → articulos db !! k2 = Some a2 →
    Articulo.codigo_articulo a1 = Articulo.codigo_articulo a2 → k1 = k2.

(** What the fields of the creation serializer ask of a request. *)
Definition fields_ok (d : ArticuloCreateSerializer.data) (db : DB) : Prop :=
  (text_ok 25 (ArticuloCreateSerializer.codigo_articulo d)
   ∧ (4 ≤ len (ArticuloCreateSerializer.codigo_articulo d))%nat
   ∧ map_Forall (λ _ a, Articulo.codigo_articulo a
                        ≠ ArticuloCreateSerializer.codigo_articulo d) (articulos db))
  ∧ text_ok 25 (ArticuloCreateSerializer.codigo_barras d)
  ∧ (text_ok 150 (ArticuloCreateSerializer.descripcion d)
     ∧ (5 ≤ len (ArticuloCreateSerializer.descripcion d))%nat)
  ∧ text_ok 100 (ArticuloCreateSerializer.presentacion d)
  ∧ 0 ≤ ArticuloCreateSerializer.stock d < 10 ^ 12
  ∧ 0 ≤ ArticuloCreateSerializer.precio_1 d < 10 ^ 12.

Definition catalogo_por_pk (db : DB) : Prop :=
  map_Forall (λ k g, GrupoArticulo.grupo_id g = k) (grupos_articulos db)
  ∧ map_Forall (λ k l, LineaArticulo.linea_id l = k) (lineas_articulos db)
  ∧ map_Forall (λ k a, Articulo.articulo_id a = k) (articulos db).

(** An item of 1000 units at 9999999999.99: the total has 15 digits. *)
Definition item_desbordado : ItemOrdenCompraCliente.t :=
  nuevo_item 108%N 21%N 1000 999999999999 1.

(** The database when the clock shows [t], and an item row without its
    date of creation. *)
Definition at_time (t : Z) (db : DB) : DB :=
  mkDB (grupos_articulos db) (lineas_articulos db) (articulos db)
       (lista_precios db) (items_pedido db) (ordenes_compra_cliente db)
       (items_ordenes_compra_cliente db)
       (usuarios db) t (integer_max db).

Definition sin_fecha (item : ItemOrdenCompraCliente.t) : ItemOrdenCompraCliente.t :=
  ItemOrdenCompraCliente.set_fecha_creacion 0 item.

(** One unit at 100000000.00, whose total has one digit more than an
    importe holds, and one unit at 1.00. *)
Definition item_cien_millones : ItemOrdenCompraCliente.t :=
  nuevo_item 109%N 21%N 1 10000000000 1.
Definition item_uno : ItemOrdenCompraCliente.t :=
  nuevo_item 110%N 21%N 1 100 1.

(** A second order beside order 1 and its two items, and [item_b]
    re-assigned to it. *)
Definition orden_2 : OrdenCompraCliente.t :=
  OrdenCompraCliente.mk 32%N 2 0 41%N 51%N 0 1 None 1 0.

Definition db_dos_ordenes : DB := with_ordenes <[2 := orden_2]> db_tras_b.

Definition item_b_movido : ItemOrdenCompraCliente.t :=
  ItemOrdenCompraCliente.mk 102%N 2 1 21%N 3 250 750 0 1 0.

(** ** Properties *)

Section monad_facts.
Context {A : Type}.

Lemma bind_Return {B} (m : M A) (k : A → M B) db a db' :
  m db = (Return a, db') → bind m k db = k a db'.
Proof. unfold bind. by intros ->. Qed.

End monad_facts.



(** Under its declared name the reverse accessor yields the price list
    of the article. *)
Lemma getattr_articulo_lista self db lista :
  lista_precios db !! Articulo.articulo_id self = Some lista →
  Articulo_getattr_lista self "articulo_lista" db = (Return lista, db).
Proof.
  intros Hl. unfold Articulo_getattr_lista. rewrite decide_True by done.
  unfold query, objects_get. by rewrite Hl.
Qed.

(** The name [listaprecio] resolves to nothing on an article. *)
Lemma getattr_listaprecio self db :
  Articulo_getattr_lista self "listaprecio" db = (Raise (AttributeError "listaprecio"), db).
Proof.
  unfold Articulo_getattr_lista.
  destruct (decide ("listaprecio" = "articulo_lista")) as [Heq | _]; [discriminate Heq | done].
Qed.

(** What the insert or update of [super().save()] leaves of the fields
    of an item: all but [fecha_creacion]. *)
Lemma pre_save_fields force_insert self db :
  let self1 := ItemOrdenCompraCliente_pre_save force_insert self db in
  ItemOrdenCompraCliente.item_id self1 = ItemOrdenCompraCliente.item_id self
  ∧ ItemOrdenCompraCliente.pedido self1 = ItemOrdenCompraCliente.pedido self
  ∧ ItemOrdenCompraCliente.nro_item self1 = ItemOrdenCompraCliente.nro_item self
  ∧ ItemOrdenCompraCliente.articulo self1 = ItemOrdenCompraCliente.articulo self
  ∧ ItemOrdenCompraCliente.cantidad self1 = ItemOrdenCompraCliente.cantidad self
  ∧ ItemOrdenCompraCliente.precio_unitario self1
    = ItemOrdenCompraCliente.precio_unitario self
  ∧ ItemOrdenCompraCliente.total_item self1 = ItemOrdenCompraCliente.total_item self
  ∧ ItemOrdenCompraCliente.estado self1 = ItemOrdenCompraCliente.estado self
  ∧ ItemOrdenCompraCliente.creado_por self1 = ItemOrdenCompraCliente.creado_por self.
Proof.
  unfold ItemOrdenCompraCliente_pre_save.
  by destruct (ItemOrdenCompraCliente_adding _ _ _).
Qed.


(** [save] without its price look-up, which never yields a price. *)
Lemma save_item_eq force_insert self db :
  ItemOrdenCompraCliente_save force_insert self db =
  match ItemOrdenCompraCliente_super_save force_insert (recalculado self) db with
  | (Return self1, db1) =>
      match OrdenCompraCliente_objects_get (ItemOrdenCompraCliente.pedido self1) db1 with
      | Return o =>
          match iter (items_orden_compra o db1) with
          | Return items =>
              (Return self1,
               with_ordenes
                 <[OrdenCompraCliente.nro_pedido o :=
                     OrdenCompraCliente.set_importe (sum_total_item items) o]> db1)
          | Raise e => (Raise e, db1)
          end
      | Raise e => (Raise e, db1)
      end
  | (Raise e, db1) => (Raise e, db1)
  end.
Proof.
  unfold ItemOrdenCompraCliente_save. fold (recalculado self).
  assert (Hself :
    (if decide (ItemOrdenCompraCliente.precio_unitario (recalculado self) = 0) then
       try_except
         (let* articulo :=
            query (objects_get "Articulo" articulos
                     (ItemOrdenCompraCliente.articulo (recalculado self))) in
          let* lista_precio := Articulo_getattr_lista articulo "listaprecio" in
          ret (ItemOrdenCompraCliente.set_total_item
                 (ItemOrdenCompraCliente.cantidad
                    (ItemOrdenCompraCliente.set_precio_unitario
                       (ListaPrecios.precio_1 lista_precio) (recalculado self))
                  * ItemOrdenCompraCliente.precio_unitario
                      (ItemOrdenCompraCliente.set_precio_unitario
                         (ListaPrecios.precio_1 lista_precio) (recalculado self)))
                 (ItemOrdenCompraCliente.set_precio_unitario
                    (ListaPrecios.precio_1 lista_precio) (recalculado self))))
         (ret (recalculado self))
     else ret (recalculado self)) db = (Return (recalculado self), db)).
  { case_decide; [| done].
    unfold try_except, bind, query, objects_get.
    destruct (articulos db !! _); [| done].
    by rewrite getattr_listaprecio. }
  rewrite (bind_Return _ _ _ _ _ Hself).
  unfold bind at 1.
  destruct (ItemOrdenCompraCliente_super_save _ _ db) as [[self1 | e] db1]; [| done].
  unfold bind at 1. unfold query at 1.
  destruct (OrdenCompraCliente_objects_get _ db1) as [o | e]; [| done].
  unfold bind at 1. unfold actualizar_total, bind at 1. unfold query.
  destruct (iter _) as [items | e]; [| done].
  reflexivity.
Qed.

(** [super().save()] either writes the item row and nothing else, or
    raises and writes nothing. *)
Lemma super_save_Return force_insert self db self1 db1 :
  ItemOrdenCompraCliente_super_save force_insert self db = (Return self1, db1) →
  self1 = ItemOrdenCompraCliente_pre_save force_insert self db
  ∧ db1 = with_items_orden <[ItemOrdenCompraCliente.item_id self := self1]> db
  ∧ 0 ≤ ItemOrdenCompraCliente.nro_item self ≤ Z.of_N (integer_max db)
  ∧ 0 ≤ ItemOrdenCompraCliente.cantidad self ≤ Z.of_N (integer_max db)
  ∧ is_Some (ordenes_compra_cliente db !! ItemOrdenCompraCliente.pedido self)
  ∧ is_Some (articulos db !! ItemOrdenCompraCliente.articulo self)
  ∧ ItemOrdenCompraCliente.creado_por self ∈ usuarios db
  ∧ (force_insert = true →
     items_ordenes_compra_cliente db !! ItemOrdenCompraCliente.item_id self = None)
  ∧ - Z.of_N (integer_max db) - 1 ≤ ItemOrdenCompraCliente.estado self
    ≤ Z.of_N (integer_max db).
Proof.
  unfold ItemOrdenCompraCliente_super_save.
  repeat case_decide; try discriminate.
  destruct (force_insert && _) eqn:Hfresh; [discriminate |].
  intros [= <- <-].
  destruct (pre_save_fields force_insert self db) as (-> & _).
  split_and!; try done; try lia; try (by apply not_eq_None_Some).
  intros ->. simpl in Hfresh. apply bool_decide_eq_false in Hfresh.
  by apply dec_stable in Hfresh.
Qed.

Lemma super_save_Raise force_insert self db e db1 :
  ItemOrdenCompraCliente_super_save force_insert self db = (Raise e, db1) → db1 = db.
Proof.
  unfold ItemOrdenCompraCliente_super_save.
  repeat case_decide; try (by intros [= _ <-]).
  destruct (force_insert && _); [by intros [= _ <-] | discriminate].
Qed.

Lemma super_save_runs force_insert self db :
  0 ≤ ItemOrdenCompraCliente.nro_item self ≤ Z.of_N (integer_max db) →
  0 ≤ ItemOrdenCompraCliente.cantidad self ≤ Z.of_N (integer_max db) →
  - Z.of_N (integer_max db) - 1 ≤ ItemOrdenCompraCliente.estado self
  ≤ Z.of_N (integer_max db) →
  is_Some (ordenes_compra_cliente db !! ItemOrdenCompraCliente.pedido self) →
  is_Some (articulos db !! ItemOrdenCompraCliente.articulo self) →
  ItemOrdenCompraCliente.creado_por self ∈ usuarios db →
  (force_insert = true →
   items_ordenes_compra_cliente db !! ItemOrdenCompraCliente.item_id self = None) →
  ItemOrdenCompraCliente_super_save force_insert self db =
  (Return (ItemOrdenCompraCliente_pre_save force_insert self db),
   with_items_orden
     <[ItemOrdenCompraCliente.item_id self :=
         ItemOrdenCompraCliente_pre_save force_insert self db]> db).
Proof.
  intros Hn Hc He [o Ho] [a Ha] Hu Hfresh.
  unfold ItemOrdenCompraCliente_super_save.
  rewrite !decide_False by (lia || congruence || tauto).
  destruct (pre_save_fields force_insert self db) as (-> & _).
  destruct force_insert; [| done].
  rewrite bool_decide_eq_false_2; [done |]. rewrite Hfresh; [tauto | done].
Qed.

(** The items that [actualizar_total] reads for an order are the rows
    that [suma_items] adds up. *)
Lemma items_orden_compra_suma o db :
  sum_total_item (items_orden_compra o db) = suma_items (OrdenCompraCliente.nro_pedido o) db.
Proof. reflexivity. Qed.

Lemma objects_get_orden_Return k db o :
  OrdenCompraCliente_objects_get k db = Return o →
  ordenes_compra_cliente db !! k = Some o ∧ fits 10 (OrdenCompraCliente.importe o).
Proof.
  unfold OrdenCompraCliente_objects_get, objects_get, OrdenCompraCliente_from_db.
  destruct (ordenes_compra_cliente db !! k) as [row |]; [| discriminate].
  case_decide; [| discriminate]. by intros [= <-].
Qed.

Lemma objects_get_orden_Raise k db e :
  OrdenCompraCliente_objects_get k db = Raise e →
  (ordenes_compra_cliente db !! k = None ∧ e = DoesNotExist "OrdenCompraCliente")
  ∨ (∃ o, ordenes_compra_cliente db !! k = Some o
          ∧ ¬ fits 10 (OrdenCompraCliente.importe o) ∧ e = InvalidOperation).
Proof.
  unfold OrdenCompraCliente_objects_get, objects_get, OrdenCompraCliente_from_db.
  destruct (ordenes_compra_cliente db !! k) as [row |].
  - case_decide; [discriminate |]. intros [= <-]. right. eauto.
  - intros [= <-]. by left.
Qed.

Lemma iter_Return items items' :
  iter items = Return items' →
  items' = items ∧ map_Forall (λ _ item, ItemOrdenCompraCliente_fits item) items.
Proof. unfold iter. case_decide; [| discriminate]. by intros [= <-]. Qed.

Lemma iter_Raise items e :
  iter items = Raise e →
  e = InvalidOperation ∧ ¬ map_Forall (λ _ item, ItemOrdenCompraCliente_fits item) items.
Proof. unfold iter. case_decide; [discriminate |]. by intros [= <-]. Qed.

(** A successful [save] of an item, spelled out: the stored row is the item
    with its recomputed total, and the order row gets the sum over the
    item rows of the order as they are after that write. *)
Lemma save_item_Return force_insert self db self' db' :
  ItemOrdenCompraCliente_save force_insert self db = (Return self', db') →
  ∃ o,
    self' = ItemOrdenCompraCliente_pre_save force_insert (recalculado self) db
    ∧ ordenes_compra_cliente db !! ItemOrdenCompraCliente.pedido self = Some o
    ∧ 0 ≤ ItemOrdenCompraCliente.cantidad self
    ∧ items_ordenes_compra_cliente db' =
        <[ItemOrdenCompraCliente.item_id self := self']>
          (items_ordenes_compra_cliente db)
    ∧ ordenes_compra_cliente db' =
        <[OrdenCompraCliente.nro_pedido o :=
            OrdenCompraCliente.set_importe
              (suma_items (OrdenCompraCliente.nro_pedido o) db') o]>
          (ordenes_compra_cliente db)
    ∧ articulos db' = articulos db
    ∧ lista_precios db' = lista_precios db
    ∧ db' =
        with_ordenes
          <[OrdenCompraCliente.nro_pedido o :=
              OrdenCompraCliente.set_importe
                (suma_items (OrdenCompraCliente.nro_pedido o) db') o]>
          (with_items_orden <[ItemOrdenCompraCliente.item_id self := self']> db)
    ∧ ItemOrdenCompraCliente.item_id self' = ItemOrdenCompraCliente.item_id self
    ∧ ItemOrdenCompraCliente.pedido self' = ItemOrdenCompraCliente.pedido self
    ∧ ItemOrdenCompraCliente.cantidad self' = ItemOrdenCompraCliente.cantidad self
    ∧ ItemOrdenCompraCliente.precio_unitario self'
      = ItemOrdenCompraCliente.precio_unitario self
    ∧ ItemOrdenCompraCliente.total_item self'
      = ItemOrdenCompraCliente.cantidad self * ItemOrdenCompraCliente.precio_unitario self.
Proof.
  rewrite save_item_eq.
  destruct (ItemOrdenCompraCliente_super_save _ _ db) as [[self1 | e] db1] eqn:Hsuper;
    [| discriminate].
  apply super_save_Return in Hsuper as (Hself1 & -> & _ & Hc & _ & _).
  destruct (pre_save_fields force_insert (recalculado self) db)
    as (Hid & Hp & _ & _ & Hcant & Hpu & Ht & _).
  rewrite <- Hself1 in Hid, Hp, Hcant, Hpu, Ht. simpl in Hid, Hp, Hcant, Hpu, Ht.
  rewrite Hp.
  destruct (OrdenCompraCliente_objects_get _ _) as [o | e] eqn:Ho; [| discriminate].
  apply objects_get_orden_Return in Ho as [Ho _]. simpl in Ho.
  destruct (iter _) as [items | e] eqn:Hiter; [| discriminate].
  apply iter_Return in Hiter as [-> _].
  intros [= <- <-]. exists o. simpl in *. split_and!; try done; lia.
Qed.

(** What lets a [save] return: the checks of the item's own row, an
    order row that can be read back, and items of the order, the saved
    one among them, whose amounts can be read back. *)
Lemma save_item_runs force_insert self db o :
  0 ≤ ItemOrdenCompraCliente.nro_item self ≤ Z.of_N (integer_max db) →
  0 ≤ ItemOrdenCompraCliente.cantidad self ≤ Z.of_N (integer_max db) →
  - Z.of_N (integer_max db) - 1 ≤ ItemOrdenCompraCliente.estado self
  ≤ Z.of_N (integer_max db) →
  ordenes_compra_cliente db !! ItemOrdenCompraCliente.pedido self = Some o →
  fits 10 (OrdenCompraCliente.importe o) →
  is_Some (articulos db !! ItemOrdenCompraCliente.articulo self) →
  ItemOrdenCompraCliente.creado_por self ∈ usuarios db →
  (force_insert = true →
   items_ordenes_compra_cliente db !! ItemOrdenCompraCliente.item_id self = None) →
  fits 12 (ItemOrdenCompraCliente.precio_unitario self) →
  fits 12 (ItemOrdenCompraCliente.cantidad self
           * ItemOrdenCompraCliente.precio_unitario self) →
  map_Forall (λ _ item, ItemOrdenCompraCliente_fits item)
             (items_ordenes_compra_cliente db) →
  ∃ db',
    ItemOrdenCompraCliente_save force_insert self db
    = (Return (ItemOrdenCompraCliente_pre_save force_insert (recalculado self) db), db').
Proof.
  intros Hn Hc He Ho Hfit Ha Hu Hfresh Hpu Ht Hitems. rewrite save_item_eq.
  rewrite (super_save_runs force_insert (recalculado self) db) by done.
  destruct (pre_save_fields force_insert (recalculado self) db)
    as (Hid & Hp & _ & _ & _ & Hpu' & Ht' & _).
  rewrite Hp.
  unfold OrdenCompraCliente_objects_get, objects_get, OrdenCompraCliente_from_db.
  simpl. rewrite Ho. rewrite decide_True by done.
  unfold iter. rewrite decide_True; [eauto |].
  unfold items_orden_compra. simpl.
  apply map_Forall_lookup. intros k item [Hk _]%map_lookup_filter_Some.
  destruct (decide (k = ItemOrdenCompraCliente.item_id self)) as [-> | Hne].
  - rewrite lookup_insert_eq in Hk. injection Hk as <-.
    split; [by rewrite Hpu' | by rewrite Ht'].
  - rewrite lookup_insert_ne in Hk by done. by eapply Hitems.
Qed.

(** A [save] that raises has written nothing, or has written the item row
    and then failed to read an amount back, leaving the order row as it
    was. *)
Lemma save_item_Raise force_insert self db e db' :
  ItemOrdenCompraCliente_save force_insert self db = (Raise e, db') →
  db' = db
  ∨ (e = InvalidOperation
     ∧ 0 ≤ ItemOrdenCompraCliente.cantidad self
     ∧ is_Some (ordenes_compra_cliente db !! ItemOrdenCompraCliente.pedido self)
     ∧ is_Some (articulos db !! ItemOrdenCompraCliente.articulo self)
     ∧ db' = with_items_orden
               <[ItemOrdenCompraCliente.item_id self :=
                   ItemOrdenCompraCliente_pre_save force_insert (recalculado self) db]> db).
Proof.
  rewrite save_item_eq.
  destruct (ItemOrdenCompraCliente_super_save _ _ db) as [[self1 | e1] db1] eqn:Hsuper.
  - apply super_save_Return in Hsuper as (Hself1 & -> & _ & Hc & [o Ho] & Ha & _).
    destruct (pre_save_fields force_insert (recalculado self) db) as (_ & Hp & _).
    rewrite <- Hself1 in Hp. rewrite Hp. simpl in *.
    destruct (OrdenCompraCliente_objects_get _ _) as [o' | e'] eqn:Hget.
    + destruct (iter _) as [items | e''] eqn:Hiter; [discriminate |].
      apply iter_Raise in Hiter as [-> _].
      intros [= <- <-]. right. rewrite <- Hself1. split_and!; eauto; lia.
    + apply objects_get_orden_Raise in Hget as [[Hnone _] | (o' & _ & _ & ->)].
      * simpl in Hnone. congruence.
      * intros [= <- <-]. right. rewrite <- Hself1. split_and!; eauto; lia.
  - apply super_save_Raise in Hsuper as ->. intros [= _ <-]. by left.
Qed.

(** With a unit price of zero the saved item keeps price and total zero,
    whatever price list the article has. *)
Lemma save_item_precio_cero force_insert self db self' db' :
  ItemOrdenCompraCliente.precio_unitario self = 0 →
  ItemOrdenCompraCliente_save force_insert self db = (Return self', db') →
  ItemOrdenCompraCliente.precio_unitario self' = 0
  ∧ ItemOrdenCompraCliente.total_item self' = 0
  ∧ items_ordenes_compra_cliente db' !! ItemOrdenCompraCliente.item_id self = Some self'.
Proof.
  intros Hp (o & _ & _ & _ & -> & _ & _ & _ & _ & _ & _ & _ & Hpu & Htot)%save_item_Return.
  rewrite lookup_insert_eq, Hpu, Htot, Hp. split_and!; [done | lia | done].
Qed.

(** C1: evaluation at the failing input. Article 21 has a price list
    with precio_1 = 10.00; an item of 2 units saved with unit price zero
    is stored with unit price 0 and total 0, not 10.00 and 20.00. For
    article 22, which has no price list, the save succeeds with 0 and 0
    as well. *)
Theorem C1_price_fallback_at_failing_input :
  ListaPrecios.precio_1 <$> lista_precios ejemplo_db !! 21%N = Some 1000
  ∧ (∃ self' db',
       ItemOrdenCompraCliente_save true (nuevo_item 104%N 21%N 2 0 1) ejemplo_db
       = (Return self', db')
       ∧ items_ordenes_compra_cliente db' !! 104%N = Some self'
       ∧ ItemOrdenCompraCliente.cantidad self' = 2
       ∧ ItemOrdenCompraCliente.precio_unitario self' = 0
       ∧ ItemOrdenCompraCliente.total_item self' = 0)
  ∧ lista_precios ejemplo_db !! 22%N = None
  ∧ (∃ self' db',
       ItemOrdenCompraCliente_save true (nuevo_item 105%N 22%N 2 0 1) ejemplo_db
       = (Return self', db')
       ∧ items_ordenes_compra_cliente db' !! 105%N = Some self'
       ∧ ItemOrdenCompraCliente.precio_unitario self' = 0
       ∧ ItemOrdenCompraCliente.total_item self' = 0).
Proof.
  split_and!; try reflexivity.
  - do 2 eexists. split; [vm_compute; reflexivity |]. by vm_compute.
  - do 2 eexists. split; [vm_compute; reflexivity |]. by vm_compute.
Qed.

(** *** Order totals *)

Lemma save_item_por_pk force_insert self db :
  ordenes_por_pk db → ordenes_por_pk (exec (ItemOrdenCompraCliente_save force_insert self) db).
Proof.
  intros Hwf. unfold exec.
  destruct (ItemOrdenCompraCliente_save force_insert self db) as [[self' | e] db'] eqn:Hs.
  - apply save_item_Return in Hs as (o & _ & Ho & _ & _ & Hord & _).
    unfold ordenes_por_pk. simpl. rewrite Hord. by apply map_Forall_insert_2.
  - by apply save_item_Raise in Hs as [-> | (_ & _ & _ & _ & ->)].
Qed.

Lemma ejemplo_db_por_pk : ordenes_por_pk ejemplo_db.
Proof. apply map_Forall_singleton. reflexivity. Qed.

(** C2: after a save of an order item that returns, the stored importe
    of its order is the sum of total_item over all item rows of that
    order, whatever their estado. The save does return when the row
    passes the checks of its table (counters and estado within the range
    of their columns, order, article and user present, a fresh key for
    an insert) and every amount involved has the digits of its column:
    the unit price and the total of the item, the amounts of the items
    already stored, the importe the order has and the sum it gets. And
    items with totals 5.00, 7.50 (one that is not active) and 2.50 added
    to an empty order give 5.00, 12.50 and 15.00. *)
Theorem C2_importe_is_sum_of_items :
  (∀ force_insert self db self' db',
     ordenes_por_pk db →
     ItemOrdenCompraCliente_save force_insert self db = (Return self', db') →
     importe_of (ItemOrdenCompraCliente.pedido self) db'
     = Some (suma_items (ItemOrdenCompraCliente.pedido self) db'))
  ∧ (∀ force_insert self db o,
       0 ≤ ItemOrdenCompraCliente.nro_item self ≤ Z.of_N (integer_max db) →
       0 ≤ ItemOrdenCompraCliente.cantidad self ≤ Z.of_N (integer_max db) →
       - Z.of_N (integer_max db) - 1 ≤ ItemOrdenCompraCliente.estado self
       ≤ Z.of_N (integer_max db) →
       ordenes_compra_cliente db !! ItemOrdenCompraCliente.pedido self = Some o →
       is_Some (articulos db !! ItemOrdenCompraCliente.articulo self) →
       ItemOrdenCompraCliente.creado_por self ∈ usuarios db →
       (force_insert = true →
        items_ordenes_compra_cliente db !! ItemOrdenCompraCliente.item_id self = None) →
       fits 12 (ItemOrdenCompraCliente.precio_unitario self) →
       fits 12 (ItemOrdenCompraCliente.cantidad self
                * ItemOrdenCompraCliente.precio_unitario self) →
       map_Forall (λ _ item, ItemOrdenCompraCliente_fits item)
                  (items_ordenes_compra_cliente db) →
       fits 10 (OrdenCompraCliente.importe o) →
       fits 10 (suma_items (ItemOrdenCompraCliente.pedido self)
                  (with_items_orden
                     <[ItemOrdenCompraCliente.item_id self := recalculado self]> db)) →
       ∃ self' db',
         ItemOrdenCompraCliente_save force_insert self db = (Return self', db'))
  ∧ (importe_of 1 ejemplo_db = Some 0
     ∧ ItemOrdenCompraCliente_save true item_a ejemplo_db = (Return stored_a, db_tras_a)
     ∧ importe_of 1 db_tras_a = Some 500
     ∧ ItemOrdenCompraCliente_save true item_b db_tras_a = (Return stored_b, db_tras_b)
     ∧ ItemOrdenCompraCliente.estado stored_b ≠ ACTIVO ejemplo_env
     ∧ importe_of 1 db_tras_b = Some 1250
     ∧ ItemOrdenCompraCliente_save true item_c db_tras_b = (Return stored_c, db_tras_c)
     ∧ importe_of 1 db_tras_c = Some 1500).
Proof.
  split; [| split].
  - intros fi self db self' db' Hwf (o & _ & Ho & _ & _ & Hord & _)%save_item_Return.
    unfold importe_of. rewrite Hord.
    rewrite (Hwf _ _ Ho), lookup_insert_eq. reflexivity.
  - intros fi self db o Hn Hc He Ho Ha Hu Hfresh Hpu Ht Hitems Himp _.
    destruct (save_item_runs fi self db o) as [db' Hs]; eauto.
  - split_and!; try (vm_compute; reflexivity); discriminate.
Qed.

Lemma C2_importe_is_sum_of_items_witness :
  ordenes_por_pk ejemplo_db
  ∧ ItemOrdenCompraCliente_save true item_a ejemplo_db = (Return stored_a, db_tras_a)
  ∧ importe_of 1 db_tras_a = Some (suma_items 1 db_tras_a)
  ∧ suma_items 1 db_tras_a = 500
  ∧ ∃ self' db', ItemOrdenCompraCliente_save true item_b db_tras_a = (Return self', db').
Proof.
  assert (Hwf : ordenes_por_pk ejemplo_db) by (apply map_Forall_singleton; reflexivity).
  assert (Hs : ItemOrdenCompraCliente_save true item_a ejemplo_db = (Return stored_a, db_tras_a))
    by (vm_compute; reflexivity).
  split_and!; [exact Hwf | exact Hs | | vm_compute; reflexivity |].
  - exact (proj1 C2_importe_is_sum_of_items true item_a ejemplo_db stored_a db_tras_a Hwf Hs).
  - apply (proj1 (proj2 C2_importe_is_sum_of_items) true item_b db_tras_a
             (OrdenCompraCliente.set_importe 500 orden_1)).
    + vm_compute. split; discriminate.
    + vm_compute. split; discriminate.
    + vm_compute. split; discriminate.
    + vm_compute; reflexivity.
    + vm_compute. eauto.
    + apply (bool_decide_unpack _). vm_compute. exact I.
    + intros _. vm_compute; reflexivity.
    + vm_compute; reflexivity.
    + vm_compute; reflexivity.
    + apply (bool_decide_unpack _). vm_compute. exact I.
    + vm_compute; reflexivity.
    + vm_compute; reflexivity.
Defined.

Lemma sum_total_item_delete (m : gmap N ItemOrdenCompraCliente.t) i x :
  m !! i = Some x →
  sum_total_item m = sum_total_item (delete i m) + ItemOrdenCompraCliente.total_item x.
Proof.
  intros Hi. unfold sum_total_item.
  rewrite (map_fold_delete_L _ _ i x m); [done | | done].
  intros. lia.
Qed.

(** Removing an item row lowers the sum of its order by the item's total
    and leaves the sums of the other orders alone. *)
Lemma suma_items_delete nro self db :
  items_ordenes_compra_cliente db !! ItemOrdenCompraCliente.item_id self = Some self →
  suma_items nro db =
  suma_items nro (with_items_orden (delete (ItemOrdenCompraCliente.item_id self)) db)
  + (if decide (ItemOrdenCompraCliente.pedido self = nro)
     then ItemOrdenCompraCliente.total_item self else 0).
Proof.
  intros Hi. unfold suma_items. simpl. rewrite map_filter_delete.
  case_decide as Hp.
  - apply sum_total_item_delete. by apply map_lookup_filter_Some.
  - rewrite delete_id; [lia |].
    apply map_lookup_filter_None. right. intros x Hx. simpl. congruence.
Qed.

(** C9: deleting an order item removes its row and touches no order row,
    so an importe that was the sum of the item totals now exceeds the
    sum over the remaining rows by the deleted item's total; the next
    save of another item of the order brings it back to the sum over the
    rows that remain. *)
Theorem C9_delete_leaves_importe_stale self db o :
  items_ordenes_compra_cliente db !! ItemOrdenCompraCliente.item_id self = Some self →
  ordenes_compra_cliente db !! ItemOrdenCompraCliente.pedido self = Some o →
  OrdenCompraCliente.importe o = suma_items (ItemOrdenCompraCliente.pedido self) db →
  ∃ db',
    ItemOrdenCompraCliente_delete self db = (Return tt, db')
    ∧ items_ordenes_compra_cliente db' !! ItemOrdenCompraCliente.item_id self = None
    ∧ ordenes_compra_cliente db' = ordenes_compra_cliente db
    ∧ importe_of (ItemOrdenCompraCliente.pedido self) db'
      = importe_of (ItemOrdenCompraCliente.pedido self) db
    ∧ importe_of (ItemOrdenCompraCliente.pedido self) db'
      = Some (suma_items (ItemOrdenCompraCliente.pedido self) db'
              + ItemOrdenCompraCliente.total_item self)
    ∧ (∀ force_insert otro otro' db'',
         ordenes_por_pk db →
         ItemOrdenCompraCliente.pedido otro = ItemOrdenCompraCliente.pedido self →
         ItemOrdenCompraCliente.item_id otro ≠ ItemOrdenCompraCliente.item_id self →
         ItemOrdenCompraCliente_save force_insert otro db' = (Return otro', db'') →
         items_ordenes_compra_cliente db'' !! ItemOrdenCompraCliente.item_id self = None
         ∧ importe_of (ItemOrdenCompraCliente.pedido self) db''
           = Some (suma_items (ItemOrdenCompraCliente.pedido self) db'')).
Proof.
  intros Hi Ho Himp. eexists. split; [reflexivity |].
  split_and!.
  - simpl. apply lookup_delete_eq.
  - reflexivity.
  - reflexivity.
  - unfold importe_of. simpl. rewrite Ho. simpl. f_equal.
    rewrite Himp, (suma_items_delete _ self db Hi). by rewrite decide_True.
  - intros fi otro otro' db'' Hwf Hp Hne Hs.
    pose proof Hs as (o' & _ & Ho' & _ & Hitems & Hord & _)%save_item_Return.
    split.
    + rewrite Hitems, lookup_insert_ne by done. simpl. apply lookup_delete_eq.
    + simpl in Ho'. rewrite Hp in Ho'. unfold importe_of. rewrite Hord.
      rewrite (Hwf _ _ Ho'), lookup_insert_eq. reflexivity.
Qed.

Lemma C9_delete_leaves_importe_stale_witness :
  importe_of 1 db_tras_b = Some 1250
  ∧ ∃ db',
      ItemOrdenCompraCliente_delete stored_b db_tras_b = (Return tt, db')
      ∧ importe_of 1 db' = Some 1250
      ∧ suma_items 1 db' = 500.
Proof.
  split; [vm_compute; reflexivity |].
  destruct (C9_delete_leaves_importe_stale stored_b db_tras_b
              (OrdenCompraCliente.set_importe 1250 orden_1))
    as (db' & Hdel & _ & _ & Hsame & _).
  - vm_compute; reflexivity.
  - vm_compute; reflexivity.
  - vm_compute; reflexivity.
  - exists db'. split; [exact Hdel |].
    injection Hdel as <-. split; vm_compute; reflexivity.
Defined.


(** The total of a stored row that is not the product of its quantity
    and unit price does not survive a re-save either: the row of 3 units
    at 0.00 with total 0.02 comes back with total 0.00, and the importe
    goes from 0.02 to 0.00. *)
Lemma resave_recomputes_total :
  ∃ self' db',
    items_ordenes_compra_cliente db_redondeado !! 101%N = Some item_redondeado
    ∧ importe_of 1 db_redondeado = Some 2
    ∧ ItemOrdenCompraCliente_save false item_redondeado db_redondeado = (Return self', db')
    ∧ ItemOrdenCompraCliente.total_item self' = 0
    ∧ importe_of 1 db' = Some 0.
Proof. do 2 eexists. split_and!; vm_compute; reflexivity. Qed.



Lemma filter_not_empty {K} `{Countable K} {A} (P : K * A → Prop) `{!∀ x, Decision (P x)}
    (m : gmap K A) k a :
  m !! k = Some a → P (k, a) → filter P m ≠ ∅.
Proof. intros Hk HP Hempty. exact (map_filter_empty_not_lookup P m k a Hempty HP Hk). Qed.

(** C10: deleting an article that no order item refers to removes its
    row and every price-list row that points to it, and no other price
    list; deleting a group or a line that an article refers to raises
    RestrictedError and leaves the database as it was. *)
Theorem C10_delete_cascade_and_restrict :
  (∀ self db,
     map_Forall (λ _ item, ItemPedido.articulo item ≠ Articulo.articulo_id self)
                (items_pedido db) →
     map_Forall (λ _ item, ItemOrdenCompraCliente.articulo item ≠ Articulo.articulo_id self)
                (items_ordenes_compra_cliente db) →
     ∃ db',
       Articulo_delete self db = (Return tt, db')
       ∧ articulos db' !! Articulo.articulo_id self = None
       ∧ (∀ k lp, lista_precios db' !! k = Some lp →
                  ListaPrecios.articulo lp ≠ Articulo.articulo_id self)
       ∧ (∀ k lp, lista_precios db !! k = Some lp →
                  ListaPrecios.articulo lp ≠ Articulo.articulo_id self →
                  lista_precios db' !! k = Some lp))
  ∧ (∀ self db k a,
       articulos db !! k = Some a →
       Articulo.grupo a = GrupoArticulo.grupo_id self →
       ∃ model, GrupoArticulo_delete self db = (Raise (RestrictedError model), db))
  ∧ (∀ self db k a,
       articulos db !! k = Some a →
       Articulo.linea a = LineaArticulo.linea_id self →
       LineaArticulo_delete self db = (Raise (RestrictedError "Articulo"), db)).
Proof.
  split_and!.
  - intros self db Hped Hord. unfold Articulo_delete. simpl.
    rewrite !decide_True by (by apply map_empty_filter).
    eexists. split; [reflexivity |]. simpl. split_and!.
    + apply lookup_delete_eq.
    + by intros k lp [_ Hne]%map_lookup_filter_Some.
    + intros k lp Hk Hne. by apply map_lookup_filter_Some.
  - intros self db k a Hk Hg. unfold GrupoArticulo_delete. simpl.
    case_decide; [| eauto].
    rewrite decide_False; [eauto |]. by apply (filter_not_empty _ _ k a).
  - intros self db k a Hk Hl. unfold LineaArticulo_delete. simpl.
    rewrite decide_False; [done |]. by apply (filter_not_empty _ _ k a).
Qed.

Lemma C10_delete_cascade_and_restrict_witness :
  lista_precios ejemplo_db !! 21%N = Some lista_cola
  ∧ (∃ db',
       Articulo_delete articulo_cola ejemplo_db = (Return tt, db')
       ∧ articulos db' !! 21%N = None
       ∧ lista_precios db' !! 21%N = None)
  ∧ (∃ model,
       GrupoArticulo_delete grupo_bebidas ejemplo_db
       = (Raise (RestrictedError model), ejemplo_db))
  ∧ LineaArticulo_delete linea_gaseosas ejemplo_db
    = (Raise (RestrictedError "Articulo"), ejemplo_db).
Proof.
  destruct C10_delete_cascade_and_restrict as (Hart & Hgrupo & Hlinea).
  split_and!.
  - reflexivity.
  - destruct (Hart articulo_cola ejemplo_db) as (db' & Hdel & Hgone & _).
    + apply map_Forall_empty.
    + apply map_Forall_empty.
    + exists db'. split_and!; [exact Hdel | exact Hgone |].
      injection Hdel as <-. vm_compute. reflexivity.
  - apply (Hgrupo grupo_bebidas ejemplo_db 21%N articulo_cola); reflexivity.
  - apply (Hlinea linea_gaseosas ejemplo_db 21%N articulo_cola); reflexivity.
Defined.

(** *** Article creation *)

Lemma field_error_Msgs {A} name messages errors :
  field_error name (Raise (ValidationError (Msgs messages)) : outcome A) errors !! name
  = Some messages.
Proof. apply lookup_insert_eq. Qed.

Lemma field_error_Return {A} name (a : A) errors : field_error name (Return a) errors = errors.
Proof. reflexivity. Qed.

(** A field's error is filed under that field's name and no other. *)
Lemma field_error_ne {A} name k (r : outcome A) errors :
  name ≠ k → field_error name r errors !! k = errors !! k.
Proof.
  intros Hne. destruct r as [a | [| | | | | | [l | m]]]; try reflexivity.
  by apply lookup_insert_ne.
Qed.

(** What the declared fields answer: the value they were given, or the
    messages of a [ValidationError]. *)
Lemma run_validators_outcome {A} (validators : list (A → option string)) value :
  (run_validators validators value = Return value
   ∧ Forall (λ validator, validator value = None) validators)
  ∨ (∃ messages, run_validators validators value = Raise (ValidationError (Msgs messages))
                 ∧ Exists (λ validator, validator value ≠ None) validators).
Proof.
  unfold run_validators.
  destruct (omap (λ validator, validator value) validators) as [| m l] eqn:Hm.
  - left. split; [done |]. induction validators as [| v vs IH]; [constructor |].
    simpl in Hm. destruct (v value) eqn:Hv; [discriminate |].
    constructor; [done | by apply IH].
  - right. eexists. split; [done |].
    induction validators as [| v vs IH] in m, l, Hm |- *; [discriminate |].
    simpl in Hm. destruct (v value) eqn:Hv.
    + left. congruence.
    + right. by eapply IH.
Qed.

Lemma CharField_Return allow_blank limit data value :
  CharField allow_blank limit data = Return value ↔
  value = data
  ∧ (if decide (data = "") then allow_blank = true
     else (len data ≤ limit)%nat ∧ zero ∉ String.list_ascii_of_string data).
Proof.
  unfold CharField. case_decide as Hblank.
  - subst data.
    destruct allow_blank; split; try (by intros [= <-]); try (by intros [_ [=]]).
    by intros [-> _].
  - destruct (run_validators_outcome [max_length limit; null_characters] data)
      as [[-> Hall] | (l & -> & Hex)].
    + split; [intros [= <-] | by intros [-> _]].
      apply Forall_cons in Hall as [Hmax [Hnull _]%Forall_cons].
      unfold max_length in Hmax. unfold null_characters in Hnull.
      repeat case_decide; try discriminate. split; [done |]. split; [lia | done].
    + split; [discriminate |]. intros [_ [Hlen Hnul]]. exfalso.
      apply Exists_cons in Hex as [Hmax | [Hnull | []%Exists_nil]%Exists_cons].
      * unfold max_length in Hmax. rewrite decide_False in Hmax by lia. done.
      * unfold null_characters in Hnull. by rewrite decide_False in Hnull.
Qed.

Lemma CharField_outcome allow_blank limit data :
  CharField allow_blank limit data = Return data
  ∨ ∃ messages, CharField allow_blank limit data = Raise (ValidationError (Msgs messages)).
Proof.
  unfold CharField. case_decide as Hblank.
  - destruct allow_blank; [left; by rewrite Hblank | right; eauto].
  - destruct (run_validators_outcome [max_length limit; null_characters] data)
      as [[-> _] | (l & -> & _)]; eauto.
Qed.

Lemma DecimalField_Return validators data value :
  DecimalField validators data = Return value ↔
  value = data ∧ fits 12 data ∧ Forall (λ validator, validator data = None) validators.
Proof.
  unfold DecimalField. case_decide as Hfits.
  - destruct (run_validators_outcome validators data) as [[-> Hall] | (l & -> & Hex)].
    + split; [by intros [= <-] | by intros [-> _]].
    + split; [discriminate |]. intros (_ & _ & Hall). exfalso.
      apply Exists_exists in Hex as (v & Hv & Hne).
      by eapply Forall_forall in Hall.
  - split; [discriminate | tauto].
Qed.

Lemma DecimalField_outcome validators data :
  DecimalField validators data = Return data
  ∨ ∃ messages, DecimalField validators data = Raise (ValidationError (Msgs messages)).
Proof.
  unfold DecimalField. case_decide; [| eauto].
  destruct (run_validators_outcome validators data) as [[-> _] | (l & -> & _)]; eauto.
Qed.

Lemma PositiveIntegerField_Return data db value :
  PositiveIntegerField data db = Return value ↔
  value = data ∧ 0 ≤ data ≤ Z.of_N (integer_max db).
Proof.
  unfold PositiveIntegerField.
  destruct (run_validators_outcome [max_value (Z.of_N (integer_max db)); min_value 0] data)
    as [[-> Hall] | (l & -> & Hex)].
  - split; [intros [= <-] | by intros [-> _]].
    apply Forall_cons in Hall as [Hmax [Hmin _]%Forall_cons].
    unfold max_value in Hmax. unfold min_value in Hmin.
    repeat case_decide; try discriminate. split; [done | lia].
  - split; [discriminate |]. intros [_ Hrange]. exfalso.
    apply Exists_cons in Hex as [Hmax | [Hmin | []%Exists_nil]%Exists_cons].
    + unfold max_value in Hmax. rewrite decide_False in Hmax by lia. done.
    + unfold min_value in Hmin. rewrite decide_False in Hmin by lia. done.
Qed.

Lemma PositiveIntegerField_outcome data db :
  PositiveIntegerField data db = Return data
  ∨ ∃ messages, PositiveIntegerField data db = Raise (ValidationError (Msgs messages)).
Proof.
  unfold PositiveIntegerField.
  destruct (run_validators_outcome [max_value (Z.of_N (integer_max db)); min_value 0] data)
    as [[-> _] | (l & -> & _)]; eauto.
Qed.

(** [create] never returns and never writes a price list: the insert of
    the price list always meets the [NOT NULL] column [precio_2]. *)
Lemma create_always_raises env validated_data db :
  ∃ e db',
    ArticuloCreateSerializer.create env validated_data db = (Raise e, db')
    ∧ lista_precios db' = lista_precios db.
Proof.
  unfold ArticuloCreateSerializer.create, bind, query, objects_get.
  destruct (grupos_articulos db !! _) as [g |]; [| eauto].
  destruct (lineas_articulos db !! _) as [l |]; [| eauto].
  unfold Articulo_objects_create, Articulo_save. simpl.
  repeat case_decide; simpl; eauto.
Qed.

(** A serializer [save] whose validation fails writes nothing. *)
Lemma create_save_invalid env d db e :
  ArticuloCreateSerializer.run_validation d db = Raise e →
  ArticuloCreateSerializer.save env d db = (Raise e, db).
Proof. intros He. unfold ArticuloCreateSerializer.save, bind, query. by rewrite He. Qed.

Lemma run_validation_field_errors d db :
  ArticuloCreateSerializer.field_errors d db ≠ ∅ →
  ArticuloCreateSerializer.run_validation d db
  = Raise (ValidationError (Fields (ArticuloCreateSerializer.field_errors d db))).
Proof. intros Hne. unfold ArticuloCreateSerializer.run_validation. by rewrite decide_False. Qed.

Lemma run_validation_validate d db :
  ArticuloCreateSerializer.field_errors d db = ∅ →
  ArticuloCreateSerializer.run_validation d db = ArticuloCreateSerializer.validate d db.
Proof. intros Hne. unfold ArticuloCreateSerializer.run_validation. by rewrite decide_True. Qed.

(** C3: evaluation at the failing input. The input passes validation;
    [save] writes the article row with the given code, description and
    stock, then raises IntegrityError on precio_2: no price list row is
    stored for the new article. *)
Theorem C3_create_at_failing_input :
  ArticuloCreateSerializer.run_validation ejemplo_agua ejemplo_db = Return ejemplo_agua
  ∧ ∃ db',
      ArticuloCreateSerializer.save ejemplo_env ejemplo_agua ejemplo_db
      = (Raise (IntegrityError "precio_2"), db')
      ∧ articulos db' !! 900%N
        = Some (Articulo.mk 900%N "AGUA-600" "7750003" "Agua mineral 600 ml" "Botella"
                  1%N 11%N 1 1200 "")
      ∧ lista_precios db' !! 900%N = None
      ∧ lista_precios db' = lista_precios ejemplo_db.
Proof.
  split; [vm_compute; reflexivity |].
  eexists. split; [vm_compute; reflexivity |]. split_and!; vm_compute; reflexivity.
Qed.

(** A code that is already taken, or shorter than 4 characters, does not
    pass the checks of the field [codigo_articulo]. *)
Lemma codigo_articulo_rejected value db :
  (∃ k a, articulos db !! k = Some a ∧ Articulo.codigo_articulo a = value)
  ∨ (len value < 4)%nat →
  ∃ messages,
    and_then (CharField false 25 value)
             (λ v, ArticuloCreateSerializer.validate_codigo_articulo v db)
    = Raise (ValidationError (Msgs messages)).
Proof.
  intros Hbad. destruct (CharField_outcome false 25 value) as [-> | [l ->]]; [| simpl; eauto].
  simpl. unfold ArticuloCreateSerializer.validate_codigo_articulo.
  case_decide as Hexists; [eauto |].
  destruct Hbad as [(k & a & Hk & Ha) | Hshort].
  - exfalso. revert Hexists. by apply (filter_not_empty _ _ k a).
  - rewrite decide_True by done. eauto.
Qed.

(** C5: a creation whose code is taken by a stored article, or has fewer
    than 4 characters, raises a ValidationError whose field map has an
    entry for codigo_articulo, and leaves the database as it was: no
    article row and no price-list row is written. The code is the text
    the field reads, with no white space around it; a code of fewer
    than 4 characters is refused with or without such space. *)
Theorem C5_codigo_articulo_rejected env d db :
  (stripped (ArticuloCreateSerializer.codigo_articulo d)
   ∧ ∃ k a, articulos db !! k = Some a
            ∧ Articulo.codigo_articulo a = ArticuloCreateSerializer.codigo_articulo d)
  ∨ (len (ArticuloCreateSerializer.codigo_articulo d) < 4)%nat →
  ∃ errors,
    is_Some (errors !! "codigo_articulo")
    ∧ ArticuloCreateSerializer.run_validation d db = Raise (ValidationError (Fields errors))
    ∧ ArticuloCreateSerializer.save env d db = (Raise (ValidationError (Fields errors)), db)
    ∧ articulos (exec (ArticuloCreateSerializer.save env d) db) = articulos db
    ∧ lista_precios (exec (ArticuloCreateSerializer.save env d) db) = lista_precios db.
Proof.
  intros Hbad.
  destruct (codigo_articulo_rejected (ArticuloCreateSerializer.codigo_articulo d) db)
    as [l Hl]; [tauto |].
  assert (Hsome : ArticuloCreateSerializer.field_errors d db !! "codigo_articulo" = Some l).
  { unfold ArticuloCreateSerializer.field_errors. rewrite Hl. simpl. apply lookup_insert_eq. }
  assert (Hrun : ArticuloCreateSerializer.run_validation d db
                 = Raise (ValidationError (Fields (ArticuloCreateSerializer.field_errors d db)))).
  { apply run_validation_field_errors. intros Hempty.
    by rewrite Hempty, lookup_empty in Hsome. }
  pose proof (create_save_invalid env d db _ Hrun) as Hsave.
  eexists. split_and!; [by rewrite Hsome | exact Hrun | exact Hsave | |];
    unfold exec; by rewrite Hsave.
Qed.

Lemma C5_codigo_articulo_rejected_witness :
  (∃ errors,
     is_Some (errors !! "codigo_articulo")
     ∧ ArticuloCreateSerializer.save ejemplo_env
         (ArticuloCreateSerializer.mk "COLA-500" "7750009" "Otra gaseosa cola" "Lata"
            1%N 11%N 0 100) ejemplo_db
       = (Raise (ValidationError (Fields errors)), ejemplo_db))
  ∧ len "ÑU1" = 3%nat
  ∧ (∃ errors,
       is_Some (errors !! "codigo_articulo")
       ∧ ArticuloCreateSerializer.save ejemplo_env
           (ArticuloCreateSerializer.mk "ÑU1" "7750009" "Otra gaseosa cola" "Lata"
              1%N 11%N 0 100) ejemplo_db
         = (Raise (ValidationError (Fields errors)), ejemplo_db)).
Proof.
  split_and!; [| reflexivity |].
  - destruct (C5_codigo_articulo_rejected ejemplo_env
                (ArticuloCreateSerializer.mk "COLA-500" "7750009" "Otra gaseosa cola" "Lata"
                   1%N 11%N 0 100) ejemplo_db) as (errors & Hkey & _ & Hsave & _).
    + left. split; [vm_compute; exact I |].
      exists 21%N, articulo_cola. split; reflexivity.
    + exists errors. split; [exact Hkey | exact Hsave].
  - destruct (C5_codigo_articulo_rejected ejemplo_env
                (ArticuloCreateSerializer.mk "ÑU1" "7750009" "Otra gaseosa cola" "Lata"
                   1%N 11%N 0 100) ejemplo_db) as (errors & Hkey & _ & Hsave & _).
    + right. vm_compute. lia.
    + exists errors. split; [exact Hkey | exact Hsave].
Defined.

(** C4: a creation whose group does not exist, whose line does not exist,
    or whose line belongs to another group than the one supplied, raises
    a ValidationError with a field map and writes nothing. When the
    field-level checks of the request pass, the map is keyed to grupo_id
    for a missing group, and to linea_id for a missing line and for a
    line of another group. *)
Theorem C4_group_and_line_checked env d db :
  (grupos_articulos db !! ArticuloCreateSerializer.grupo_id d = None
   ∨ lineas_articulos db !! ArticuloCreateSerializer.linea_id d = None
   ∨ ∃ linea linea_grupo,
       lineas_articulos db !! ArticuloCreateSerializer.linea_id d = Some linea
       ∧ grupos_articulos db !! LineaArticulo.grupo linea = Some linea_grupo
       ∧ GrupoArticulo.grupo_id linea_grupo ≠ ArticuloCreateSerializer.grupo_id d) →
  (∃ errors,
     ArticuloCreateSerializer.save env d db = (Raise (ValidationError (Fields errors)), db))
  ∧ (ArticuloCreateSerializer.stripped_data d →
     ArticuloCreateSerializer.field_errors d db = ∅ →
     ArticuloCreateSerializer.run_validation d db =
     Raise (ValidationError (Fields
       (match grupos_articulos db !! ArticuloCreateSerializer.grupo_id d,
              lineas_articulos db !! ArticuloCreateSerializer.linea_id d with
        | None, _ => {["grupo_id" := ["El grupo seleccionado no existe."]]}
        | Some _, None => {["linea_id" := ["La línea seleccionada no existe."]]}
        | Some _, Some _ =>
            {["linea_id" := ["La línea seleccionada no pertenece al grupo."]]}
        end)))).
Proof.
  intros Hbad.
  assert (Hvalidate :
    ArticuloCreateSerializer.validate d db =
    Raise (ValidationError (Fields
      (match grupos_articulos db !! ArticuloCreateSerializer.grupo_id d,
             lineas_articulos db !! ArticuloCreateSerializer.linea_id d with
       | None, _ => {["grupo_id" := ["El grupo seleccionado no existe."]]}
       | Some _, None => {["linea_id" := ["La línea seleccionada no existe."]]}
       | Some _, Some _ =>
           {["linea_id" := ["La línea seleccionada no pertenece al grupo."]]}
       end)))).
  { unfold ArticuloCreateSerializer.validate, catch, objects_get.
    destruct (grupos_articulos db !! ArticuloCreateSerializer.grupo_id d) as [g |] eqn:Hg;
      [| reflexivity].
    destruct (lineas_articulos db !! ArticuloCreateSerializer.linea_id d) as [l |] eqn:Hl;
      [| reflexivity].
    destruct Hbad as [? | [? | (l' & lg & [= <-] & Hlg & Hne)]]; [done | done |].
    rewrite Hlg. by rewrite decide_True. }
  split.
  - destruct (decide (ArticuloCreateSerializer.field_errors d db = ∅)) as [Hnone | Hsome].
    + eexists. apply create_save_invalid.
      rewrite run_validation_validate by done. exact Hvalidate.
    + eexists. apply create_save_invalid. by apply run_validation_field_errors.
  - intros _ Hnone. rewrite run_validation_validate by done. exact Hvalidate.
Qed.

Lemma C4_group_and_line_checked_witness :
  (∃ errors,
     ArticuloCreateSerializer.save ejemplo_env
       (ArticuloCreateSerializer.mk "AGUA-600" "7750003" "Agua mineral 600 ml" "Botella"
          1%N 12%N 1200 150) ejemplo_db
     = (Raise (ValidationError (Fields errors)), ejemplo_db))
  ∧ ArticuloCreateSerializer.run_validation
      (ArticuloCreateSerializer.mk "AGUA-600" "7750003" "Agua mineral 600 ml" "Botella"
         1%N 12%N 1200 150) ejemplo_db
    = Raise (ValidationError (Fields
        {["linea_id" := ["La línea seleccionada no pertenece al grupo."]]})).
Proof.
  destruct (C4_group_and_line_checked ejemplo_env
              (ArticuloCreateSerializer.mk "AGUA-600" "7750003" "Agua mineral 600 ml"
                 "Botella" 1%N 12%N 1200 150) ejemplo_db) as [Hsave Hkey].
  - right. right. exists linea_papas, grupo_snacks.
    split_and!; [reflexivity | reflexivity | discriminate].
  - split; [exact Hsave |]. apply Hkey.
    + vm_compute. tauto.
    + vm_compute. reflexivity.
Defined.

(** *** Stock *)

(** The creation serializer turns a negative stock down, with an error
    on the field stock. *)
Lemma create_rejects_negative_stock env d db :
  ArticuloCreateSerializer.stock d < 0 →
  ∃ errors,
    is_Some (errors !! "stock")
    ∧ ArticuloCreateSerializer.save env d db = (Raise (ValidationError (Fields errors)), db).
Proof.
  intros Hneg.
  assert (∃ l, and_then (DecimalField [] (ArticuloCreateSerializer.stock d))
                        ArticuloCreateSerializer.validate_stock
               = Raise (ValidationError (Msgs l))) as [l Hl].
  { destruct (DecimalField_outcome [] (ArticuloCreateSerializer.stock d)) as [-> | [l ->]];
      simpl; [| eauto].
    unfold ArticuloCreateSerializer.validate_stock. rewrite decide_True by done. eauto. }
  assert (Hsome : ArticuloCreateSerializer.field_errors d db !! "stock" = Some l).
  { unfold ArticuloCreateSerializer.field_errors.
    rewrite !field_error_ne by done. rewrite Hl. apply field_error_Msgs. }
  eexists. split; [by rewrite Hsome |].
  apply create_save_invalid, run_validation_field_errors.
  intros Hempty. by rewrite Hempty, lookup_empty in Hsome.
Qed.

(** C6: evaluation at the failing input. The update serializer accepts
    a stock of -1.00 for the stored article 21, whose stock is 5.00, and
    stores it, in a full update and in a partial one. *)
Theorem C6_update_at_failing_input :
  Articulo.stock <$> articulos ejemplo_db !! 21%N = Some 500
  ∧ ArticuloSerializer.run_validation false stock_negativo = Return stock_negativo
  ∧ (∃ instance' db',
       ArticuloSerializer.save false articulo_cola stock_negativo ejemplo_db
       = (Return instance', db')
       ∧ articulos db' !! 21%N = Some instance'
       ∧ Articulo.stock instance' = -100)
  ∧ (∃ instance' db',
       ArticuloSerializer.save true articulo_cola
         (ArticuloSerializer.mk None None None None (Some (-100))) ejemplo_db
       = (Return instance', db')
       ∧ articulos db' !! 21%N = Some instance'
       ∧ Articulo.stock instance' = -100).
Proof.
  split_and!; [reflexivity | vm_compute; reflexivity | |].
  - do 2 eexists. split_and!; vm_compute; reflexivity.
  - do 2 eexists. split_and!; vm_compute; reflexivity.
Qed.

(** *** Quantities *)

(** C7, refuted as stated: a creation and an update through the item
    serializer with quantity 0 both succeed, and the stored row has
    quantity 0. *)
Lemma C7_quantity_zero_counterexample :
  ¬ (∀ env pedido creado_por d db self' db',
       ItemOrdenSerializer.save_new env pedido creado_por d db = (Return self', db') →
       0 < ItemOrdenCompraCliente.cantidad self')
  ∧ ¬ (∀ instance d db self' db',
         ItemOrdenSerializer.save_instance instance d db = (Return self', db') →
         0 < ItemOrdenCompraCliente.cantidad self').
Proof.
  split.
  - intros H.
    specialize (H ejemplo_env 1 1 cero_unidades ejemplo_db
                  (ItemOrdenCompraCliente.mk 900%N 1 1 21%N 0 500 0 1 1 0)
                  (exec (ItemOrdenSerializer.save_new ejemplo_env 1 1 cero_unidades) ejemplo_db)).
    assert (Hlt : 0 < 0); [| lia].
    apply H. vm_compute. reflexivity.
  - intros H.
    specialize (H stored_a cero_unidades db_tras_a
                  (ItemOrdenCompraCliente.mk 101%N 1 1 21%N 0 500 0 1 1 0)
                  (exec (ItemOrdenSerializer.save_instance stored_a cero_unidades) db_tras_a)).
    assert (Hlt : 0 < 0); [| lia].
    apply H. vm_compute. reflexivity.
Qed.

(** C7, amended: the stored quantities are never negative. They are so
    in the empty database, a save and a delete keep them so, and a save
    refuses a negative quantity without writing; the item serializer
    reports a negative quantity under cantidad, and has no objection to a
    quantity of zero. *)
Theorem C7_quantity_non_negative :
  cantidades_no_negativas empty_db
  ∧ (∀ force_insert self db,
       cantidades_no_negativas db →
       cantidades_no_negativas (exec (ItemOrdenCompraCliente_save force_insert self) db))
  ∧ (∀ self db,
       cantidades_no_negativas db →
       cantidades_no_negativas (exec (ItemOrdenCompraCliente_delete self) db))
  ∧ (∀ force_insert self db,
       ItemOrdenCompraCliente.cantidad self < 0 →
       ∃ column,
         ItemOrdenCompraCliente_save force_insert self db
         = (Raise (IntegrityError column), db))
  ∧ (∀ d db c,
       ItemOrdenSerializer.cantidad d = Some c → c < 0 →
       ∃ errors,
         is_Some (errors !! "cantidad")
         ∧ ItemOrdenSerializer.run_validation d db = Raise (ValidationError (Fields errors)))
  ∧ (∀ d db,
       ItemOrdenSerializer.cantidad d = Some 0 →
       ItemOrdenSerializer.field_errors d db !! "cantidad" = None).
Proof.
  split_and!.
  - apply map_Forall_empty.
  - intros fi self db Hinv. unfold exec.
    destruct (ItemOrdenCompraCliente_save fi self db) as [[self' | e] db'] eqn:Hs.
    + apply save_item_Return in Hs
        as (o & _ & _ & Hc & Hitems & _ & _ & _ & _ & _ & _ & Hcant & _).
      unfold cantidades_no_negativas. simpl. rewrite Hitems.
      apply map_Forall_insert_2; [by rewrite Hcant | done].
    + apply save_item_Raise in Hs as [-> | (_ & Hc & _ & _ & ->)]; [done |].
      unfold cantidades_no_negativas. simpl.
      apply map_Forall_insert_2; [| done].
      by destruct (pre_save_fields fi (recalculado self) db) as (_ & _ & _ & _ & -> & _).
  - intros self db Hinv. by apply map_Forall_delete.
  - intros fi self db Hneg. rewrite save_item_eq.
    unfold ItemOrdenCompraCliente_super_save. simpl.
    case_decide; [eauto |]. rewrite decide_True by done. eauto.
  - intros d db c Hc Hneg.
    assert (∃ l, ItemOrdenSerializer.field_errors d db !! "cantidad" = Some l) as [l Hsome].
    { unfold ItemOrdenSerializer.field_errors.
      rewrite !field_error_ne by done. rewrite Hc. simpl.
      destruct (PositiveIntegerField_outcome c db) as [Hok | [l ->]].
      - apply PositiveIntegerField_Return in Hok. lia.
      - eexists. apply field_error_Msgs. }
    eexists. split; [by rewrite Hsome |].
    unfold ItemOrdenSerializer.run_validation. rewrite decide_False; [done |].
    intros Hempty. by rewrite Hempty, lookup_empty in Hsome.
  - intros d db Hc.
    unfold ItemOrdenSerializer.field_errors.
    rewrite !field_error_ne by done. rewrite Hc. simpl.
    rewrite (proj2 (PositiveIntegerField_Return 0 db 0)) by lia.
    rewrite ?field_error_Return, !field_error_ne by done. apply lookup_empty.
Qed.

Lemma C7_quantity_non_negative_witness :
  cantidades_no_negativas db_tras_b
  ∧ cantidades_no_negativas
      (exec (ItemOrdenCompraCliente_save true (nuevo_item 106%N 21%N 0 500 1)) db_tras_b)
  ∧ ItemOrdenCompraCliente.cantidad
      <$> items_ordenes_compra_cliente
            (exec (ItemOrdenCompraCliente_save true (nuevo_item 106%N 21%N 0 500 1)) db_tras_b)
          !! 106%N
      = Some 0.
Proof.
  assert (Hinv : cantidades_no_negativas db_tras_b).
  { unfold cantidades_no_negativas. apply (bool_decide_unpack _). vm_compute. exact I. }
  split_and!; [exact Hinv | | vm_compute; reflexivity].
  exact (proj1 (proj2 C7_quantity_non_negative)
           true (nuevo_item 106%N 21%N 0 500 1) db_tras_b Hinv).
Defined.

(** ** Further properties of the order items *)

Lemma recalculado_set_total_item t self :
  recalculado (ItemOrdenCompraCliente.set_total_item t self) = recalculado self.
Proof. by destruct self. Qed.

(** The field-level pass of the item serializer does not depend on a
    total_item that has the digits of its column. *)
Lemma item_field_errors_total_item nro_item articulo cantidad precio_unitario t t' db :
  from_option (fits 12) True t → from_option (fits 12) True t' →
  ItemOrdenSerializer.field_errors
    (ItemOrdenSerializer.mk nro_item articulo cantidad precio_unitario t) db
  = ItemOrdenSerializer.field_errors
      (ItemOrdenSerializer.mk nro_item articulo cantidad precio_unitario t') db.
Proof.
  intros Ht Ht'. unfold ItemOrdenSerializer.field_errors. simpl.
  assert (Hok : ∀ t, from_option (fits 12) True t →
                     optional_field (DecimalField []) t = Return t).
  { intros [v |] Hv; [| done]. simpl in *.
    by rewrite (proj2 (DecimalField_Return [] v v)). }
  by rewrite (Hok t Ht), (Hok t' Ht').
Qed.

(** X1: the total_item that comes in with an item has no effect. [save]
    does the same with any other value, and so do [create] and [update]
    of the item serializer with the total_item of the validated data.
    For a request, whose total_item the field refuses when it has more
    than the 12 digits of the column, any two values that the field
    takes, or none, give the same result. *)
Theorem X1_incoming_total_item_ignored :
  (∀ force_insert self t db,
     ItemOrdenCompraCliente_save force_insert (ItemOrdenCompraCliente.set_total_item t self) db
     = ItemOrdenCompraCliente_save force_insert self db)
  ∧ (∀ env pedido creado_por nro_item articulo cantidad precio_unitario t t' db,
       ItemOrdenSerializer.create env pedido creado_por
         (ItemOrdenSerializer.mk nro_item articulo cantidad precio_unitario t) db
       = ItemOrdenSerializer.create env pedido creado_por
           (ItemOrdenSerializer.mk nro_item articulo cantidad precio_unitario t') db)
  ∧ (∀ instance nro_item articulo cantidad precio_unitario t t' db,
       ItemOrdenSerializer.update instance
         (ItemOrdenSerializer.mk nro_item articulo cantidad precio_unitario t) db
       = ItemOrdenSerializer.update instance
           (ItemOrdenSerializer.mk nro_item articulo cantidad precio_unitario t') db)
  ∧ (∀ env pedido creado_por nro_item articulo cantidad precio_unitario t t' db,
       from_option (fits 12) True t → from_option (fits 12) True t' →
       ItemOrdenSerializer.save_new env pedido creado_por
         (ItemOrdenSerializer.mk nro_item articulo cantidad precio_unitario t) db
       = ItemOrdenSerializer.save_new env pedido creado_por
           (ItemOrdenSerializer.mk nro_item articulo cantidad precio_unitario t') db)
  ∧ (∀ instance nro_item articulo cantidad precio_unitario t t' db,
       from_option (fits 12) True t → from_option (fits 12) True t' →
       ItemOrdenSerializer.save_instance instance
         (ItemOrdenSerializer.mk nro_item articulo cantidad precio_unitario t) db
       = ItemOrdenSerializer.save_instance instance
           (ItemOrdenSerializer.mk nro_item articulo cantidad precio_unitario t') db).
Proof.
  assert (Hcreate : ∀ env pedido creado_por nro_item articulo cantidad precio_unitario t t' db,
    ItemOrdenSerializer.create env pedido creado_por
      (ItemOrdenSerializer.mk nro_item articulo cantidad precio_unitario t) db
    = ItemOrdenSerializer.create env pedido creado_por
        (ItemOrdenSerializer.mk nro_item articulo cantidad precio_unitario t') db).
  { intros. unfold ItemOrdenSerializer.create. rewrite !save_item_eq. reflexivity. }
  assert (Hupdate : ∀ instance nro_item articulo cantidad precio_unitario t t' db,
    ItemOrdenSerializer.update instance
      (ItemOrdenSerializer.mk nro_item articulo cantidad precio_unitario t) db
    = ItemOrdenSerializer.update instance
        (ItemOrdenSerializer.mk nro_item articulo cantidad precio_unitario t') db).
  { intros. unfold ItemOrdenSerializer.update. rewrite !save_item_eq. reflexivity. }
  split_and!; [| exact Hcreate | exact Hupdate | |].
  - intros fi self t db. rewrite !save_item_eq. by rewrite recalculado_set_total_item.
  - intros env pedido creado_por nro_item articulo cantidad precio_unitario t t' db Ht Ht'.
    unfold ItemOrdenSerializer.save_new, bind, query, ItemOrdenSerializer.run_validation.
    rewrite (item_field_errors_total_item _ _ _ _ t t') by done.
    case_decide; [apply Hcreate | reflexivity].
  - intros instance nro_item articulo cantidad precio_unitario t t' db Ht Ht'.
    unfold ItemOrdenSerializer.save_instance, bind, query, ItemOrdenSerializer.run_validation.
    rewrite (item_field_errors_total_item _ _ _ _ t t') by done.
    case_decide; [apply Hupdate | reflexivity].
Qed.

Lemma X1_incoming_total_item_ignored_witness :
  ItemOrdenSerializer.save_new ejemplo_env 1 1
    (ItemOrdenSerializer.mk None 21%N (Some 3) (Some 250) (Some 999)) ejemplo_db
  = ItemOrdenSerializer.save_new ejemplo_env 1 1
      (ItemOrdenSerializer.mk None 21%N (Some 3) (Some 250) None) ejemplo_db.
Proof.
  apply (proj1 (proj2 (proj2 (proj2 X1_incoming_total_item_ignored)))).
  - vm_compute; reflexivity.
  - exact I.
Defined.

(** X2: what [save] of an item asks of the row. A save that returns had
    its two counters and its estado within the range of their columns,
    its order, article and user present and, for an item that is being
    added, a free key. When one of these fails, the save raises and the
    database is as before. *)
Theorem X2_save_item_checks force_insert self db :
  (∀ self' db',
     ItemOrdenCompraCliente_save force_insert self db = (Return self', db') →
     0 ≤ ItemOrdenCompraCliente.nro_item self ≤ Z.of_N (integer_max db)
     ∧ 0 ≤ ItemOrdenCompraCliente.cantidad self ≤ Z.of_N (integer_max db)
     ∧ - Z.of_N (integer_max db) - 1 ≤ ItemOrdenCompraCliente.estado self
       ≤ Z.of_N (integer_max db)
     ∧ is_Some (ordenes_compra_cliente db !! ItemOrdenCompraCliente.pedido self)
     ∧ is_Some (articulos db !! ItemOrdenCompraCliente.articulo self)
     ∧ ItemOrdenCompraCliente.creado_por self ∈ usuarios db
     ∧ (force_insert = true →
        items_ordenes_compra_cliente db !! ItemOrdenCompraCliente.item_id self = None))
  ∧ (¬ 0 ≤ ItemOrdenCompraCliente.nro_item self ≤ Z.of_N (integer_max db)
     ∨ ¬ 0 ≤ ItemOrdenCompraCliente.cantidad self ≤ Z.of_N (integer_max db)
     ∨ ¬ - Z.of_N (integer_max db) - 1 ≤ ItemOrdenCompraCliente.estado self
         ≤ Z.of_N (integer_max db)
     ∨ ordenes_compra_cliente db !! ItemOrdenCompraCliente.pedido self = None
     ∨ articulos db !! ItemOrdenCompraCliente.articulo self = None
     ∨ ItemOrdenCompraCliente.creado_por self ∉ usuarios db
     ∨ (force_insert = true
        ∧ is_Some (items_ordenes_compra_cliente db !! ItemOrdenCompraCliente.item_id self)) →
     ∃ e, ItemOrdenCompraCliente_save force_insert self db = (Raise e, db)).
Proof.
  assert (Hreturn : ∀ self' db',
    ItemOrdenCompraCliente_save force_insert self db = (Return self', db') →
    0 ≤ ItemOrdenCompraCliente.nro_item self ≤ Z.of_N (integer_max db)
    ∧ 0 ≤ ItemOrdenCompraCliente.cantidad self ≤ Z.of_N (integer_max db)
    ∧ - Z.of_N (integer_max db) - 1 ≤ ItemOrdenCompraCliente.estado self
      ≤ Z.of_N (integer_max db)
    ∧ is_Some (ordenes_compra_cliente db !! ItemOrdenCompraCliente.pedido self)
    ∧ is_Some (articulos db !! ItemOrdenCompraCliente.articulo self)
    ∧ ItemOrdenCompraCliente.creado_por self ∈ usuarios db
    ∧ (force_insert = true →
       items_ordenes_compra_cliente db !! ItemOrdenCompraCliente.item_id self = None)).
  { intros self' db' Hs. rewrite save_item_eq in Hs.
    destruct (ItemOrdenCompraCliente_super_save _ _ db) as [[self1 | e] db1] eqn:Hsuper;
      [| discriminate].
    apply super_save_Return in Hsuper as (_ & _ & Hn & Hc & Ho & Ha & Hu & Hfresh & He).
    clear Hs. simpl in *. split_and!; try done; lia. }
  split; [exact Hreturn |].
  intros Hbad. rewrite save_item_eq.
  destruct (ItemOrdenCompraCliente_super_save _ _ db) as [[self1 | e] db1] eqn:Hsuper.
  - exfalso.
    apply super_save_Return in Hsuper as (_ & _ & Hn & Hc & Ho & Ha & Hu & Hfresh & He).
    simpl in *.
    destruct Hbad as [? | [? | [? | [Hnone | [Hnone | [? | [-> Hsome]]]]]]]; try done.
    + rewrite Hnone in Ho. by destruct Ho.
    + rewrite Hnone in Ha. by destruct Ha.
    + rewrite Hfresh in Hsome by done. by destruct Hsome.
  - apply super_save_Raise in Hsuper as ->. eauto.
Qed.

Lemma X2_save_item_checks_witness :
  (∃ e, ItemOrdenCompraCliente_save true item_a db_tras_a = (Raise e, db_tras_a))
  ∧ (∃ e,
       ItemOrdenCompraCliente_save true
         (ItemOrdenCompraCliente.mk 107%N 1 1 21%N 1 500 0 1 2 0) ejemplo_db
       = (Raise e, ejemplo_db)).
Proof.
  split.
  - apply (proj2 (X2_save_item_checks true item_a db_tras_a)).
    do 6 right. split; [reflexivity | vm_compute; eauto].
  - apply (proj2 (X2_save_item_checks true
                    (ItemOrdenCompraCliente.mk 107%N 1 1 21%N 1 500 0 1 2 0) ejemplo_db)).
    do 5 right. left. vm_compute. discriminate.
Defined.

Lemma sum_total_item_insert (m : gmap N ItemOrdenCompraCliente.t) i x :
  m !! i = None →
  sum_total_item (<[i := x]> m) = sum_total_item m + ItemOrdenCompraCliente.total_item x.
Proof.
  intros Hi. unfold sum_total_item.
  rewrite (map_fold_insert_L _ _ i x m); [done | | done].
  intros. lia.
Qed.

(** Writing an item row changes the sum of an order by what the row
    adds to it, counted from the table without that key. *)
Lemma suma_items_insert nro self db :
  suma_items nro (with_items_orden <[ItemOrdenCompraCliente.item_id self := self]> db)
  = suma_items nro (with_items_orden (delete (ItemOrdenCompraCliente.item_id self)) db)
    + (if decide (ItemOrdenCompraCliente.pedido self = nro)
       then ItemOrdenCompraCliente.total_item self else 0).
Proof.
  unfold suma_items. simpl. rewrite <- insert_delete_eq. case_decide as Hp.
  - rewrite map_filter_insert_True by done.
    apply sum_total_item_insert, map_lookup_filter_None. left. apply lookup_delete_eq.
  - rewrite map_filter_insert_False by done.
    rewrite delete_id by apply lookup_delete_eq. lia.
Qed.

Lemma suma_items_delete_absent nro k db :
  items_ordenes_compra_cliente db !! k = None →
  suma_items nro (with_items_orden (delete k) db) = suma_items nro db.
Proof. intros Hk. unfold suma_items. simpl. by rewrite delete_id. Qed.

Lemma suma_items_with_ordenes nro f db :
  suma_items nro (with_ordenes f db) = suma_items nro db.
Proof. reflexivity. Qed.

(** The sums of all orders after a [save] that returns. *)
Lemma suma_items_save force_insert self db self' db' nro :
  ItemOrdenCompraCliente_save force_insert self db = (Return self', db') →
  suma_items nro db'
  = suma_items nro (with_items_orden (delete (ItemOrdenCompraCliente.item_id self)) db)
    + (if decide (ItemOrdenCompraCliente.pedido self = nro)
       then ItemOrdenCompraCliente.cantidad self * ItemOrdenCompraCliente.precio_unitario self
       else 0).
Proof.
  intros (o & _ & _ & _ & _ & _ & _ & _ & -> & Hid & Hp & _ & _ & Ht)%save_item_Return.
  rewrite suma_items_with_ordenes.
  rewrite <- Hid, <- Hp, <- Ht. exact (suma_items_insert nro self' db).
Qed.

(** X3: a [save] of an item that returns writes the row of that item and
    the importe of its order, and nothing else: the other item rows, the
    other order rows, the other columns of its order and the catalogue
    are as before. *)
Theorem X3_save_item_frame force_insert self db self' db' :
  ordenes_por_pk db →
  ItemOrdenCompraCliente_save force_insert self db = (Return self', db') →
  grupos_articulos db' = grupos_articulos db
  ∧ lineas_articulos db' = lineas_articulos db
  ∧ articulos db' = articulos db
  ∧ lista_precios db' = lista_precios db
  ∧ items_pedido db' = items_pedido db
  ∧ (∀ k, k ≠ ItemOrdenCompraCliente.item_id self →
          items_ordenes_compra_cliente db' !! k = items_ordenes_compra_cliente db !! k)
  ∧ (∀ nro, nro ≠ ItemOrdenCompraCliente.pedido self →
            ordenes_compra_cliente db' !! nro = ordenes_compra_cliente db !! nro)
  ∧ (∃ o total,
       ordenes_compra_cliente db !! ItemOrdenCompraCliente.pedido self = Some o
       ∧ ordenes_compra_cliente db' !! ItemOrdenCompraCliente.pedido self
         = Some (OrdenCompraCliente.set_importe total o)).
Proof.
  intros Hwf (o & _ & Ho & _ & Hitems & Hord & _ & _ & Hdb & _)%save_item_Return.
  rewrite (Hwf _ _ Ho) in Hord.
  split_and!; try (rewrite Hdb; reflexivity).
  - intros k Hk. by rewrite Hitems, lookup_insert_ne.
  - intros nro Hnro. by rewrite Hord, lookup_insert_ne.
  - exists o. eexists. split; [done |]. rewrite Hord. apply lookup_insert_eq.
Qed.

Lemma X3_save_item_frame_witness :
  items_ordenes_compra_cliente db_tras_b !! 101%N = Some stored_a
  ∧ lista_precios db_tras_b = lista_precios db_tras_a.
Proof.
  destruct (X3_save_item_frame true item_b db_tras_a stored_b db_tras_b)
    as (_ & _ & _ & Hlp & _ & Hitems & _).
  - unfold ordenes_por_pk. apply (bool_decide_unpack _). vm_compute. exact I.
  - vm_compute. reflexivity.
  - split; [| exact Hlp]. rewrite Hitems by discriminate. vm_compute. reflexivity.
Defined.

(** X4: adding a new item to an order raises the stored importe to the
    sum of the rows the order had plus quantity times unit price; when
    the importe was that sum, it grows by exactly that product. *)
Theorem X4_new_item_adds_its_total force_insert self db self' db' o :
  ordenes_por_pk db →
  items_ordenes_compra_cliente db !! ItemOrdenCompraCliente.item_id self = None →
  ordenes_compra_cliente db !! ItemOrdenCompraCliente.pedido self = Some o →
  ItemOrdenCompraCliente_save force_insert self db = (Return self', db') →
  importe_of (ItemOrdenCompraCliente.pedido self) db'
  = Some (suma_items (ItemOrdenCompraCliente.pedido self) db
          + ItemOrdenCompraCliente.cantidad self * ItemOrdenCompraCliente.precio_unitario self)
  ∧ (OrdenCompraCliente.importe o = suma_items (ItemOrdenCompraCliente.pedido self) db →
     importe_of (ItemOrdenCompraCliente.pedido self) db'
     = Some (OrdenCompraCliente.importe o
             + ItemOrdenCompraCliente.cantidad self
               * ItemOrdenCompraCliente.precio_unitario self)).
Proof.
  intros Hwf Hnew Ho Hs.
  assert (Himp : importe_of (ItemOrdenCompraCliente.pedido self) db'
                 = Some (suma_items (ItemOrdenCompraCliente.pedido self) db')).
  { pose proof Hs as (o' & _ & Ho' & _ & _ & Hord & _)%save_item_Return.
    unfold importe_of. by rewrite Hord, (Hwf _ _ Ho'), lookup_insert_eq. }
  rewrite (suma_items_save _ _ _ _ _ _ Hs), decide_True in Himp by done.
  rewrite suma_items_delete_absent in Himp by done.
  split; [exact Himp |]. intros ->. exact Himp.
Qed.

Lemma X4_new_item_adds_its_total_witness :
  importe_of 1 db_tras_a = Some 500
  ∧ importe_of 1 db_tras_b = Some (500 + 3 * 250).
Proof.
  split; [vm_compute; reflexivity |].
  apply (proj2 (X4_new_item_adds_its_total true item_b db_tras_a stored_b db_tras_b
                  (OrdenCompraCliente.set_importe 500 orden_1)
                  ltac:(unfold ordenes_por_pk; apply (bool_decide_unpack _); vm_compute; exact I)
                  ltac:(vm_compute; reflexivity)
                  ltac:(vm_compute; reflexivity)
                  ltac:(vm_compute; reflexivity))).
  vm_compute. reflexivity.
Defined.

(** X5: saving a stored item again in its order, with a new quantity or
    price, sets the importe to the former sum of the order less the
    item's former total plus quantity times unit price. *)
Theorem X5_update_replaces_its_total self old db self' db' :
  ordenes_por_pk db →
  items_ordenes_compra_cliente db !! ItemOrdenCompraCliente.item_id self = Some old →
  ItemOrdenCompraCliente.item_id old = ItemOrdenCompraCliente.item_id self →
  ItemOrdenCompraCliente.pedido old = ItemOrdenCompraCliente.pedido self →
  ItemOrdenCompraCliente_save false self db = (Return self', db') →
  importe_of (ItemOrdenCompraCliente.pedido self) db'
  = Some (suma_items (ItemOrdenCompraCliente.pedido self) db
          - ItemOrdenCompraCliente.total_item old
          + ItemOrdenCompraCliente.cantidad self * ItemOrdenCompraCliente.precio_unitario self).
Proof.
  intros Hwf Hold Hid Hp Hs.
  pose proof Hs as (o' & _ & Ho' & _ & _ & Hord & _)%save_item_Return.
  unfold importe_of. rewrite Hord, (Hwf _ _ Ho'), lookup_insert_eq. simpl. f_equal.
  rewrite (suma_items_save _ _ _ _ _ _ Hs), decide_True by done.
  rewrite <- Hid in Hold |- *.
  rewrite (suma_items_delete (ItemOrdenCompraCliente.pedido self) old db Hold).
  rewrite decide_True by done. lia.
Qed.

Lemma X5_update_replaces_its_total_witness :
  importe_of 1
    (exec (ItemOrdenCompraCliente_save false (nuevo_item 102%N 21%N 1 250 0)) db_tras_b)
  = Some (1250 - 750 + 1 * 250).
Proof.
  apply (X5_update_replaces_its_total (nuevo_item 102%N 21%N 1 250 0) stored_b db_tras_b
           (ItemOrdenCompraCliente.set_total_item 250 (nuevo_item 102%N 21%N 1 250 0))).
  - unfold ordenes_por_pk. apply (bool_decide_unpack _). vm_compute. exact I.
  - vm_compute. reflexivity.
  - reflexivity.
  - reflexivity.
  - vm_compute. reflexivity.
Defined.

(** An item that was added had a free key. *)
Lemma save_item_forced_fresh self db self' db' :
  ItemOrdenCompraCliente_save true self db = (Return self', db') →
  items_ordenes_compra_cliente db !! ItemOrdenCompraCliente.item_id self = None.
Proof.
  rewrite save_item_eq.
  destruct (ItemOrdenCompraCliente_super_save _ _ db) as [[[] | e] db1] eqn:Hsuper;
    [| discriminate].
  intros _. revert Hsuper. unfold ItemOrdenCompraCliente_super_save. simpl.
  repeat case_decide; try discriminate.
  case_bool_decide as Hfresh; [intros [=] |]. intros _.
  destruct (items_ordenes_compra_cliente db !! _); [by destruct Hfresh | done].
Qed.

(** X6: saving a stored item under another order moves it without
    telling the order it leaves: the new order gets the sum of its rows,
    the former order keeps its importe while the sum of its rows has
    dropped by the item's former total. *)
Theorem X6_moved_item_leaves_stale_importe self old db self' db' :
  ordenes_por_pk db →
  items_ordenes_compra_cliente db !! ItemOrdenCompraCliente.item_id self = Some old →
  ItemOrdenCompraCliente.item_id old = ItemOrdenCompraCliente.item_id self →
  ItemOrdenCompraCliente.pedido old ≠ ItemOrdenCompraCliente.pedido self →
  ItemOrdenCompraCliente_save false self db = (Return self', db') →
  importe_of (ItemOrdenCompraCliente.pedido old) db'
  = importe_of (ItemOrdenCompraCliente.pedido old) db
  ∧ suma_items (ItemOrdenCompraCliente.pedido old) db'
    = suma_items (ItemOrdenCompraCliente.pedido old) db
      - ItemOrdenCompraCliente.total_item old
  ∧ importe_of (ItemOrdenCompraCliente.pedido self) db'
    = Some (suma_items (ItemOrdenCompraCliente.pedido self) db
            + ItemOrdenCompraCliente.cantidad self
              * ItemOrdenCompraCliente.precio_unitario self).
Proof.
  intros Hwf Hold Hid Hp Hs.
  pose proof Hs as (o' & _ & Ho' & _ & _ & Hord & _)%save_item_Return.
  rewrite (Hwf _ _ Ho') in Hord.
  pose proof (suma_items_save _ _ _ _ _ (ItemOrdenCompraCliente.pedido old) Hs) as Hformer.
  pose proof (suma_items_save _ _ _ _ _ (ItemOrdenCompraCliente.pedido self) Hs) as Hnew.
  rewrite decide_False in Hformer by done. rewrite decide_True in Hnew by done.
  rewrite <- Hid in Hold, Hformer, Hnew.
  pose proof (suma_items_delete (ItemOrdenCompraCliente.pedido old) old db Hold) as Hd1.
  pose proof (suma_items_delete (ItemOrdenCompraCliente.pedido self) old db Hold) as Hd2.
  rewrite decide_True in Hd1 by done. rewrite decide_False in Hd2 by done.
  split_and!.
  - unfold importe_of. by rewrite Hord, lookup_insert_ne.
  - lia.
  - unfold importe_of. rewrite Hord, lookup_insert_eq. simpl. f_equal. lia.
Qed.

(** X7: a [save] that returns and does not move a stored item to
    another order keeps every order of the database at the sum of its
    items; so do [create] and [update] of the item serializer, which
    cannot change the order of an item. A save that raises need not: the
    item of 1000 units at 9999999999.99 is written, its total cannot be
    read back, and the order is left at its former importe. *)
Theorem X7_importes_stay_consistent :
  (∀ force_insert self db self' db',
     ordenes_por_pk db → importes_consistentes db →
     (∀ old, items_ordenes_compra_cliente db !! ItemOrdenCompraCliente.item_id self = Some old →
             ItemOrdenCompraCliente.pedido old = ItemOrdenCompraCliente.pedido self) →
     ItemOrdenCompraCliente_save force_insert self db = (Return self', db') →
     importes_consistentes db')
  ∧ (∀ env pedido creado_por d db self' db',
       ordenes_por_pk db → importes_consistentes db →
       ItemOrdenSerializer.save_new env pedido creado_por d db = (Return self', db') →
       importes_consistentes db')
  ∧ (∀ instance d db self' db',
       ordenes_por_pk db → importes_consistentes db →
       items_ordenes_compra_cliente db !! ItemOrdenCompraCliente.item_id instance
       = Some instance →
       ItemOrdenSerializer.save_instance instance d db = (Return self', db') →
       importes_consistentes db')
  ∧ (importes_consistentes ejemplo_db
     ∧ ∃ db',
         ItemOrdenCompraCliente_save true item_desbordado ejemplo_db
         = (Raise InvalidOperation, db')
         ∧ is_Some (items_ordenes_compra_cliente db' !! 108%N)
         ∧ importe_of 1 db' = Some 0
         ∧ ¬ importes_consistentes db').
Proof.
  assert (Hsave : ∀ force_insert self db self' db',
    ordenes_por_pk db → importes_consistentes db →
    (∀ old, items_ordenes_compra_cliente db !! ItemOrdenCompraCliente.item_id self = Some old →
            ItemOrdenCompraCliente.pedido old = ItemOrdenCompraCliente.pedido self) →
    ItemOrdenCompraCliente_save force_insert self db = (Return self', db') →
    importes_consistentes db').
  { intros fi self db self' db' Hwf Hinv Hstay Hs.
    pose proof Hs as (o & _ & Ho & _ & _ & Hord & _)%save_item_Return.
    rewrite (Hwf _ _ Ho) in Hord.
    intros k ok Hk. simpl in *. rewrite Hord in Hk.
    destruct (decide (k = ItemOrdenCompraCliente.pedido self)) as [-> | Hne].
    - rewrite lookup_insert_eq in Hk. by injection Hk as <-.
    - rewrite lookup_insert_ne in Hk by done.
      rewrite (Hinv _ _ Hk), (suma_items_save _ _ _ _ _ k Hs).
      rewrite decide_False by done.
      destruct (items_ordenes_compra_cliente db !! ItemOrdenCompraCliente.item_id self)
        as [old |] eqn:Hold.
      + pose proof (Hstay old eq_refl) as Hp.
        unfold suma_items. simpl. rewrite map_filter_delete.
        rewrite delete_id; [lia |].
        apply map_lookup_filter_None. right. intros x Hx. simpl. congruence.
      + rewrite suma_items_delete_absent by done. lia. }
  split; [exact Hsave | split; [| split]].
  - intros env pedido creado_por d db self' db' Hwf Hinv.
    unfold ItemOrdenSerializer.save_new, bind, query.
    destruct (ItemOrdenSerializer.run_validation d db) as [vd | e]; [| discriminate].
    unfold ItemOrdenSerializer.create. intros Hs.
    apply (Hsave _ _ _ _ _ Hwf Hinv) in Hs as Hgoal; [done |].
    intros old Hold. apply save_item_forced_fresh in Hs. simpl in Hs, Hold. congruence.
  - intros instance d db self' db' Hwf Hinv Hstored.
    unfold ItemOrdenSerializer.save_instance, bind, query.
    destruct (ItemOrdenSerializer.run_validation d db) as [vd | e]; [| discriminate].
    unfold ItemOrdenSerializer.update. intros Hs.
    apply (Hsave _ _ _ _ _ Hwf Hinv) in Hs; [done |].
    simpl. intros old Hold. congruence.
  - split.
    + unfold importes_consistentes. apply (bool_decide_unpack _). vm_compute. exact I.
    + eexists. split; [vm_compute; reflexivity |].
      split_and!; [vm_compute; eauto | vm_compute; reflexivity |].
      intros Hinv. specialize (Hinv 1 orden_1).
      vm_compute in Hinv. specialize (Hinv eq_refl). discriminate Hinv.
Qed.

Lemma X6_moved_item_leaves_stale_importe_witness :
  importe_of 1 (exec (ItemOrdenCompraCliente_save false item_b_movido) db_dos_ordenes)
  = Some 1250
  ∧ suma_items 1 (exec (ItemOrdenCompraCliente_save false item_b_movido) db_dos_ordenes)
    = 1250 - 750
  ∧ importe_of 2 (exec (ItemOrdenCompraCliente_save false item_b_movido) db_dos_ordenes)
    = Some (0 + 3 * 250).
Proof.
  destruct (X6_moved_item_leaves_stale_importe item_b_movido stored_b db_dos_ordenes
              item_b_movido
              (exec (ItemOrdenCompraCliente_save false item_b_movido) db_dos_ordenes))
    as (Hformer & Hsum & Hnew).
  - unfold ordenes_por_pk. apply (bool_decide_unpack _). vm_compute. exact I.
  - vm_compute. reflexivity.
  - reflexivity.
  - discriminate.
  - vm_compute. reflexivity.
  - split_and!;
      [etrans; [exact Hformer |] | etrans; [exact Hsum |] | etrans; [exact Hnew |]];
      vm_compute; reflexivity.
Defined.

Lemma X7_importes_stay_consistent_witness :
  importes_consistentes db_tras_b ∧ importes_consistentes db_tras_c.
Proof.
  assert (Hinv : importes_consistentes db_tras_b).
  { unfold importes_consistentes. apply (bool_decide_unpack _). vm_compute. exact I. }
  split; [exact Hinv |].
  apply (proj1 X7_importes_stay_consistent true item_c db_tras_b stored_c db_tras_c).
  - unfold ordenes_por_pk. apply (bool_decide_unpack _). vm_compute. exact I.
  - exact Hinv.
  - intros old Hold. vm_compute in Hold. discriminate Hold.
  - vm_compute. reflexivity.
Defined.

(** *** actualizar_total and the deletes *)

Lemma actualizar_total_eq o db :
  actualizar_total o db
  = match iter (items_orden_compra o db) with
    | Return _ =>
        (Return (OrdenCompraCliente.set_importe
                   (suma_items (OrdenCompraCliente.nro_pedido o) db) o),
         with_ordenes
           <[OrdenCompraCliente.nro_pedido o :=
               OrdenCompraCliente.set_importe
                 (suma_items (OrdenCompraCliente.nro_pedido o) db) o]> db)
    | Raise e => (Raise e, db)
    end.
Proof.
  unfold actualizar_total, bind, query.
  destruct (iter _) as [items | e] eqn:Hiter; [| done].
  by apply iter_Return in Hiter as [-> _].
Qed.

(** X8: [actualizar_total] on a stored order row, when it returns, brings
    a database in which only that order may be off, as after the delete
    of one of its items, back to every order storing the sum of its
    items, and a second call then changes nothing. It returns when the
    amounts of the items of the order can be read back; when one cannot,
    it raises and writes nothing. *)
Theorem X8_actualizar_total_repairs o db :
  ordenes_por_pk db →
  ordenes_compra_cliente db !! OrdenCompraCliente.nro_pedido o = Some o →
  (∀ k ok, k ≠ OrdenCompraCliente.nro_pedido o →
           ordenes_compra_cliente db !! k = Some ok →
           OrdenCompraCliente.importe ok = suma_items k db) →
  (∀ o' db',
     actualizar_total o db = (Return o', db') →
     importes_consistentes db'
     ∧ items_ordenes_compra_cliente db' = items_ordenes_compra_cliente db
     ∧ actualizar_total o' db' = (Return o', db'))
  ∧ (map_Forall (λ _ item, ItemOrdenCompraCliente_fits item) (items_orden_compra o db) →
     fits 10 (suma_items (OrdenCompraCliente.nro_pedido o) db) →
     ∃ o' db', actualizar_total o db = (Return o', db'))
  ∧ (¬ map_Forall (λ _ item, ItemOrdenCompraCliente_fits item) (items_orden_compra o db) →
     actualizar_total o db = (Raise InvalidOperation, db)).
Proof.
  intros Hwf Ho Hothers. split_and!.
  - intros o' db'. rewrite actualizar_total_eq.
    destruct (iter (items_orden_compra o db)) as [items | e] eqn:Hiter; [| discriminate].
    intros [= <- <-]. split_and!.
    + intros k ok Hk. simpl in Hk. rewrite suma_items_with_ordenes.
      destruct (decide (k = OrdenCompraCliente.nro_pedido o)) as [-> | Hne].
      * rewrite lookup_insert_eq in Hk. by injection Hk as <-.
      * rewrite lookup_insert_ne in Hk by done. by apply Hothers.
    + reflexivity.
    + rewrite actualizar_total_eq.
      replace (items_orden_compra _ (with_ordenes _ db)) with (items_orden_compra o db)
        by reflexivity.
      rewrite Hiter. simpl. rewrite suma_items_with_ordenes.
      f_equal. unfold with_ordenes. simpl. by rewrite insert_insert_eq.
  - intros Hfits _. rewrite actualizar_total_eq. unfold iter.
    rewrite decide_True by done. eauto.
  - intros Hfits. rewrite actualizar_total_eq. unfold iter.
    by rewrite decide_False.
Qed.

Lemma X8_actualizar_total_repairs_witness :
  ¬ importes_consistentes db_sin_b
  ∧ ∃ o' db',
      actualizar_total (OrdenCompraCliente.set_importe 1250 orden_1) db_sin_b
      = (Return o', db')
      ∧ importes_consistentes db'
      ∧ importe_of 1 db' = Some 500.
Proof.
  split.
  - intros Hinv. specialize (Hinv 1 (OrdenCompraCliente.set_importe 1250 orden_1)).
    vm_compute in Hinv. specialize (Hinv eq_refl). discriminate Hinv.
  - destruct (X8_actualizar_total_repairs
                (OrdenCompraCliente.set_importe 1250 orden_1) db_sin_b)
      as (Hrepairs & Hruns & _).
    + unfold ordenes_por_pk. apply (bool_decide_unpack _). vm_compute. exact I.
    + vm_compute. reflexivity.
    + intros k ok Hne Hk. exfalso.
      assert (Hin : is_Some (ordenes_compra_cliente db_sin_b !! k)) by eauto.
      apply elem_of_dom in Hin. revert Hin.
      replace (dom (ordenes_compra_cliente db_sin_b)) with ({[1]} : gset Z)
        by (vm_compute; reflexivity).
      intros ->%elem_of_singleton. by apply Hne.
    + destruct Hruns as (o' & db' & Hrun).
      * apply (bool_decide_unpack _). vm_compute. exact I.
      * vm_compute; reflexivity.
      * destruct (Hrepairs o' db' Hrun) as (Hinv & _ & _).
        exists o', db'. split_and!; [exact Hrun | exact Hinv |].
        revert Hrun. vm_compute. intros [= <- <-]. reflexivity.
Defined.

(** X9: deleting an order removes its row and every item row of the
    order, leaves the rows of the other orders and their items as they
    were, and keeps the remaining orders at the sum of their items and
    the references of the remaining items resolved. *)
Theorem X9_order_delete_cascades self db :
  ∃ db',
    OrdenCompraCliente_delete self db = (Return tt, db')
    ∧ ordenes_compra_cliente db' !! OrdenCompraCliente.nro_pedido self = None
    ∧ (∀ k item, items_ordenes_compra_cliente db' !! k = Some item →
                 ItemOrdenCompraCliente.pedido item ≠ OrdenCompraCliente.nro_pedido self)
    ∧ (∀ k item, items_ordenes_compra_cliente db !! k = Some item →
                 ItemOrdenCompraCliente.pedido item ≠ OrdenCompraCliente.nro_pedido self →
                 items_ordenes_compra_cliente db' !! k = Some item)
    ∧ (∀ nro, nro ≠ OrdenCompraCliente.nro_pedido self →
              ordenes_compra_cliente db' !! nro = ordenes_compra_cliente db !! nro
              ∧ suma_items nro db' = suma_items nro db)
    ∧ (importes_consistentes db → importes_consistentes db')
    ∧ (items_integros db → items_integros db').
Proof.
  eexists. split; [reflexivity |].
  assert (Hsum : ∀ nro, nro ≠ OrdenCompraCliente.nro_pedido self →
    suma_items nro
      (with_ordenes (delete (OrdenCompraCliente.nro_pedido self))
         (with_items_orden
            (filter (λ kv, ItemOrdenCompraCliente.pedido kv.2
                           ≠ OrdenCompraCliente.nro_pedido self)) db))
    = suma_items nro db).
  { intros nro Hne. unfold suma_items. simpl. f_equal.
    apply map_filter_filter_l. intros i x _ Hx. simpl in *. congruence. }
  simpl. split_and!.
  - apply lookup_delete_eq.
  - by intros k item [_ Hne]%map_lookup_filter_Some.
  - intros k item Hk Hne. by apply map_lookup_filter_Some.
  - intros nro Hne. split; [by apply lookup_delete_ne | by apply Hsum].
  - intros Hinv k ok Hk. simpl in Hk.
    destruct (decide (k = OrdenCompraCliente.nro_pedido self)) as [-> | Hne].
    + by rewrite lookup_delete_eq in Hk.
    + rewrite lookup_delete_ne in Hk by done. rewrite (Hsum k Hne). by apply Hinv.
  - intros Hinv k item [Hk Hne]%map_lookup_filter_Some. simpl in *.
    destruct (Hinv k item Hk) as [Ho Ha]. split; [| done].
    by rewrite lookup_delete_ne.
Qed.

Lemma X9_order_delete_cascades_witness :
  importes_consistentes db_dos_ordenes
  ∧ ∃ db',
      OrdenCompraCliente_delete (OrdenCompraCliente.set_importe 1250 orden_1) db_dos_ordenes
      = (Return tt, db')
      ∧ items_ordenes_compra_cliente db' = ∅
      ∧ importes_consistentes db'.
Proof.
  assert (Hinv : importes_consistentes db_dos_ordenes).
  { unfold importes_consistentes. apply (bool_decide_unpack _). vm_compute. exact I. }
  split; [exact Hinv |].
  destruct (X9_order_delete_cascades
              (OrdenCompraCliente.set_importe 1250 orden_1) db_dos_ordenes)
    as (db' & Hdel & _ & _ & _ & _ & Hkeeps & _).
  exists db'. split_and!; [exact Hdel | | exact (Hkeeps Hinv)].
  injection Hdel as <-. vm_compute. reflexivity.
Defined.

(** *** Deletes in the catalogue *)

Lemma filter_empty_iff {K} `{Countable K} {A} (P : K * A → Prop) `{!∀ x, Decision (P x)}
    (m : gmap K A) :
  filter P m = ∅ ↔ map_Forall (λ k a, ¬ P (k, a)) m.
Proof. apply map_empty_filter. Qed.

(** X10: the delete of a group, of a line or of an article returns
    exactly when no row refers to it: no line and no article for a
    group, no article for a line, no item of either kind for an article.
    A delete that is refused raises RestrictedError and writes nothing. *)
Theorem X10_delete_returns_iff_unreferenced :
  (∀ self db,
     (∃ db', GrupoArticulo_delete self db = (Return tt, db'))
     ↔ map_Forall (λ _ l, LineaArticulo.grupo l ≠ GrupoArticulo.grupo_id self)
                  (lineas_articulos db)
       ∧ map_Forall (λ _ a, Articulo.grupo a ≠ GrupoArticulo.grupo_id self) (articulos db))
  ∧ (∀ self db,
       (∃ db', LineaArticulo_delete self db = (Return tt, db'))
       ↔ map_Forall (λ _ a, Articulo.linea a ≠ LineaArticulo.linea_id self) (articulos db))
  ∧ (∀ self db,
       (∃ db', Articulo_delete self db = (Return tt, db'))
       ↔ map_Forall (λ _ item, ItemPedido.articulo item ≠ Articulo.articulo_id self)
                    (items_pedido db)
         ∧ map_Forall
             (λ _ item, ItemOrdenCompraCliente.articulo item ≠ Articulo.articulo_id self)
             (items_ordenes_compra_cliente db))
  ∧ (∀ g l a db e db',
       GrupoArticulo_delete g db = (Raise e, db')
       ∨ LineaArticulo_delete l db = (Raise e, db')
       ∨ Articulo_delete a db = (Raise e, db') →
       db' = db ∧ ∃ model, e = RestrictedError model).
Proof.
  split_and!.
  - intros self db. unfold GrupoArticulo_delete. simpl.
    rewrite <- !(filter_empty_iff (λ kv, _ kv.2 = _)).
    repeat case_decide; split; try (intros [? [=]]); try tauto; eauto.
  - intros self db. unfold LineaArticulo_delete. simpl.
    rewrite <- !(filter_empty_iff (λ kv, _ kv.2 = _)).
    repeat case_decide; split; try (intros [? [=]]); try tauto; eauto.
  - intros self db. unfold Articulo_delete. simpl.
    rewrite <- !(filter_empty_iff (λ kv, _ kv.2 = _)).
    repeat case_decide; split; try (intros [? [=]]); try tauto; eauto.
  - intros g l a db e db'.
    unfold GrupoArticulo_delete, LineaArticulo_delete, Articulo_delete. simpl.
    intros [Hd | [Hd | Hd]]; revert Hd; repeat case_decide;
      intros [= <- <-]; eauto.
Qed.

Lemma X10_delete_returns_iff_unreferenced_witness :
  (∃ db', LineaArticulo_delete linea_papas
            (exec (Articulo_delete articulo_papas) ejemplo_db) = (Return tt, db'))
  ∧ ¬ (∃ db', LineaArticulo_delete linea_papas ejemplo_db = (Return tt, db'))
  ∧ ¬ (∃ db', Articulo_delete articulo_cola db_tras_a = (Return tt, db')).
Proof.
  destruct X10_delete_returns_iff_unreferenced as (_ & Hlinea & Hart & _).
  split_and!.
  - apply Hlinea. apply (bool_decide_unpack _). vm_compute. exact I.
  - intros Hret%Hlinea. specialize (Hret 22%N articulo_papas eq_refl). by apply Hret.
  - intros [_ Hret]%Hart. specialize (Hret 101%N stored_a eq_refl). by apply Hret.
Defined.

(** X11: the references of the catalogue stay resolved. If every article
    has its group and its line and every line has its group, this still
    holds after a save or a forced insert of an article and after the
    delete of an article, a group or a line, whatever their outcome. *)
Theorem X11_catalogue_references_kept :
  (∀ self db, catalogo_integro db → catalogo_integro (exec (Articulo_save self) db))
  ∧ (∀ self db, catalogo_integro db → catalogo_integro (exec (Articulo_objects_create self) db))
  ∧ (∀ self db, catalogo_integro db → catalogo_integro (exec (Articulo_delete self) db))
  ∧ (∀ self db, catalogo_integro db → catalogo_integro (exec (GrupoArticulo_delete self) db))
  ∧ (∀ self db, catalogo_integro db → catalogo_integro (exec (LineaArticulo_delete self) db)).
Proof.
  assert (Hsave : ∀ self db,
            catalogo_integro db → catalogo_integro (exec (Articulo_save self) db)).
  { intros self db [Ha Hl]. unfold exec, Articulo_save.
    repeat case_decide; [done | done |]. split; [| done]. simpl.
    apply map_Forall_insert_2; [| done]. split; by apply not_eq_None_Some. }
  split_and!; [exact Hsave | | | |].
  - intros self db Hinv. unfold exec, Articulo_objects_create.
    case_decide; [| done].
    specialize (Hsave self db Hinv). unfold exec in Hsave.
    by destruct (Articulo_save self db) as [[[] | e] db'].
  - intros self db [Ha Hl]. unfold exec, Articulo_delete. simpl.
    repeat case_decide; [| done | done]. split; [| done]. simpl.
    by apply map_Forall_delete.
  - intros self db [Ha Hl]. unfold exec, GrupoArticulo_delete. simpl.
    case_decide as Hlineas; [| done]. case_decide as Harts; [| done].
    apply filter_empty_iff in Hlineas, Harts. split; simpl.
    + intros k a Hk. destruct (Ha k a Hk) as [Hg Hline]. split; [| done].
      rewrite lookup_delete_ne; [done |]. intros Heq. by apply (Harts k a Hk).
    + intros k l Hk. rewrite lookup_delete_ne; [by apply (Hl k l) |].
      intros Heq. by apply (Hlineas k l Hk).
  - intros self db [Ha Hl]. unfold exec, LineaArticulo_delete. simpl.
    case_decide as Harts; [| done].
    apply filter_empty_iff in Harts. split; simpl.
    + intros k a Hk. destruct (Ha k a Hk) as [Hg Hline]. split; [done |].
      rewrite lookup_delete_ne; [done |]. intros Heq. by apply (Harts k a Hk).
    + intros k l Hk. apply lookup_delete_Some in Hk as [_ Hk]. by apply (Hl k l).
Qed.

Lemma X11_catalogue_references_kept_witness :
  catalogo_integro ejemplo_db
  ∧ catalogo_integro (exec (GrupoArticulo_delete grupo_snacks) ejemplo_db)
  ∧ grupos_articulos (exec (GrupoArticulo_delete grupo_snacks) ejemplo_db) !! 2%N
    = Some grupo_snacks.
Proof.
  assert (Hinv : catalogo_integro ejemplo_db).
  { split; apply (bool_decide_unpack _); vm_compute; exact I. }
  split_and!; [exact Hinv | | vm_compute; reflexivity].
  destruct X11_catalogue_references_kept as (_ & _ & _ & Hgrupo & _).
  exact (Hgrupo grupo_snacks ejemplo_db Hinv).
Defined.

Lemma save_item_Return_refs force_insert self db self' db' :
  ItemOrdenCompraCliente_save force_insert self db = (Return self', db') →
  is_Some (ordenes_compra_cliente db !! ItemOrdenCompraCliente.pedido self)
  ∧ is_Some (articulos db !! ItemOrdenCompraCliente.articulo self).
Proof.
  rewrite save_item_eq.
  destruct (ItemOrdenCompraCliente_super_save _ _ db) as [[self1 | e] db1] eqn:Hsuper;
    [| discriminate].
  by apply super_save_Return in Hsuper as (_ & _ & _ & _ & Ho & Ha & _).
Qed.

(** X12: the references of the order items stay resolved. If every item
    has its order and its article, this still holds after a save or a
    delete of an item and after the delete of an article, whatever their
    outcome. *)
Theorem X12_item_references_kept :
  (∀ force_insert self db,
     items_integros db → items_integros (exec (ItemOrdenCompraCliente_save force_insert self) db))
  ∧ (∀ self db, items_integros db → items_integros (exec (ItemOrdenCompraCliente_delete self) db))
  ∧ (∀ self db, items_integros db → items_integros (exec (Articulo_delete self) db)).
Proof.
  split_and!.
  - intros fi self db Hinv. unfold exec.
    destruct (pre_save_fields fi (recalculado self) db) as (_ & Hp1 & _ & Ha1 & _).
    destruct (ItemOrdenCompraCliente_save fi self db) as [[self' | e] db'] eqn:Hs.
    + pose proof Hs as (o & -> & Ho & _ & Hitems & Hord & Hart & _)%save_item_Return.
      assert (Hkeeps : ∀ nro, is_Some (ordenes_compra_cliente db !! nro) →
                              is_Some (ordenes_compra_cliente db' !! nro)).
      { intros nro Hnro. rewrite Hord. apply lookup_insert_is_Some.
        destruct (decide (OrdenCompraCliente.nro_pedido o = nro)); eauto. }
      unfold items_integros. simpl. rewrite Hitems, Hart.
      apply map_Forall_insert_2.
      * apply save_item_Return_refs in Hs as [Hp Ha]. rewrite Hp1, Ha1.
        split; [by apply Hkeeps | done].
      * intros k item Hk. destruct (Hinv k item Hk). split; [by apply Hkeeps | done].
    + apply save_item_Raise in Hs as [-> | (_ & _ & Ho & Ha & ->)]; [done |].
      unfold items_integros. simpl.
      apply map_Forall_insert_2; [| done]. by rewrite Hp1, Ha1.
  - intros self db Hinv. by apply map_Forall_delete.
  - intros self db Hinv. unfold exec, Articulo_delete. simpl.
    case_decide as Hped; [| done]. case_decide as Hitems; [| done].
    apply filter_empty_iff in Hitems.
    intros k item Hk. simpl in *. destruct (Hinv k item Hk) as [Ho Ha].
    split; [done |]. rewrite lookup_delete_ne; [done |].
    intros Heq. by apply (Hitems k item Hk).
Qed.

Lemma X12_item_references_kept_witness :
  items_integros db_tras_b
  ∧ items_integros (exec (ItemOrdenCompraCliente_delete stored_a) db_tras_b)
  ∧ items_ordenes_compra_cliente (exec (ItemOrdenCompraCliente_delete stored_a) db_tras_b)
      !! 101%N = None.
Proof.
  assert (Hinv : items_integros db_tras_b).
  { unfold items_integros. apply (bool_decide_unpack _). vm_compute. exact I. }
  split_and!; [exact Hinv | | vm_compute; reflexivity].
  exact (proj1 (proj2 X12_item_references_kept) stored_a db_tras_b Hinv).
Defined.

(** ** Further properties of the serializers *)

Lemma field_error_None {A} name (r : outcome A) errors :
  field_error name r errors !! name = None
  ↔ errors !! name = None ∧ ∀ l, r ≠ Raise (ValidationError (Msgs l)).
Proof.
  destruct r as [a | [| | | | | | [l | m]]]; simpl;
    try (split; [intros ?; by split | by intros []]).
  rewrite lookup_insert_eq. split; [discriminate |]. intros [_ Hl]. by destruct (Hl l).
Qed.

Lemma CharField_text_ok limit data :
  CharField false limit data = Return data ↔ text_ok limit data.
Proof.
  rewrite CharField_Return. unfold text_ok. case_decide; [| tauto].
  split; [by intros [_ [=]] | tauto].
Qed.

Lemma CharField_passes limit data :
  (∀ l, CharField false limit data ≠ Raise (ValidationError (Msgs l))) ↔ text_ok limit data.
Proof.
  rewrite <- CharField_text_ok.
  destruct (CharField_outcome false limit data) as [-> | [l Hl]].
  - split; [done | discriminate].
  - rewrite Hl. split; [intros Hs; exfalso; by eapply Hs | discriminate].
Qed.

Lemma codigo_articulo_passes value db :
  (∀ l, and_then (CharField false 25 value)
                 (λ v, ArticuloCreateSerializer.validate_codigo_articulo v db)
        ≠ Raise (ValidationError (Msgs l)))
  ↔ text_ok 25 value ∧ (4 ≤ len value)%nat
    ∧ map_Forall (λ _ a, Articulo.codigo_articulo a ≠ value) (articulos db).
Proof.
  rewrite <- (filter_empty_iff (λ kv, Articulo.codigo_articulo kv.2 = value)).
  rewrite <- CharField_text_ok.
  destruct (CharField_outcome false 25 value) as [-> | [l ->]]; simpl.
  2: { split; [intros Hs; exfalso; by eapply Hs | by intros [[=] _]]. }
  unfold ArticuloCreateSerializer.validate_codigo_articulo.
  case_decide as Htaken.
  { split; [intros Hs; exfalso; by eapply Hs | tauto]. }
  case_decide as Hshort.
  { split; [intros Hs; exfalso; by eapply Hs | lia]. }
  split; [| done]. intros _. split_and!; [done | lia | done].
Qed.

Lemma descripcion_passes value :
  (∀ l, and_then (CharField false 150 value) ArticuloCreateSerializer.validate_descripcion
        ≠ Raise (ValidationError (Msgs l)))
  ↔ text_ok 150 value ∧ (5 ≤ len value)%nat.
Proof.
  rewrite <- CharField_text_ok.
  destruct (CharField_outcome false 150 value) as [Hok | [l ->]]; simpl.
  2: { split; [intros Hs; exfalso; by eapply Hs | by intros [[=] _]]. }
  rewrite Hok. simpl.
  apply CharField_text_ok in Hok as (_ & Hlen & _).
  unfold ArticuloCreateSerializer.validate_descripcion.
  repeat case_decide; (split; [intros Hs; try (exfalso; by eapply Hs) | try done]);
    try lia; try (split; [done | lia]); by intros [_ ?]; lia.
Qed.

Lemma stock_passes value :
  (∀ l, and_then (DecimalField [] value) ArticuloCreateSerializer.validate_stock
        ≠ Raise (ValidationError (Msgs l)))
  ↔ 0 ≤ value < 10 ^ 12.
Proof.
  destruct (DecimalField_outcome [] value) as [Hok | [l Hl]].
  - rewrite Hok. simpl. apply DecimalField_Return in Hok as (_ & Hfits & _).
    unfold fits in Hfits. unfold ArticuloCreateSerializer.validate_stock.
    case_decide; (split; [intros Hs; try (exfalso; by eapply Hs) | try done]); lia.
  - rewrite Hl. simpl. split; [intros Hs; exfalso; by eapply Hs |].
    intros Hrange. exfalso.
    assert (Hok : DecimalField [] value = Return value).
    { apply DecimalField_Return. split_and!; [done | unfold fits; lia | constructor]. }
    congruence.
Qed.

Lemma precio_1_passes value :
  (∀ l, DecimalField [min_value 0] value ≠ Raise (ValidationError (Msgs l)))
  ↔ 0 ≤ value < 10 ^ 12.
Proof.
  destruct (DecimalField_outcome [min_value 0] value) as [Hok | [l Hl]].
  - rewrite Hok. apply DecimalField_Return in Hok as (_ & Hfits & Hmin).
    apply Forall_cons in Hmin as [Hmin _]. unfold min_value in Hmin.
    case_decide; [discriminate |]. unfold fits in Hfits.
    split; [lia | discriminate].
  - rewrite Hl. split; [intros Hs; exfalso; by eapply Hs |].
    intros Hrange. exfalso.
    assert (Hok : DecimalField [min_value 0] value = Return value).
    { apply DecimalField_Return. split_and!; [done | unfold fits; lia |].
      repeat constructor. unfold min_value. rewrite decide_False by lia. done. }
    congruence.
Qed.

(** The entries of the error map of the creation serializer, field by
    field. *)
Lemma create_field_errors_lookup d db :
  (ArticuloCreateSerializer.field_errors d db !! "codigo_articulo" = None
   ↔ text_ok 25 (ArticuloCreateSerializer.codigo_articulo d)
     ∧ (4 ≤ len (ArticuloCreateSerializer.codigo_articulo d))%nat
     ∧ map_Forall (λ _ a, Articulo.codigo_articulo a
                          ≠ ArticuloCreateSerializer.codigo_articulo d) (articulos db))
  ∧ (ArticuloCreateSerializer.field_errors d db !! "codigo_barras" = None
     ↔ text_ok 25 (ArticuloCreateSerializer.codigo_barras d))
  ∧ (ArticuloCreateSerializer.field_errors d db !! "descripcion" = None
     ↔ text_ok 150 (ArticuloCreateSerializer.descripcion d)
       ∧ (5 ≤ len (ArticuloCreateSerializer.descripcion d))%nat)
  ∧ (ArticuloCreateSerializer.field_errors d db !! "presentacion" = None
     ↔ text_ok 100 (ArticuloCreateSerializer.presentacion d))
  ∧ (ArticuloCreateSerializer.field_errors d db !! "stock" = None
     ↔ 0 ≤ ArticuloCreateSerializer.stock d < 10 ^ 12)
  ∧ (ArticuloCreateSerializer.field_errors d db !! "precio_1" = None
     ↔ 0 ≤ ArticuloCreateSerializer.precio_1 d < 10 ^ 12)
  ∧ (∀ k, k ∉ ["codigo_articulo"; "codigo_barras"; "descripcion"; "presentacion";
               "stock"; "precio_1"] →
          ArticuloCreateSerializer.field_errors d db !! k = None).
Proof.
  unfold ArticuloCreateSerializer.field_errors.
  split_and!.
  - rewrite field_error_None, !field_error_ne, lookup_empty by done.
    rewrite codigo_articulo_passes. tauto.
  - rewrite !field_error_ne by done.
    rewrite field_error_None, !field_error_ne, lookup_empty by done.
    rewrite CharField_passes. tauto.
  - rewrite !field_error_ne by done.
    rewrite field_error_None, !field_error_ne, lookup_empty by done.
    rewrite descripcion_passes. tauto.
  - rewrite !field_error_ne by done.
    rewrite field_error_None, !field_error_ne, lookup_empty by done.
    rewrite CharField_passes. tauto.
  - rewrite !field_error_ne by done.
    rewrite field_error_None, !field_error_ne, lookup_empty by done.
    rewrite stock_passes. tauto.
  - rewrite !field_error_ne by done.
    rewrite field_error_None, lookup_empty.
    rewrite precio_1_passes. tauto.
  - intros k Hk. rewrite !not_elem_of_cons in Hk.
    destruct Hk as (? & ? & ? & ? & ? & ? & _).
    rewrite !field_error_ne by done. apply lookup_empty.
Qed.

(** X13: the error map of the creation serializer has an entry under a
    field exactly when that field fails its own checks, whatever the
    other fields hold. The checks: a code that is not blank, has 4 to 25
    characters and no null character, and that no article has; a bar code
    and a presentation that are not blank, have at most 25 and 100
    characters and no null character; a description that is not blank,
    has 5 to 150 characters and no null character; stock and precio_1
    from 0 and below 10^10 units. The map has no entry under any other
    name. The strings are the texts of the request as the fields read
    them, without white space around them. *)
Theorem X13_create_error_map_by_field d db :
  ArticuloCreateSerializer.stripped_data d →
  (is_Some (ArticuloCreateSerializer.field_errors d db !! "codigo_articulo")
   ↔ ¬ (text_ok 25 (ArticuloCreateSerializer.codigo_articulo d)
        ∧ (4 ≤ len (ArticuloCreateSerializer.codigo_articulo d))%nat
        ∧ map_Forall (λ _ a, Articulo.codigo_articulo a
                             ≠ ArticuloCreateSerializer.codigo_articulo d) (articulos db)))
  ∧ (is_Some (ArticuloCreateSerializer.field_errors d db !! "codigo_barras")
     ↔ ¬ text_ok 25 (ArticuloCreateSerializer.codigo_barras d))
  ∧ (is_Some (ArticuloCreateSerializer.field_errors d db !! "descripcion")
     ↔ ¬ (text_ok 150 (ArticuloCreateSerializer.descripcion d)
          ∧ (5 ≤ len (ArticuloCreateSerializer.descripcion d))%nat))
  ∧ (is_Some (ArticuloCreateSerializer.field_errors d db !! "presentacion")
     ↔ ¬ text_ok 100 (ArticuloCreateSerializer.presentacion d))
  ∧ (is_Some (ArticuloCreateSerializer.field_errors d db !! "stock")
     ↔ ¬ (0 ≤ ArticuloCreateSerializer.stock d < 10 ^ 12))
  ∧ (is_Some (ArticuloCreateSerializer.field_errors d db !! "precio_1")
     ↔ ¬ (0 ≤ ArticuloCreateSerializer.precio_1 d < 10 ^ 12))
  ∧ (∀ k, k ∉ ["codigo_articulo"; "codigo_barras"; "descripcion"; "presentacion";
               "stock"; "precio_1"] →
          ArticuloCreateSerializer.field_errors d db !! k = None).
Proof.
  intros _.
  destruct (create_field_errors_lookup d db) as (H1 & H2 & H3 & H4 & H5 & H6 & H7).
  rewrite <- !not_eq_None_Some.
  split_and!; [by rewrite H1 | by rewrite H2 | by rewrite H3 | by rewrite H4
              | by rewrite H5 | by rewrite H6 | exact H7].
Qed.

Lemma X13_create_error_map_by_field_witness :
  is_Some (ArticuloCreateSerializer.field_errors
             (ArticuloCreateSerializer.mk "ÑU1" "" "Café" "Botella" 1%N 11%N (-100) 150)
             ejemplo_db !! "codigo_articulo")
  ∧ is_Some (ArticuloCreateSerializer.field_errors
               (ArticuloCreateSerializer.mk "ÑU1" "" "Café" "Botella" 1%N 11%N (-100) 150)
               ejemplo_db !! "codigo_barras")
  ∧ is_Some (ArticuloCreateSerializer.field_errors
               (ArticuloCreateSerializer.mk "ÑU1" "" "Café" "Botella" 1%N 11%N (-100) 150)
               ejemplo_db !! "descripcion")
  ∧ is_Some (ArticuloCreateSerializer.field_errors
               (ArticuloCreateSerializer.mk "ÑU1" "" "Café" "Botella" 1%N 11%N (-100) 150)
               ejemplo_db !! "stock")
  ∧ ArticuloCreateSerializer.field_errors
      (ArticuloCreateSerializer.mk "ÑU1" "" "Café" "Botella" 1%N 11%N (-100) 150)
      ejemplo_db !! "precio_1" = None.
Proof.
  destruct (X13_create_error_map_by_field
              (ArticuloCreateSerializer.mk "ÑU1" "" "Café" "Botella" 1%N 11%N (-100) 150)
              ejemplo_db) as (Hcod & Hbar & Hdes & _ & Hst & _ & _).
  - vm_compute. tauto.
  - split_and!.
    + apply Hcod. intros (_ & Hlen & _). vm_compute in Hlen. lia.
    + apply Hbar. by intros [Hblank _].
    + apply Hdes. intros (_ & Hlen). vm_compute in Hlen. lia.
    + apply Hst. simpl. lia.
    + vm_compute. reflexivity.
Defined.

Lemma create_field_errors_empty d db :
  ArticuloCreateSerializer.field_errors d db = ∅ ↔ fields_ok d db.
Proof.
  destruct (create_field_errors_lookup d db) as (H1 & H2 & H3 & H4 & H5 & H6 & H7).
  unfold fields_ok. rewrite <- H1, <- H2, <- H3, <- H4, <- H5, <- H6. split.
  - intros ->. by rewrite !lookup_empty.
  - intros (? & ? & ? & ? & ? & ?). apply map_empty. intros k.
    destruct (decide (k ∈ ["codigo_articulo"; "codigo_barras"; "descripcion"; "presentacion";
                           "stock"; "precio_1"])) as [Hin | Hout]; [| by apply H7].
    rewrite !elem_of_cons in Hin.
    destruct Hin as [-> | [-> | [-> | [-> | [-> | [-> | []%elem_of_nil]]]]]]; done.
Qed.

Lemma create_validate_Return d db d' :
  ArticuloCreateSerializer.validate d db = Return d'
  ↔ d' = d
    ∧ ∃ grupo linea linea_grupo,
        grupos_articulos db !! ArticuloCreateSerializer.grupo_id d = Some grupo
        ∧ lineas_articulos db !! ArticuloCreateSerializer.linea_id d = Some linea
        ∧ grupos_articulos db !! LineaArticulo.grupo linea = Some linea_grupo
        ∧ GrupoArticulo.grupo_id linea_grupo = ArticuloCreateSerializer.grupo_id d.
Proof.
  unfold ArticuloCreateSerializer.validate, catch, objects_get.
  destruct (grupos_articulos db !! ArticuloCreateSerializer.grupo_id d) as [g |] eqn:Hg; simpl.
  2: { split; [discriminate | intros (_ & ? & ? & ? & ? & _); congruence]. }
  destruct (lineas_articulos db !! ArticuloCreateSerializer.linea_id d) as [l |] eqn:Hl; simpl.
  2: { split; [discriminate | intros (_ & ? & ? & ? & _ & ? & _); congruence]. }
  destruct (grupos_articulos db !! LineaArticulo.grupo l) as [lg |] eqn:Hlg; simpl.
  2: { split; [discriminate | intros (_ & ? & ? & ? & _ & ? & ? & _); congruence]. }
  case_decide as Hne; simpl.
  - split; [discriminate |]. intros (_ & ? & ? & ? & _ & ? & ? & ?). congruence.
  - split; [intros [= <-] | by intros [-> _]].
    split; [done |]. by exists g, l, lg.
Qed.

(** X14: the creation serializer accepts a request exactly when every
    field passes its own checks (those of X13), the group exists, the
    line exists and the group of the line is the group supplied; the
    validated data is then the request itself. The strings are the
    texts of the request as the fields read them, without white space
    around them. *)
Theorem X14_create_validation_accepts_iff d db :
  ArticuloCreateSerializer.stripped_data d →
  (ArticuloCreateSerializer.run_validation d db = Return d
   ↔ fields_ok d db
     ∧ ∃ grupo linea linea_grupo,
         grupos_articulos db !! ArticuloCreateSerializer.grupo_id d = Some grupo
         ∧ lineas_articulos db !! ArticuloCreateSerializer.linea_id d = Some linea
         ∧ grupos_articulos db !! LineaArticulo.grupo linea = Some linea_grupo
         ∧ GrupoArticulo.grupo_id linea_grupo = ArticuloCreateSerializer.grupo_id d)
  ∧ (∀ d', ArticuloCreateSerializer.run_validation d db = Return d' → d' = d).
Proof.
  intros _. unfold ArticuloCreateSerializer.run_validation.
  rewrite <- create_field_errors_empty.
  case_decide as Hfields.
  - split.
    + rewrite create_validate_Return. tauto.
    + by intros d' [-> _]%create_validate_Return.
  - split; [| discriminate]. split; [discriminate | tauto].
Qed.

Lemma X14_create_validation_accepts_iff_witness :
  ArticuloCreateSerializer.run_validation ejemplo_agua ejemplo_db = Return ejemplo_agua
  ∧ ArticuloCreateSerializer.run_validation
      (ArticuloCreateSerializer.mk "AGUA-600" "" "Agua mineral 600 ml" "Botella"
         1%N 11%N 1200 150) ejemplo_db
    ≠ Return (ArticuloCreateSerializer.mk "AGUA-600" "" "Agua mineral 600 ml" "Botella"
                1%N 11%N 1200 150).
Proof.
  split.
  - apply (proj1 (X14_create_validation_accepts_iff ejemplo_agua ejemplo_db
                    ltac:(vm_compute; tauto))).
    split.
    + unfold fields_ok, text_ok. simpl.
      split_and!; try done; try lia; try (vm_compute; lia);
        try (apply (bool_decide_unpack _); vm_compute; exact I).
    + exists grupo_bebidas, linea_gaseosas, grupo_bebidas. split_and!; reflexivity.
  - intros Hrun.
    apply (proj1 (X14_create_validation_accepts_iff
                    (ArticuloCreateSerializer.mk "AGUA-600" "" "Agua mineral 600 ml" "Botella"
                       1%N 11%N 1200 150) ejemplo_db ltac:(vm_compute; tauto)))
      in Hrun as [(_ & [Hblank _] & _) _].
    by apply Hblank.
Defined.

(** X15: the creation serializer never reports "La descripción no debe
    exceder los 150 caracteres.": a description of more than 150
    characters is stopped by the length limit of the field, with the
    message of the field, before [validate_descripcion] sees it, and
    that hook lets pass whatever has 5 characters or more. A description
    that the field takes and that has fewer than 5 characters gets the
    message of the hook, a blank one the message of the field. The
    description is the text of the request as the field reads it. *)
Theorem X15_descripcion_long_message_unreachable d db :
  stripped (ArticuloCreateSerializer.descripcion d) →
  (∀ l, ArticuloCreateSerializer.field_errors d db !! "descripcion" = Some l →
        "La descripción no debe exceder los 150 caracteres." ∉ l)
  ∧ ((150 < len (ArticuloCreateSerializer.descripcion d))%nat →
     ∃ rest,
       ArticuloCreateSerializer.field_errors d db !! "descripcion"
       = Some ("Ensure this field has no more than 150 characters." :: rest))
  ∧ (text_ok 150 (ArticuloCreateSerializer.descripcion d) →
     (len (ArticuloCreateSerializer.descripcion d) < 5)%nat →
     ArticuloCreateSerializer.field_errors d db !! "descripcion"
     = Some ["La descripción es demasiado corta."])
  ∧ (ArticuloCreateSerializer.descripcion d = "" →
     ArticuloCreateSerializer.field_errors d db !! "descripcion"
     = Some ["This field may not be blank."]).
Proof.
  intros _. unfold ArticuloCreateSerializer.field_errors.
  rewrite !field_error_ne by done.
  set (value := ArticuloCreateSerializer.descripcion d).
  set (rest := field_error "presentacion" _ _).
  assert (Hrest : rest !! "descripcion" = None).
  { unfold rest. rewrite !field_error_ne by done. apply lookup_empty. }
  clearbody rest.
  set (r := and_then (CharField false 150 value) ArticuloCreateSerializer.validate_descripcion).
  assert (Hcases :
    (value = "" ∧ r = Raise (ValidationError (Msg "This field may not be blank.")))
    ∨ (value ≠ "" ∧ (150 < len value)%nat
       ∧ ∃ rest',
           r = Raise (ValidationError
                 (Msgs ("Ensure this field has no more than 150 characters." :: rest')))
           ∧ ∀ m, m ∈ rest' → m = "Null characters are not allowed.")
    ∨ (value ≠ "" ∧ (len value ≤ 150)%nat ∧ zero ∈ String.list_ascii_of_string value
       ∧ r = Raise (ValidationError (Msg "Null characters are not allowed.")))
    ∨ (text_ok 150 value ∧ (len value < 5)%nat
       ∧ r = Raise (ValidationError (Msg "La descripción es demasiado corta.")))
    ∨ (text_ok 150 value ∧ (5 ≤ len value)%nat ∧ r = Return value)).
  { unfold r, CharField, text_ok. case_decide as Hblank; [by left |].
    right. unfold run_validators. simpl. unfold max_length, null_characters.
    case_decide as Hlong; [left | right].
    - split_and!; [done | done |]. case_decide; simpl; eexists; (split; [reflexivity |]).
      + by intros m ->%list_elem_of_singleton.
      + by intros m []%elem_of_nil.
    - case_decide as Hnull; simpl; [left | right].
      + split_and!; [done | lia | done | done].
      + unfold ArticuloCreateSerializer.validate_descripcion.
        case_decide as Hshort; [left | right].
        * split_and!; try done. lia.
        * rewrite decide_False by lia. split_and!; try done; lia. }
  clearbody r.
  destruct Hcases as [(Hblank & ->) | [(Hne & Hlong & rest' & -> & Hnull)
                      | [(Hne & Hlen & Hbad & ->) | [(Hok & Hshort & ->) | (Hok & Hlen & ->)]]]];
    simpl; rewrite ?lookup_insert_eq, ?Hrest.
  - split_and!; try done; try (rewrite Hblank; simpl; lia).
    + intros l [= <-]. rewrite list_elem_of_singleton. discriminate.
    + by intros [? _].
  - split_and!; try done.
    + intros l [= <-]. rewrite elem_of_cons. intros [Heq | Hin]; [discriminate Heq |].
      apply Hnull in Hin. discriminate Hin.
    + eauto.
    + intros (_ & ? & _). lia.
  - split_and!; try done.
    + intros l [= <-]. rewrite list_elem_of_singleton. discriminate.
    + lia.
    + by intros (_ & _ & ?).
  - destruct Hok as (Hne & Hlen & _). split_and!; try done; try lia.
    intros l [= <-]. rewrite list_elem_of_singleton. discriminate.
  - destruct Hok as (Hne & Hlen' & _). split_and!; try done; lia.
Qed.

Lemma X15_descripcion_long_message_unreachable_witness :
  len "Café" = 4%nat
  ∧ ArticuloCreateSerializer.field_errors
      (ArticuloCreateSerializer.mk "AGUA-600" "7750003" "Café" "Botella" 1%N 11%N 1200 150)
      ejemplo_db !! "descripcion"
    = Some ["La descripción es demasiado corta."].
Proof.
  split; [reflexivity |].
  apply (X15_descripcion_long_message_unreachable
           (ArticuloCreateSerializer.mk "AGUA-600" "7750003" "Café" "Botella"
              1%N 11%N 1200 150) ejemplo_db).
  - vm_compute. exact I.
  - unfold text_ok.
    split_and!; [discriminate | vm_compute; lia | apply (bool_decide_unpack _); vm_compute; exact I].
  - vm_compute. lia.
Defined.


Lemma create_run_validation_id d db d' :
  ArticuloCreateSerializer.run_validation d db = Return d' → d' = d.
Proof.
  unfold ArticuloCreateSerializer.run_validation. case_decide; [| discriminate].
  by intros [-> _]%create_validate_Return.
Qed.

(** What [save] of the creation serializer does, for every input. *)
Lemma create_save_outcome env d db :
  ∃ e db',
    ArticuloCreateSerializer.save env d db = (Raise e, db')
    ∧ (db' = db
       ∨ ∃ grupo linea,
           ArticuloCreateSerializer.run_validation d db = Return d
           ∧ grupos_articulos db !! ArticuloCreateSerializer.grupo_id d = Some grupo
           ∧ lineas_articulos db !! ArticuloCreateSerializer.linea_id d = Some linea
           ∧ articulos db !! uuid4 env = None
           ∧ e = IntegrityError "precio_2"
           ∧ db' = with_articulos
                     <[uuid4 env :=
                         Articulo.mk (uuid4 env)
                           (ArticuloCreateSerializer.codigo_articulo d)
                           (ArticuloCreateSerializer.codigo_barras d)
                           (ArticuloCreateSerializer.descripcion d)
                           (ArticuloCreateSerializer.presentacion d)
                           (GrupoArticulo.grupo_id grupo) (LineaArticulo.linea_id linea)
                           (ACTIVO env) (ArticuloCreateSerializer.stock d) ""]> db).
Proof.
  unfold ArticuloCreateSerializer.save, bind, query.
  destruct (ArticuloCreateSerializer.run_validation d db) as [d' | e] eqn:Hrun; [| eauto].
  pose proof (create_run_validation_id d db d' Hrun) as ->.
  unfold ArticuloCreateSerializer.create, bind, query, objects_get.
  destruct (grupos_articulos db !! _) as [g |] eqn:Hg; [| eauto].
  destruct (lineas_articulos db !! _) as [l |] eqn:Hl; [| eauto].
  unfold Articulo_objects_create, Articulo_save. simpl.
  repeat case_decide; simpl; try (by eauto).
  do 2 eexists. split; [reflexivity |]. right. exists g, l. by split_and!.
Qed.

(** X16: [save] of the creation serializer never returns an article and
    never writes a price list, for any input and any database. It either
    leaves the database as it was, or, for an input that passed
    validation, leaves exactly one new article row, under the key drawn
    by uuid4, and raises IntegrityError on precio_2. *)
Theorem X16_create_save_never_returns env d db :
  ∃ e db',
    ArticuloCreateSerializer.save env d db = (Raise e, db')
    ∧ lista_precios db' = lista_precios db
    ∧ (db' = db
       ∨ ∃ grupo linea,
           ArticuloCreateSerializer.run_validation d db = Return d
           ∧ grupos_articulos db !! ArticuloCreateSerializer.grupo_id d = Some grupo
           ∧ lineas_articulos db !! ArticuloCreateSerializer.linea_id d = Some linea
           ∧ articulos db !! uuid4 env = None
           ∧ e = IntegrityError "precio_2"
           ∧ db' = with_articulos
                     <[uuid4 env :=
                         Articulo.mk (uuid4 env)
                           (ArticuloCreateSerializer.codigo_articulo d)
                           (ArticuloCreateSerializer.codigo_barras d)
                           (ArticuloCreateSerializer.descripcion d)
                           (ArticuloCreateSerializer.presentacion d)
                           (GrupoArticulo.grupo_id grupo) (LineaArticulo.linea_id linea)
                           (ACTIVO env) (ArticuloCreateSerializer.stock d) ""]> db).
Proof.
  destruct (create_save_outcome env d db) as (e & db' & Hs & Hdb).
  exists e, db'. split_and!; [exact Hs | | exact Hdb].
  destruct Hdb as [-> | (g & l & _ & _ & _ & _ & _ & ->)]; reflexivity.
Qed.

(** X17: creation keeps the article codes unique: if no two stored
    articles share a code, no two do after [save] of the creation
    serializer, whatever its outcome. *)
Theorem X17_create_keeps_codes_unique env d db :
  codigos_unicos db →
  codigos_unicos (exec (ArticuloCreateSerializer.save env d) db).
Proof.
  intros Hinv. unfold exec.
  destruct (create_save_outcome env d db) as (e & db' & -> & Hdb). simpl.
  destruct Hdb as [-> | (g & l & Hrun & _ & _ & Hfresh & _ & ->)]; [done |].
  assert (Hfree : map_Forall (λ _ a, Articulo.codigo_articulo a
                                     ≠ ArticuloCreateSerializer.codigo_articulo d)
                             (articulos db)).
  { revert Hrun. unfold ArticuloCreateSerializer.run_validation.
    case_decide as Hfields; [| discriminate]. intros _.
    by apply create_field_errors_empty in Hfields as ((_ & _ & ?) & _). }
  intros k1 k2 a1 a2. simpl.
  destruct (decide (k1 = uuid4 env)) as [-> | Hk1];
    destruct (decide (k2 = uuid4 env)) as [-> | Hk2]; [done | | |].
  - rewrite lookup_insert_eq, lookup_insert_ne by done.
    intros [= <-] Hk Hcode. simpl in Hcode. by destruct (Hfree k2 a2 Hk).
  - rewrite lookup_insert_eq, lookup_insert_ne by done.
    intros Hk [= <-] Hcode. simpl in Hcode. by destruct (Hfree k1 a1 Hk).
  - rewrite !lookup_insert_ne by done. apply Hinv.
Qed.

Lemma X17_create_keeps_codes_unique_witness :
  codigos_unicos ejemplo_db
  ∧ codigos_unicos (exec (ArticuloCreateSerializer.save ejemplo_env ejemplo_agua) ejemplo_db)
  ∧ Articulo.codigo_articulo
      <$> articulos (exec (ArticuloCreateSerializer.save ejemplo_env ejemplo_agua) ejemplo_db)
          !! 900%N
      = Some "AGUA-600".
Proof.
  assert (Hinv : codigos_unicos ejemplo_db).
  { intros k1 k2 a1 a2 H1 H2.
    assert (Hdom : ∀ k a, articulos ejemplo_db !! k = Some a → k = 21%N ∨ k = 22%N).
    { intros k a Hk.
      assert (Hin : k ∈ dom (articulos ejemplo_db)) by (apply elem_of_dom; eauto).
      replace (dom (articulos ejemplo_db)) with ({[21%N; 22%N]} : gset N) in Hin
        by (vm_compute; reflexivity).
      by apply elem_of_union in Hin as [->%elem_of_singleton | ->%elem_of_singleton];
        [left | right]. }
    destruct (Hdom _ _ H1) as [-> | ->], (Hdom _ _ H2) as [-> | ->];
      vm_compute in H1, H2; injection H1 as <-; injection H2 as <-; try done;
      intros Hcode; discriminate Hcode. }
  split_and!; [exact Hinv | | vm_compute; reflexivity].
  exact (X17_create_keeps_codes_unique ejemplo_env ejemplo_agua ejemplo_db Hinv).
Defined.

(** *** The other article serializers *)

(** [create] of the plain ArticuloSerializer stores nothing: the
    validated data carries no key, no group and no line, and the insert
    is refused on articulo_id for every input. *)
Lemma plain_create_stores_nothing env validated_data db :
  ArticuloSerializer_create env validated_data db
  = (Raise (IntegrityError "articulo_id"), db).
Proof. reflexivity. Qed.

(** X18: [create] of the model ArticuloSerializer. A group or a line
    that does not exist is not a validation error here but an uncaught
    DoesNotExist; data without a key is refused by the table; in all
    three cases nothing is written. With a free key and an existing
    group and line the article is stored under the key with the two
    references as given, and the line need not belong to the group. *)
Theorem X18_model_create :
  (∀ env d db,
     grupos_articulos db !! ArticuloSerializer'.grupo_id d = None →
     ArticuloSerializer'.create env d db = (Raise (DoesNotExist "GrupoArticulo"), db))
  ∧ (∀ env d db,
       is_Some (grupos_articulos db !! ArticuloSerializer'.grupo_id d) →
       lineas_articulos db !! ArticuloSerializer'.linea_id d = None →
       ArticuloSerializer'.create env d db = (Raise (DoesNotExist "LineaArticulo"), db))
  ∧ (∀ env d db,
       is_Some (grupos_articulos db !! ArticuloSerializer'.grupo_id d) →
       is_Some (lineas_articulos db !! ArticuloSerializer'.linea_id d) →
       ArticuloSerializer'.articulo_id d = None →
       ArticuloSerializer'.create env d db = (Raise (IntegrityError "articulo_id"), db))
  ∧ (∀ env d db pk,
       catalogo_por_pk db →
       is_Some (grupos_articulos db !! ArticuloSerializer'.grupo_id d) →
       is_Some (lineas_articulos db !! ArticuloSerializer'.linea_id d) →
       ArticuloSerializer'.articulo_id d = Some pk →
       articulos db !! pk = None →
       ∃ articulo db',
         ArticuloSerializer'.create env d db = (Return articulo, db')
         ∧ articulos db' = <[pk := articulo]> (articulos db)
         ∧ articulo
           = Articulo.mk pk (ArticuloSerializer'.codigo_articulo d)
               (ArticuloSerializer'.codigo_barras d) (ArticuloSerializer'.descripcion d)
               (ArticuloSerializer'.presentacion d)
               (ArticuloSerializer'.grupo_id d) (ArticuloSerializer'.linea_id d)
               (ACTIVO env) (ArticuloSerializer'.stock d) "").
Proof.
  split_and!.
  - intros env d db Hg. unfold ArticuloSerializer'.create, bind, query, objects_get.
    by rewrite Hg.
  - intros env d db [g Hg] Hl. unfold ArticuloSerializer'.create, bind, query, objects_get.
    by rewrite Hg, Hl.
  - intros env d db [g Hg] [l Hl] Hpk.
    unfold ArticuloSerializer'.create, bind, query, objects_get.
    rewrite Hg, Hl. unfold Articulo_objects_create_kwargs. simpl. by rewrite Hpk.
  - intros env d db pk (Hgpk & Hlpk & _) [g Hg] [l Hl] Hpk Hfresh.
    unfold ArticuloSerializer'.create, bind, query, objects_get.
    rewrite Hg, Hl. unfold Articulo_objects_create_kwargs. simpl. rewrite Hpk.
    unfold Articulo_objects_create, Articulo_save. simpl.
    rewrite (Hgpk _ _ Hg), (Hlpk _ _ Hl).
    rewrite !decide_True by done. rewrite !decide_False by congruence.
    simpl. do 2 eexists. split_and!; reflexivity.
Qed.

Lemma X18_model_create_witness :
  LineaArticulo.grupo linea_papas ≠ 1%N
  ∧ ∃ articulo db',
      ArticuloSerializer'.create ejemplo_env
        (ArticuloSerializer'.mk (Some 30%N) "AGUA-600" "7750003" "Agua mineral 600 ml"
           "Botella" 1200 1%N 12%N) ejemplo_db
      = (Return articulo, db')
      ∧ articulos db' = <[30%N := articulo]> (articulos ejemplo_db)
      ∧ Articulo.grupo articulo = 1%N
      ∧ Articulo.linea articulo = 12%N.
Proof.
  split; [discriminate |].
  destruct (proj2 (proj2 (proj2 X18_model_create)) ejemplo_env
              (ArticuloSerializer'.mk (Some 30%N) "AGUA-600" "7750003" "Agua mineral 600 ml"
                 "Botella" 1200 1%N 12%N) ejemplo_db 30%N)
    as (articulo & db' & Hrun & Harts & ->).
  - split_and!; apply (bool_decide_unpack _); vm_compute; exact I.
  - vm_compute. eauto.
  - vm_compute. eauto.
  - reflexivity.
  - vm_compute. reflexivity.
  - eexists. exists db'. split_and!; [exact Hrun | exact Harts | reflexivity | reflexivity].
Defined.

(** A field that takes a value hands it on as it is. *)
Lemma optional_field_Return {A} (check : A → outcome A) v v' :
  (∀ a a', check a = Return a' → a' = a) →
  optional_field check v = Return v' → v' = v.
Proof.
  intros Hcheck. destruct v as [a |]; simpl; [| by intros [= <-]].
  destruct (check a) as [a' | e] eqn:Ha; [| discriminate].
  intros [= <-]. by rewrite (Hcheck _ _ Ha).
Qed.

Lemma required_field_Return {A} partial (check : A → outcome A) v v' :
  (∀ a a', check a = Return a' → a' = a) →
  required_field partial check v = Return v' → v' = v.
Proof.
  intros Hcheck. destruct v as [a |]; [by apply optional_field_Return |].
  simpl. destruct partial; [by intros [= <-] | discriminate].
Qed.

Lemma default_field_Return {A} partial dflt (check : A → outcome A) v v' :
  (∀ a a', check a = Return a' → a' = a) →
  default_field partial dflt check v = Return v' →
  v' = match v with
       | Some a => Some a
       | None => if partial then None else Some dflt
       end.
Proof.
  intros Hcheck. destruct v as [a |]; [by apply optional_field_Return |].
  simpl. destruct partial; by intros [= <-].
Qed.

Lemma CharField_id allow_blank limit a a' :
  CharField allow_blank limit a = Return a' → a' = a.
Proof. by intros [-> _]%CharField_Return. Qed.

Lemma DecimalField_id validators a a' :
  DecimalField validators a = Return a' → a' = a.
Proof. by intros [-> _]%DecimalField_Return. Qed.

(** What the plain serializer hands to [update]: the data as sent, with
    the stock at its default 0 when a full update does not send it. *)
Lemma plain_run_validation_Return partial d validated_data :
  ArticuloSerializer.run_validation partial d = Return validated_data →
  validated_data
  = ArticuloSerializer.mk
      (ArticuloSerializer.codigo_articulo d) (ArticuloSerializer.codigo_barras d)
      (ArticuloSerializer.descripcion d) (ArticuloSerializer.presentacion d)
      (match ArticuloSerializer.stock d with
       | Some st => Some st
       | None => if partial then None else Some 0
       end).
Proof.
  unfold ArticuloSerializer.run_validation.
  destruct (required_field partial (CharField false 25) _) as [c | ?] eqn:Hc;
    destruct (optional_field (CharField true 25) _) as [b | ?] eqn:Hb;
    destruct (required_field partial (CharField false 150) _) as [de | ?] eqn:Hde;
    destruct (optional_field (CharField true 100) _) as [p | ?] eqn:Hp;
    destruct (default_field partial 0 (DecimalField []) _) as [st | ?] eqn:Hst;
    try discriminate.
  intros [= <-].
  apply required_field_Return in Hc as ->; [| apply CharField_id].
  apply optional_field_Return in Hb as ->; [| apply CharField_id].
  apply required_field_Return in Hde as ->; [| apply CharField_id].
  apply optional_field_Return in Hp as ->; [| apply CharField_id].
  apply default_field_Return in Hst as ->; [| apply DecimalField_id].
  by destruct d.
Qed.

(** X19: an update through the plain ArticuloSerializer that returns
    rewrites the row of the instance and nothing else; key, group,
    line, estado and imagen stay; a field that was sent takes the
    value sent and one that was not keeps the stored value, except the
    stock, which a full update that does not send it sets to 0. *)
Theorem X19_plain_update partial instance d instance' db db' :
  ArticuloSerializer.save partial instance d db = (Return instance', db') →
  db' = with_articulos <[Articulo.articulo_id instance := instance']> db
  ∧ instance'
    = Articulo.mk (Articulo.articulo_id instance)
        (default (Articulo.codigo_articulo instance) (ArticuloSerializer.codigo_articulo d))
        (default (Articulo.codigo_barras instance) (ArticuloSerializer.codigo_barras d))
        (default (Articulo.descripcion instance) (ArticuloSerializer.descripcion d))
        (default (Articulo.presentacion instance) (ArticuloSerializer.presentacion d))
        (Articulo.grupo instance) (Articulo.linea instance) (Articulo.estado instance)
        (match ArticuloSerializer.stock d with
         | Some st => st
         | None => if partial then Articulo.stock instance else 0
         end)
        (Articulo.imagen instance).
Proof.
  unfold ArticuloSerializer.save, bind, query.
  destruct (ArticuloSerializer.run_validation partial d) as [vd | e] eqn:Hrun; [| discriminate].
  apply plain_run_validation_Return in Hrun as ->.
  unfold ArticuloSerializer.update, bind, Articulo_save, ret. simpl.
  repeat case_decide; try discriminate.
  intros [= <- <-]. split; [reflexivity |].
  by destruct (ArticuloSerializer.stock d), partial.
Qed.

Lemma X19_plain_update_witness :
  ∃ instance' db',
    ArticuloSerializer.save false articulo_cola
      (ArticuloSerializer.mk (Some "COLA-500") None (Some "Gaseosa cola 500 ml") None None)
      ejemplo_db
    = (Return instance', db')
    ∧ Articulo.stock articulo_cola = 500
    ∧ Articulo.stock instance' = 0
    ∧ Articulo.presentacion instance' = "Botella".
Proof.
  assert (Hs : ArticuloSerializer.save false articulo_cola
                 (ArticuloSerializer.mk (Some "COLA-500") None (Some "Gaseosa cola 500 ml")
                    None None) ejemplo_db
               = (Return (Articulo.mk 21%N "COLA-500" "7750001" "Gaseosa cola 500 ml" "Botella"
                            1%N 11%N 1 0 ""),
                  with_articulos
                    <[21%N := Articulo.mk 21%N "COLA-500" "7750001" "Gaseosa cola 500 ml"
                                "Botella" 1%N 11%N 1 0 ""]> ejemplo_db))
    by (vm_compute; reflexivity).
  destruct (X19_plain_update _ _ _ _ _ _ Hs) as [_ Hinst].
  do 2 eexists. split; [exact Hs |]. split_and!; reflexivity.
Defined.

(** X20: an update through the plain ArticuloSerializer does not look
    at the codes of the other articles: giving a stored article the
    code of another one succeeds and leaves two rows with one code. The
    other code is one that the field takes as it is: no white space
    around it, not blank, at most 25 characters, no null character. *)
Theorem X20_plain_update_can_duplicate_a_code a b db :
  articulos db !! Articulo.articulo_id a = Some a →
  articulos db !! Articulo.articulo_id b = Some b →
  Articulo.articulo_id a ≠ Articulo.articulo_id b →
  is_Some (grupos_articulos db !! Articulo.grupo a) →
  is_Some (lineas_articulos db !! Articulo.linea a) →
  stripped (Articulo.codigo_articulo b) →
  text_ok 25 (Articulo.codigo_articulo b) →
  ∃ a' db',
    ArticuloSerializer.save true a
      (ArticuloSerializer.mk (Some (Articulo.codigo_articulo b)) None None None None) db
    = (Return a', db')
    ∧ articulos db' !! Articulo.articulo_id a = Some a'
    ∧ articulos db' !! Articulo.articulo_id b = Some b
    ∧ Articulo.codigo_articulo a' = Articulo.codigo_articulo b
    ∧ ¬ codigos_unicos db'.
Proof.
  intros Ha Hb Hne [g Hg] [l Hl] _ Hok%CharField_text_ok.
  unfold ArticuloSerializer.save, bind, query, ArticuloSerializer.run_validation. simpl.
  rewrite Hok. simpl.
  unfold ArticuloSerializer.update, bind, Articulo_save, ret. simpl.
  rewrite !decide_False by congruence.
  do 2 eexists. split; [reflexivity |]. simpl.
  assert (H1 : ∀ x, <[Articulo.articulo_id a := x]> (articulos db) !! Articulo.articulo_id a
                    = Some x) by (intros; apply lookup_insert_eq).
  assert (H2 : ∀ x, <[Articulo.articulo_id a := x]> (articulos db) !! Articulo.articulo_id b
                    = Some b) by (intros; by rewrite lookup_insert_ne).
  split_and!; [apply H1 | apply H2 | reflexivity |].
  intros Huniq. apply Hne. eapply Huniq; [apply H1 | apply H2 | reflexivity].
Qed.

Lemma X20_plain_update_can_duplicate_a_code_witness :
  ∃ a' db',
    ArticuloSerializer.save true articulo_papas
      (ArticuloSerializer.mk (Some "COLA-500") None None None None) ejemplo_db
    = (Return a', db')
    ∧ articulos db' !! 22%N = Some a'
    ∧ articulos db' !! 21%N = Some articulo_cola
    ∧ Articulo.codigo_articulo a' = "COLA-500"
    ∧ ¬ codigos_unicos db'.
Proof.
  apply (X20_plain_update_can_duplicate_a_code articulo_papas articulo_cola ejemplo_db).
  - reflexivity.
  - reflexivity.
  - discriminate.
  - vm_compute. eauto.
  - vm_compute. eauto.
  - vm_compute. exact I.
  - unfold text_ok.
    split_and!; [discriminate | vm_compute; lia
                | apply (bool_decide_unpack _); vm_compute; exact I].
Defined.

(** *** The run-time choice of output fields *)

Section dynamic_fields.
Context {F : Type}.
Implicit Types (fields : list (string * F)) (names allowed visit : list string).

Lemma filter_ext_in {A} (P Q : A → Prop) `{!∀ x, Decision (P x)} `{!∀ x, Decision (Q x)}
    (l : list A) :
  (∀ x, x ∈ l → P x ↔ Q x) → filter P l = filter Q l.
Proof.
  induction l as [| x l IH]; intros Hext; [done |].
  rewrite !filter_cons.
  rewrite IH by (intros y Hy; apply Hext; by right).
  destruct (decide (P x)) as [HP | HP], (decide (Q x)) as [HQ | HQ]; try done;
    exfalso; apply (Hext x (list_elem_of_here _ _)) in HP || apply HP, (Hext x); try done;
    by left.
Qed.

Lemma pop_Some field_name fields :
  field_name ∈ fields.*1 →
  DynamicFieldsModelSerializer.pop field_name fields
  = Some (filter (λ kv, kv.1 ≠ field_name) fields).
Proof. intros Hin. unfold DynamicFieldsModelSerializer.pop. by rewrite decide_True. Qed.

Lemma pop_None field_name fields :
  field_name ∉ fields.*1 → DynamicFieldsModelSerializer.pop field_name fields = None.
Proof. intros Hin. unfold DynamicFieldsModelSerializer.pop. by rewrite decide_False. Qed.

(** Popping distinct names that are all keys removes exactly them. *)
Lemma pop_each_Some names fields :
  NoDup names → (∀ n, n ∈ names → n ∈ fields.*1) →
  DynamicFieldsModelSerializer.pop_each names fields
  = Some (filter (λ kv, kv.1 ∉ names) fields).
Proof.
  revert fields. induction names as [| n names IH]; intros fields Hnodup Hkeys.
  - simpl. f_equal. symmetry. clear. induction fields as [| kv fields IH]; [done |].
    rewrite filter_cons, decide_True by apply not_elem_of_nil. by f_equal.
  - apply NoDup_cons in Hnodup as [Hn Hnodup]. simpl.
    rewrite pop_Some by (apply Hkeys; by left).
    rewrite IH; [| done |].
    + f_equal. rewrite list_filter_filter. apply filter_ext_in.
      intros kv _. rewrite not_elem_of_cons. tauto.
    + intros m Hm.
      assert (Hmn : m ≠ n) by (intros ->; done).
      pose proof (Hkeys m (list_elem_of_further _ _ _ Hm)) as Hin.
      apply list_elem_of_fmap in Hin as (kv & -> & Hkv).
      apply list_elem_of_fmap. exists kv. split; [done |].
      by apply list_elem_of_filter.
Qed.

(** What [existing - allowed] holds: names of fields, and among the
    names of fields exactly those that were not asked for. *)
Lemma to_remove_is_key allowed fields n :
  n ∈ elements (DynamicFieldsModelSerializer.to_remove allowed fields) → n ∈ fields.*1.
Proof.
  rewrite elem_of_elements. unfold DynamicFieldsModelSerializer.to_remove.
  rewrite elem_of_difference, !elem_of_list_to_set. tauto.
Qed.

Lemma to_remove_not_allowed allowed fields kv :
  kv ∈ fields →
  kv.1 ∉ elements (DynamicFieldsModelSerializer.to_remove allowed fields) ↔ kv.1 ∈ allowed.
Proof.
  intros Hkv. rewrite elem_of_elements. unfold DynamicFieldsModelSerializer.to_remove.
  rewrite elem_of_difference, !elem_of_list_to_set.
  assert (kv.1 ∈ fields.*1) by (apply list_elem_of_fmap; eauto).
  split; [| tauto]. intros Hnot.
  destruct (decide (kv.1 ∈ allowed)); [done | tauto].
Qed.

(** X21: whatever order the loop visits the set [existing - allowed] in,
    [__init__] raises no KeyError and leaves the same dictionary: the
    fields whose name is in the list that was passed, in their declared
    order and with their declared field. *)
Theorem X21_init_any_order visit allowed fields :
  visit ≡ₚ elements (DynamicFieldsModelSerializer.to_remove allowed fields) →
  DynamicFieldsModelSerializer.init_visiting visit (Some allowed) fields
  = Some (filter (λ kv, kv.1 ∈ allowed) fields).
Proof.
  intros Hperm. simpl. rewrite pop_each_Some.
  - f_equal. apply filter_ext_in. intros kv Hkv.
    rewrite Hperm. by apply to_remove_not_allowed.
  - rewrite Hperm. apply NoDup_elements.
  - intros n. rewrite Hperm. apply to_remove_is_key.
Qed.

(** X22: [__init__] keeps the fields that were asked for and exist, and
    only those: without a [fields] argument nothing changes; a name that
    is no field is ignored; narrowing twice is narrowing to the names
    in both lists, and narrowing again with the same list changes
    nothing. *)
Theorem X22_init_keeps_requested fields :
  DynamicFieldsModelSerializer.init None fields = Some fields
  ∧ (∀ allowed,
       DynamicFieldsModelSerializer.init (Some allowed) fields
       = Some (filter (λ kv, kv.1 ∈ allowed) fields))
  ∧ (∀ allowed kept,
       DynamicFieldsModelSerializer.init (Some allowed) fields = Some kept →
       kept.*1 = filter (λ n, n ∈ allowed) (fields.*1)
       ∧ kept `sublist_of` fields
       ∧ (∀ n, n ∉ fields.*1 → n ∉ kept.*1))
  ∧ (∀ allowed1 allowed2 kept,
       DynamicFieldsModelSerializer.init (Some allowed1) fields = Some kept →
       DynamicFieldsModelSerializer.init (Some allowed2) kept
       = Some (filter (λ kv, kv.1 ∈ allowed1 ∧ kv.1 ∈ allowed2) fields))
  ∧ (∀ allowed kept,
       DynamicFieldsModelSerializer.init (Some allowed) fields = Some kept →
       DynamicFieldsModelSerializer.init (Some allowed) kept = Some kept).
Proof.
  assert (Hinit : ∀ allowed fields',
            DynamicFieldsModelSerializer.init (Some allowed) fields'
            = Some (filter (λ kv, kv.1 ∈ allowed) fields')).
  { intros allowed fields'. unfold DynamicFieldsModelSerializer.init. simpl.
    rewrite pop_each_Some.
    - f_equal. apply filter_ext_in. intros kv Hkv. by apply to_remove_not_allowed.
    - apply NoDup_elements.
    - apply to_remove_is_key. }
  split_and!.
  - reflexivity.
  - intros allowed. apply Hinit.
  - intros allowed kept. rewrite Hinit. intros [= <-]. split_and!.
    + clear. induction fields as [| kv l IH]; [done |].
      rewrite fmap_cons, !filter_cons. case_decide; [rewrite fmap_cons |]; by rewrite IH.
    + apply sublist_filter.
    + intros n Hn (kv & -> & [_ Hkv]%list_elem_of_filter)%list_elem_of_fmap.
      apply Hn, list_elem_of_fmap. eauto.
  - intros allowed1 allowed2 kept. rewrite !Hinit. intros [= <-].
    f_equal. rewrite list_filter_filter. apply filter_ext_in. tauto.
  - intros allowed kept. rewrite !Hinit. intros [= <-].
    f_equal. by apply list_filter_filter_r.
Qed.

End dynamic_fields.

Lemma X21_init_any_order_witness :
  DynamicFieldsModelSerializer.init_visiting
    ["presentacion"; "grupo"; "articulo_id"; "linea"; "descripcion"; "codigo_barras"]
    (Some ["stock"; "codigo_articulo"; "precio"])
    ((λ n, (n, tt)) <$> ArticuloDynamicSerializer_fields)
  = Some [("codigo_articulo", tt); ("stock", tt)].
Proof.
  rewrite (X21_init_any_order
             ["presentacion"; "grupo"; "articulo_id"; "linea"; "descripcion"; "codigo_barras"]
             ["stock"; "codigo_articulo"; "precio"]
             ((λ n, (n, tt)) <$> ArticuloDynamicSerializer_fields)).
  - vm_compute. reflexivity.
  - apply NoDup_Permutation.
    + apply (bool_decide_unpack _). vm_compute. exact I.
    + apply NoDup_elements.
    + intros n. rewrite elem_of_elements.
      unfold DynamicFieldsModelSerializer.to_remove.
      rewrite elem_of_difference, !elem_of_list_to_set.
      unfold ArticuloDynamicSerializer_fields. simpl.
      rewrite !elem_of_cons, !elem_of_nil.
      split.
      * intros [-> | [-> | [-> | [-> | [-> | [-> | []]]]]]];
          (split; [tauto | intros [[=] | [[=] | [[=] | []]]]]).
      * intros [[-> | [-> | [-> | [-> | [-> | [-> | [-> | [-> | []]]]]]]]] Hnot]; tauto.
Defined.

Lemma X22_init_keeps_requested_witness :
  DynamicFieldsModelSerializer.init (Some ["stock"; "codigo_articulo"; "precio"])
    ((λ n, (n, tt)) <$> ArticuloDynamicSerializer_fields)
  = Some [("codigo_articulo", tt); ("stock", tt)]
  ∧ DynamicFieldsModelSerializer.init (Some ["stock"; "codigo_articulo"; "precio"])
      [("codigo_articulo", tt); ("stock", tt)]
    = Some [("codigo_articulo", tt); ("stock", tt)].
Proof.
  destruct (X22_init_keeps_requested ((λ n, (n, tt)) <$> ArticuloDynamicSerializer_fields))
    as (_ & Hinit & _ & _ & Hidem).
  assert (Hrun : DynamicFieldsModelSerializer.init (Some ["stock"; "codigo_articulo"; "precio"])
                   ((λ n, (n, tt)) <$> ArticuloDynamicSerializer_fields)
                 = Some [("codigo_articulo", tt); ("stock", tt)]).
  { rewrite Hinit. vm_compute. reflexivity. }
  split; [exact Hrun |]. exact (Hidem _ _ Hrun).
Defined.

(** *** Two saves in either order *)

(** Writing an item row does not change the sum of an order that
    neither the row nor the row it replaces belongs to. *)
Lemma suma_items_insert_other nro x db :
  ItemOrdenCompraCliente.pedido x ≠ nro →
  (∀ old, items_ordenes_compra_cliente db !! ItemOrdenCompraCliente.item_id x = Some old →
          ItemOrdenCompraCliente.pedido old ≠ nro) →
  suma_items nro (with_items_orden <[ItemOrdenCompraCliente.item_id x := x]> db)
  = suma_items nro db.
Proof.
  intros Hx Hold. rewrite suma_items_insert, decide_False by done.
  destruct (items_ordenes_compra_cliente db !! ItemOrdenCompraCliente.item_id x)
    as [old |] eqn:Hk.
  - unfold suma_items. simpl. rewrite map_filter_delete, delete_id; [lia |].
    apply map_lookup_filter_None. right. intros y Hy. simpl.
    rewrite Hk in Hy. injection Hy as <-. by apply Hold.
  - rewrite suma_items_delete_absent by done. lia.
Qed.

Lemma set_importe_set_importe t t' o :
  OrdenCompraCliente.set_importe t (OrdenCompraCliente.set_importe t' o)
  = OrdenCompraCliente.set_importe t o.
Proof. reflexivity. Qed.

Lemma pre_save_sin_fecha force_insert self db :
  sin_fecha (ItemOrdenCompraCliente_pre_save force_insert self db) = sin_fecha self.
Proof.
  unfold ItemOrdenCompraCliente_pre_save.
  by destruct (ItemOrdenCompraCliente_adding _ _ _), self.
Qed.

(** The sum of an order does not look at the dates of creation. *)
Lemma sum_sin_fecha nro (m : gmap N ItemOrdenCompraCliente.t) :
  sum_total_item (filter (λ kv, ItemOrdenCompraCliente.pedido kv.2 = nro) (sin_fecha <$> m))
  = sum_total_item (filter (λ kv, ItemOrdenCompraCliente.pedido kv.2 = nro) m).
Proof.
  induction m as [| i x m Hi _ IH] using map_first_key_ind.
  - by rewrite fmap_empty.
  - rewrite fmap_insert.
    destruct (decide (ItemOrdenCompraCliente.pedido x = nro)) as [Hp | Hp].
    + rewrite !map_filter_insert_True by done.
      rewrite !sum_total_item_insert.
      * by rewrite IH.
      * apply map_lookup_filter_None. by left.
      * apply map_lookup_filter_None. left. by rewrite lookup_fmap, Hi.
    + rewrite !map_filter_insert_False by done.
      rewrite (delete_id m) by done.
      rewrite (delete_id (sin_fecha <$> m)) by (by rewrite lookup_fmap, Hi).
      exact IH.
Qed.

Lemma suma_items_ext nro db1 db2 :
  sin_fecha <$> items_ordenes_compra_cliente db1
  = sin_fecha <$> items_ordenes_compra_cliente db2 →
  suma_items nro db1 = suma_items nro db2.
Proof.
  intros Heq. unfold suma_items. by rewrite <- (sum_sin_fecha nro), Heq, sum_sin_fecha.
Qed.

(** A returning [save] at some time of the clock, by its effect on the
    two tables it writes. *)
Lemma save_item_at_Return force_insert self db t self' db' :
  ordenes_por_pk db →
  ItemOrdenCompraCliente_save force_insert self (at_time t db) = (Return self', db') →
  ∃ o,
    ordenes_compra_cliente db !! ItemOrdenCompraCliente.pedido self = Some o
    ∧ items_ordenes_compra_cliente db'
      = <[ItemOrdenCompraCliente.item_id self := self']> (items_ordenes_compra_cliente db)
    ∧ ordenes_compra_cliente db'
      = <[ItemOrdenCompraCliente.pedido self :=
            OrdenCompraCliente.set_importe
              (suma_items (ItemOrdenCompraCliente.pedido self) db') o]>
          (ordenes_compra_cliente db)
    ∧ sin_fecha self' = sin_fecha (recalculado self)
    ∧ ordenes_por_pk db'.
Proof.
  intros Hwf Hs.
  pose proof Hs as (o & -> & Ho & _ & Hitems & Hord & _)%save_item_Return.
  simpl in Ho, Hitems, Hord. rewrite (Hwf _ _ Ho) in Hord.
  exists o. split_and!; try done.
  - apply pre_save_sin_fecha.
  - unfold ordenes_por_pk. rewrite Hord. apply map_Forall_insert_2; [| done].
    simpl. by apply (Hwf _ _ Ho).
Qed.

(** X23: two saves of items with different keys, neither moving a
    stored item to another order, made one after the other at any times
    of the clock. When the four saves of the two orders return, either
    order leaves the same order rows and the same item rows, up to the
    dates of creation that the inserts take from the clock. When a save
    raises the two orders can differ: one unit at 100000000.00 and one
    unit at 1.00 leave an importe of 100000000.00 in one order, where
    the second save fails to read the importe back, and of 100000001.00
    in the other. *)
Theorem X23_saves_commute :
  (∀ fa a fb b db t1 t2 t3 t4 a1 dbA b1 dbAB b2 dbB a2 dbBA,
     ordenes_por_pk db →
     ItemOrdenCompraCliente.item_id a ≠ ItemOrdenCompraCliente.item_id b →
     (∀ old, items_ordenes_compra_cliente db !! ItemOrdenCompraCliente.item_id a = Some old →
             ItemOrdenCompraCliente.pedido old = ItemOrdenCompraCliente.pedido a) →
     (∀ old, items_ordenes_compra_cliente db !! ItemOrdenCompraCliente.item_id b = Some old →
             ItemOrdenCompraCliente.pedido old = ItemOrdenCompraCliente.pedido b) →
     ItemOrdenCompraCliente_save fa a (at_time t1 db) = (Return a1, dbA) →
     ItemOrdenCompraCliente_save fb b (at_time t2 dbA) = (Return b1, dbAB) →
     ItemOrdenCompraCliente_save fb b (at_time t3 db) = (Return b2, dbB) →
     ItemOrdenCompraCliente_save fa a (at_time t4 dbB) = (Return a2, dbBA) →
     ordenes_compra_cliente dbAB = ordenes_compra_cliente dbBA
     ∧ sin_fecha <$> items_ordenes_compra_cliente dbAB
       = sin_fecha <$> items_ordenes_compra_cliente dbBA)
  ∧ (importe_of 1
       (exec (ItemOrdenCompraCliente_save true item_uno)
          (exec (ItemOrdenCompraCliente_save true item_cien_millones) ejemplo_db))
     = Some 10000000000
     ∧ importe_of 1
         (exec (ItemOrdenCompraCliente_save true item_cien_millones)
            (exec (ItemOrdenCompraCliente_save true item_uno) ejemplo_db))
       = Some 10000000100).
Proof.
  split; [| split; vm_compute; reflexivity].
  intros fa a fb b db t1 t2 t3 t4 a1 dbA b1 dbAB b2 dbB a2 dbBA Hwf Hne Hsa Hsb HA HAB HB HBA.
  apply (save_item_at_Return _ _ _ _ _ _ Hwf) in HA
    as (oa & Hoa & HitA & HordA & Ha1 & HwfA).
  apply (save_item_at_Return _ _ _ _ _ _ Hwf) in HB
    as (ob & Hob & HitB & HordB & Hb2 & HwfB).
  apply (save_item_at_Return _ _ _ _ _ _ HwfA) in HAB
    as (ob1 & Hob1 & HitAB & HordAB & Hb1 & _).
  apply (save_item_at_Return _ _ _ _ _ _ HwfB) in HBA
    as (oa1 & Hoa1 & HitBA & HordBA & Ha2 & _).
  assert (Hitems : sin_fecha <$> items_ordenes_compra_cliente dbAB
                   = sin_fecha <$> items_ordenes_compra_cliente dbBA).
  { rewrite HitAB, HitBA, HitA, HitB, !fmap_insert, Ha1, Ha2, Hb1, Hb2.
    by apply insert_insert_ne. }
  split; [| exact Hitems].
  assert (Hsum : ∀ nro, suma_items nro dbAB = suma_items nro dbBA)
    by (intros nro; by apply suma_items_ext).
  rewrite HordAB, HordBA, HordA, HordB, Hsum.
  rewrite HordA in Hob1. rewrite HordB in Hoa1.
  destruct (decide (ItemOrdenCompraCliente.pedido a = ItemOrdenCompraCliente.pedido b))
    as [Hp | Hp].
  - rewrite Hp in *. rewrite lookup_insert_eq in Hob1, Hoa1.
    injection Hob1 as <-. injection Hoa1 as <-.
    rewrite !set_importe_set_importe, !insert_insert_eq. congruence.
  - rewrite lookup_insert_ne in Hob1, Hoa1 by done.
    assert (ob1 = ob) as -> by congruence. assert (oa1 = oa) as -> by congruence.
    rewrite (insert_insert_ne _ (ItemOrdenCompraCliente.pedido b)) by done.
    assert (HsA : suma_items (ItemOrdenCompraCliente.pedido a) dbA
                  = suma_items (ItemOrdenCompraCliente.pedido a) dbBA).
    { rewrite <- Hsum. unfold suma_items. rewrite HitAB.
      pose proof (suma_items_insert_other (ItemOrdenCompraCliente.pedido a) b1 dbA) as Hother.
      unfold suma_items in Hother. simpl in Hother.
      assert (Hid : ItemOrdenCompraCliente.item_id b1 = ItemOrdenCompraCliente.item_id b).
      { apply (f_equal ItemOrdenCompraCliente.item_id) in Hb1. exact Hb1. }
      assert (Hpb : ItemOrdenCompraCliente.pedido b1 = ItemOrdenCompraCliente.pedido b).
      { apply (f_equal ItemOrdenCompraCliente.pedido) in Hb1. exact Hb1. }
      rewrite Hid in Hother. symmetry. apply Hother.
      - rewrite Hpb. congruence.
      - rewrite HitA, lookup_insert_ne by done.
        intros old Hold. rewrite (Hsb old Hold). congruence. }
    assert (HsB : suma_items (ItemOrdenCompraCliente.pedido b) dbB
                  = suma_items (ItemOrdenCompraCliente.pedido b) dbBA).
    { unfold suma_items. rewrite HitBA.
      pose proof (suma_items_insert_other (ItemOrdenCompraCliente.pedido b) a2 dbB) as Hother.
      unfold suma_items in Hother. simpl in Hother.
      assert (Hid : ItemOrdenCompraCliente.item_id a2 = ItemOrdenCompraCliente.item_id a).
      { apply (f_equal ItemOrdenCompraCliente.item_id) in Ha2. exact Ha2. }
      assert (Hpa : ItemOrdenCompraCliente.pedido a2 = ItemOrdenCompraCliente.pedido a).
      { apply (f_equal ItemOrdenCompraCliente.pedido) in Ha2. exact Ha2. }
      rewrite Hid in Hother. symmetry. apply Hother.
      - rewrite Hpa. congruence.
      - rewrite HitB, lookup_insert_ne by done.
        intros old Hold. rewrite (Hsa old Hold). congruence. }
    by rewrite HsA, HsB.
Qed.

Lemma X23_saves_commute_witness :
  ordenes_compra_cliente db_tras_b
  = ordenes_compra_cliente
      (exec (ItemOrdenCompraCliente_save true item_a)
         (at_time 7 (exec (ItemOrdenCompraCliente_save true item_b) (at_time 5 ejemplo_db))))
  ∧ importe_of 1 db_tras_b = Some 1250.
Proof.
  split; [| vm_compute; reflexivity].
  refine (proj1 (proj1 X23_saves_commute true item_a true item_b ejemplo_db 0 0 5 7
                   stored_a db_tras_a stored_b db_tras_b
                   (ItemOrdenCompraCliente.set_fecha_creacion 5 stored_b)
                   (exec (ItemOrdenCompraCliente_save true item_b) (at_time 5 ejemplo_db))
                   (ItemOrdenCompraCliente.set_fecha_creacion 7 stored_a)
                   (exec (ItemOrdenCompraCliente_save true item_a)
                      (at_time 7 (exec (ItemOrdenCompraCliente_save true item_b)
                                    (at_time 5 ejemplo_db))))
                   _ _ _ _ _ _ _ _)).
  - apply map_Forall_singleton. reflexivity.
  - discriminate.
  - intros old Hold. vm_compute in Hold. discriminate Hold.
  - intros old Hold. vm_compute in Hold. discriminate Hold.
  - vm_compute. reflexivity.
  - vm_compute. reflexivity.
  - vm_compute. reflexivity.
  - vm_compute. reflexivity.
Defined.

(** *** Creating an order item through its serializer *)

Lemma optional_PositiveIntegerField_passes (v : option Z) db :
  (∀ l, optional_field (λ v, PositiveIntegerField v db) v ≠ Raise (ValidationError (Msgs l)))
  ↔ ∀ n, v = Some n → 0 ≤ n ≤ Z.of_N (integer_max db).
Proof.
  destruct v as [n |]; simpl; [| split; [by intros _ n | by intros _ l]].
  destruct (PositiveIntegerField_outcome n db) as [Hok | [l Hl]].
  - rewrite Hok. apply PositiveIntegerField_Return in Hok as [_ Hrange].
    split; [| done]. by intros _ m [= <-].
  - rewrite Hl. split; [intros Hs; exfalso; by eapply Hs |].
    intros Hn. specialize (Hn n eq_refl). exfalso.
    assert (Hok : PositiveIntegerField n db = Return n)
      by (by apply PositiveIntegerField_Return).
    congruence.
Qed.

Lemma optional_DecimalField_passes (v : option Z) :
  (∀ l, optional_field (DecimalField []) v ≠ Raise (ValidationError (Msgs l)))
  ↔ ∀ n, v = Some n → fits 12 n.
Proof.
  destruct v as [n |]; simpl; [| split; [by intros _ n | by intros _ l]].
  destruct (DecimalField_outcome [] n) as [Hok | [l Hl]].
  - rewrite Hok. apply DecimalField_Return in Hok as (_ & Hfits & _).
    split; [| done]. by intros _ m [= <-].
  - rewrite Hl. split; [intros Hs; exfalso; by eapply Hs |].
    intros Hn. specialize (Hn n eq_refl). exfalso.
    assert (Hok : DecimalField [] n = Return n).
    { apply DecimalField_Return. split_and!; [done | done | constructor]. }
    congruence.
Qed.

Lemma articulo_exists_passes pk db :
  (∀ l, ItemOrdenSerializer.articulo_exists pk db ≠ Raise (ValidationError (Msgs l)))
  ↔ is_Some (articulos db !! pk).
Proof.
  unfold ItemOrdenSerializer.articulo_exists.
  destruct (articulos db !! pk); split; try done; eauto.
  all: try (intros Hs; exfalso; by eapply Hs); try (by intros [? [=]]).
Qed.

Lemma item_field_errors_empty d db :
  ItemOrdenSerializer.field_errors d db = ∅
  ↔ (∀ n, ItemOrdenSerializer.nro_item d = Some n → 0 ≤ n ≤ Z.of_N (integer_max db))
    ∧ is_Some (articulos db !! ItemOrdenSerializer.articulo d)
    ∧ (∀ n, ItemOrdenSerializer.cantidad d = Some n → 0 ≤ n ≤ Z.of_N (integer_max db))
    ∧ (∀ n, ItemOrdenSerializer.precio_unitario d = Some n → fits 12 n)
    ∧ (∀ n, ItemOrdenSerializer.total_item d = Some n → fits 12 n).
Proof.
  rewrite <- !optional_PositiveIntegerField_passes, <- !optional_DecimalField_passes,
    <- articulo_exists_passes.
  unfold ItemOrdenSerializer.field_errors.
  split.
  - intros Hempty.
    assert (Hall : ∀ k, ItemOrdenSerializer.field_errors d db !! k = None)
      by (by apply map_empty).
    unfold ItemOrdenSerializer.field_errors in Hall.
    pose proof (Hall "nro_item") as H1. pose proof (Hall "articulo") as H2.
    pose proof (Hall "cantidad") as H3. pose proof (Hall "precio_unitario") as H4.
    pose proof (Hall "total_item") as H5.
    rewrite field_error_None in H1.
    rewrite !field_error_ne in H2 by done. rewrite field_error_None in H2.
    rewrite !field_error_ne in H3 by done. rewrite field_error_None in H3.
    rewrite !field_error_ne in H4 by done. rewrite field_error_None in H4.
    rewrite !field_error_ne in H5 by done. rewrite field_error_None in H5.
    tauto.
  - intros (H1 & H2 & H3 & H4 & H5).
    assert (Hret : ∀ {A} name (r : outcome A) errors,
              (∀ l, r ≠ Raise (ValidationError (Msgs l))) → field_error name r errors = errors).
    { intros A name r errors Hs. destruct r as [a | [| | | | | | [l | m]]]; try done.
      by destruct (Hs l). }
    by rewrite !Hret.
Qed.

(** X24: creating an order item through its serializer. When the save
    returns, the item is stored under the key drawn by uuid4, with
    quantity and item number 1 and unit price 0 where the request was
    silent, with quantity times unit price as its total and the time of
    the clock as its date of creation; the key was free, the order, the
    article and the user exist, the counters that were sent are within
    the range of their columns and the decimals that were sent have at
    most 12 digits. An order that does not exist is no validation
    error: for a request that passes validation the save raises another
    exception and writes nothing. *)
Theorem X24_item_create env pedido creado_por d db :
  (∀ item db',
     ItemOrdenSerializer.save_new env pedido creado_por d db = (Return item, db') →
     items_ordenes_compra_cliente db' !! uuid4 env = Some item
     ∧ item
       = ItemOrdenCompraCliente.mk (uuid4 env) pedido
           (default 1 (ItemOrdenSerializer.nro_item d))
           (ItemOrdenSerializer.articulo d)
           (default 1 (ItemOrdenSerializer.cantidad d))
           (default 0 (ItemOrdenSerializer.precio_unitario d))
           (default 1 (ItemOrdenSerializer.cantidad d)
            * default 0 (ItemOrdenSerializer.precio_unitario d))
           (ACTIVO env) creado_por (clock db)
     ∧ items_ordenes_compra_cliente db !! uuid4 env = None
     ∧ is_Some (ordenes_compra_cliente db !! pedido)
     ∧ is_Some (articulos db !! ItemOrdenSerializer.articulo d)
     ∧ creado_por ∈ usuarios db
     ∧ (∀ n, ItemOrdenSerializer.nro_item d = Some n → 0 ≤ n ≤ Z.of_N (integer_max db))
     ∧ (∀ n, ItemOrdenSerializer.cantidad d = Some n → 0 ≤ n ≤ Z.of_N (integer_max db))
     ∧ (∀ n, ItemOrdenSerializer.precio_unitario d = Some n → fits 12 n)
     ∧ (∀ n, ItemOrdenSerializer.total_item d = Some n → fits 12 n))
  ∧ (ItemOrdenSerializer.run_validation d db = Return d →
     ordenes_compra_cliente db !! pedido = None →
     ∃ e,
       ItemOrdenSerializer.save_new env pedido creado_por d db = (Raise e, db)
       ∧ ∀ detail, e ≠ ValidationError detail).
Proof.
  unfold ItemOrdenSerializer.save_new, bind, query, ItemOrdenSerializer.run_validation.
  case_decide as Hfields.
  - unfold ItemOrdenSerializer.create. split.
    + intros item db' Hs.
      pose proof (proj1 (item_field_errors_empty d db) Hfields) as (Hn & Ha & Hc & Hp & Ht).
      pose proof Hs as Hfresh%save_item_forced_fresh.
      pose proof Hs as (o & -> & Ho & _ & -> & _)%save_item_Return.
      rewrite save_item_eq in Hs.
      destruct (ItemOrdenCompraCliente_super_save _ _ db) as [[self1 | e] db1] eqn:Hsuper;
        [| discriminate].
      apply super_save_Return in Hsuper as (_ & _ & _ & _ & _ & _ & Hu & _).
      simpl in *. rewrite lookup_insert_eq.
      split_and!; try done; eauto.
    + intros _ Ho. rewrite save_item_eq.
      destruct (ItemOrdenCompraCliente_super_save _ _ db) as [[self1 | e] db1] eqn:Hsuper.
      * apply super_save_Return in Hsuper as (_ & _ & _ & _ & [o Ho'] & _).
        simpl in Ho'. congruence.
      * pose proof (super_save_Raise _ _ _ _ _ Hsuper) as ->.
        exists e. split; [done |]. intros detail ->. revert Hsuper.
        unfold ItemOrdenCompraCliente_super_save.
        repeat case_decide; try discriminate.
        destruct (_ && _); discriminate.
  - split; [discriminate |]. intros [=].
Qed.

Lemma X24_item_create_witness :
  ∃ e,
    ItemOrdenSerializer.save_new ejemplo_env 7 1
      (ItemOrdenSerializer.mk None 21%N None None None) ejemplo_db
    = (Raise e, ejemplo_db)
    ∧ ∀ detail, e ≠ ValidationError detail.
Proof.
  apply (proj2 (X24_item_create ejemplo_env 7 1
                  (ItemOrdenSerializer.mk None 21%N None None None) ejemplo_db));
    vm_compute; reflexivity.
Defined.
